(** * The week-3 conversational engine, embedded and verified

    A shallow embedding of [src/examples/week3_conversational/mod.ts]:
    the prompt interpolator, the transition matcher, the flow registry and
    the per-user conversation state machine of [ConversationalBot].

    Modelling conventions.
    - A JavaScript string is a [string] of 8-bit characters.  Case mapping
      and white space are those of the ASCII range.
    - A JavaScript object literal used as a dictionary is the list of its
      own properties in creation order ([JSObject]); [Object_entries]
      applies the enumeration order of the language (array-index keys
      first, ascending, then the other keys in creation order).  A read
      [o[k]] finds the own property [k] or, failing that, what every
      object inherits from [Object.prototype] ([constructor], [toString],
      ...): [flow.states[name]] is read that way ([states_at]).
    - [Map] objects: [conversations] is a [gmap]; [flows], whose iteration
      order is observable in [detectFlow], is an insertion-ordered list.
    - The session object is shared between the [conversations] map and the
      handler that works on it.  A handler that receives the object also
      receives [key], its place in the map, and every assignment to a field
      of the object is written there ([store]).
    - [new RegExp(pattern, 'i').test(input)] is a parameter of the engine;
      it may fail, which stands for the [SyntaxError] of the constructor.
      [RegExp.test] implements it for the patterns the flows use.
    - An action is a total function on the session object.
    - A handler runs to completion before the next message is handled.
      The transport ([sendMessage]) appends to a transcript, whatever
      the content, and the clock
      ([Date.now()]) is a field of the world that does not move while one
      message is handled. *)

From Stdlib Require Import ZArith NArith Ascii String List Lia Permutation.
From Stdlib Require DecimalString.
From stdpp Require Import base option list gmap strings.

Local Open Scope string_scope.

(** ** JavaScript strings *)

Module JSString.

(** [c.toLowerCase()] on one ASCII character. *)
Definition lower_char (c : ascii) : ascii :=
  let n := nat_of_ascii c in
  if (65 <=? n)%nat && (n <=? 90)%nat then ascii_of_nat (n + 32) else c.

(** [c.toUpperCase()] on one ASCII character. *)
Definition upper_char (c : ascii) : ascii :=
  let n := nat_of_ascii c in
  if (97 <=? n)%nat && (n <=? 122)%nat then ascii_of_nat (n - 32) else c.

(** [s.toLowerCase()] *)
Fixpoint toLowerCase (s : string) : string :=
  match s with
  | EmptyString => EmptyString
  | String c r => String (lower_char c) (toLowerCase r)
  end.

(** White space and line terminators of the ASCII range. *)
Definition is_white (c : ascii) : bool :=
  match nat_of_ascii c with
  | 9 | 10 | 11 | 12 | 13 | 32 => true
  | _ => false
  end.

Fixpoint trimStart (s : string) : string :=
  match s with
  | EmptyString => EmptyString
  | String c r => if is_white c then trimStart r else s
  end.

(** [trimEnd] keeps a character when it is not white space or when
    something survives to its right. *)
Fixpoint trimEnd (s : string) : string :=
  match s with
  | EmptyString => EmptyString
  | String c r =>
      match trimEnd r with
      | EmptyString => if is_white c then EmptyString else String c EmptyString
      | r' => String c r'
      end
  end.

(** [s.trim()] *)
Definition trim (s : string) : string := trimEnd (trimStart s).

(** Drop the first [n] characters. *)
Fixpoint skip (n : nat) (s : string) : string :=
  match n, s with
  | O, _ => s
  | S n', String _ r => skip n' r
  | S _, EmptyString => EmptyString
  end.

(** The first occurrence of [pat] in [s], as the text before it and the
    text after it ([StringIndexOf] from position 0). *)
Fixpoint split_first (pat s : string) : option (string * string) :=
  if String.prefix pat s then Some (EmptyString, skip (String.length pat) s)
  else match s with
       | EmptyString => None
       | String c r =>
           match split_first pat r with
           | Some (a, b) => Some (String c a, b)
           | None => None
           end
       end.

(** [s.includes(pat)] *)
Definition includes (s pat : string) : bool :=
  match split_first pat s with Some _ => true | None => false end.

(** [GetSubstitution] for a string pattern: there are no captures, so
    the only active replacement patterns are [$$], [$&], [$`] and [$']
    ("039" is the apostrophe, "096" the back quote). *)
Fixpoint GetSubstitution (matched before after repl : string) : string :=
  match repl with
  | EmptyString => EmptyString
  | String "$" (String "$" r) =>
      String "$" (GetSubstitution matched before after r)
  | String "$" (String "&" r) =>
      matched ++ GetSubstitution matched before after r
  | String "$" (String "096" r) =>
      before ++ GetSubstitution matched before after r
  | String "$" (String "039" r) =>
      after ++ GetSubstitution matched before after r
  | String c r => String c (GetSubstitution matched before after r)
  end.

(** [s.replace(pat, repl)] with a string pattern: only the first
    occurrence is replaced, and [repl] is a replacement template. *)
Definition replace (s pat repl : string) : string :=
  match split_first pat s with
  | None => s
  | Some (a, b) => a ++ GetSubstitution pat a b repl ++ b
  end.

(** [pat] occurs in [s] as a contiguous substring. *)
Definition occurs (pat s : string) : Prop :=
  exists a b, s = a ++ pat ++ b.

(** The character [c] occurs in [s]. *)
Fixpoint has_char (c : ascii) (s : string) : bool :=
  match s with
  | EmptyString => false
  | String d r => if Ascii.eqb c d then true else has_char c r
  end.

End JSString.

(** ** JavaScript values and objects *)

(** The values a session's [userData] holds.  Numbers and nested objects
    are left out: the only writer in the source stores a string. *)
Inductive JSValue :=
| VUndefined
| VNull
| VBoolean (b : bool)
| VString (s : string).

(** [String(value)] *)
Definition String_ (v : JSValue) : string :=
  match v with
  | VUndefined => "undefined"
  | VNull => "null"
  | VBoolean true => "true"
  | VBoolean false => "false"
  | VString s => s
  end.

Module JSObject.

(** Own properties in creation order. *)
Definition t (V : Type) := list (string * V).

Definition is_digit (c : ascii) : bool :=
  let n := nat_of_ascii c in (48 <=? n)%nat && (n <=? 57)%nat.

(** Value of a string of decimal digits. *)
Fixpoint digits_value (acc : N) (s : string) : option N :=
  match s with
  | EmptyString => Some acc
  | String c r =>
      if is_digit c
      then digits_value (10 * acc + N.of_nat (nat_of_ascii c - 48))%N r
      else None
  end.

(** A key is an array index when it is the canonical decimal form of an
    integer between 0 and 2^32 - 2. *)
Definition array_index (k : string) : option N :=
  match k with
  | EmptyString => None
  | String "0" EmptyString => Some 0%N
  | String "0" _ => None
  | _ =>
      match digits_value 0 k with
      | Some n => if (n <=? 4294967294)%N then Some n else None
      | None => None
      end
  end.

Definition is_index (k : string) : bool :=
  match array_index k with Some _ => true | None => false end.

Section Props.
Context {V : Type}.

(** The own property [k] of [o]; [o[k]] for every [k] that is not the
    name of a member of [Object.prototype]. *)
Fixpoint get (o : t V) (k : string) : option V :=
  match o with
  | [] => None
  | (k', v) :: r => if String.eqb k k' then Some v else get r k
  end.

(** [o[k] = v]: an existing property keeps its place. *)
Fixpoint set (o : t V) (k : string) (v : V) : t V :=
  match o with
  | [] => [(k, v)]
  | (k', v') :: r =>
      if String.eqb k k' then (k, v) :: r else (k', v') :: set r k v
  end.

(** The object denoted by a literal [{k1: v1, ..., kn: vn}]. *)
Definition literal (props : list (string * V)) : t V :=
  fold_left (fun o kv => set o (fst kv) (snd kv)) props [].

(** Insert an array-index property among those already sorted. *)
Fixpoint insert_index (n : N) (kv : string * V)
    (sorted : list (N * (string * V))) : list (N * (string * V)) :=
  match sorted with
  | [] => [(n, kv)]
  | (m, kv') :: r =>
      if (n <? m)%N then (n, kv) :: sorted
      else (m, kv') :: insert_index n kv r
  end.

Fixpoint index_props (o : t V) : list (N * (string * V)) :=
  match o with
  | [] => []
  | (k, v) :: r =>
      match array_index k with
      | Some n => insert_index n (k, v) (index_props r)
      | None => index_props r
      end
  end.

Fixpoint named_props (o : t V) : list (string * V) :=
  match o with
  | [] => []
  | (k, v) :: r =>
      if is_index k then named_props r else (k, v) :: named_props r
  end.

(** [Object.entries(o)]: array-index keys in ascending numeric order,
    then the remaining keys in creation order. *)
Definition Object_entries (o : t V) : list (string * V) :=
  map snd (index_props o) ++ named_props o.

End Props.

(** The names of the members of [Object.prototype], which every object
    made by a literal inherits: the functions of the language and the
    accessor [__proto__]. *)
Definition Object_prototype : list string :=
  [ "constructor"; "hasOwnProperty"; "isPrototypeOf"; "propertyIsEnumerable";
    "toLocaleString"; "toString"; "valueOf";
    "__defineGetter__"; "__defineSetter__"; "__lookupGetter__"; "__lookupSetter__";
    "__proto__" ].

Definition inherits (k : string) : bool :=
  existsb (String.eqb k) Object_prototype.

End JSObject.

(** ** Prompt interpolation *)

(** The literal [`{${key}}`]. *)
Definition placeholder (key : string) : string := "{" ++ key ++ "}".

(** The body of the loop of [interpolatePrompt]. *)
Definition interpolate_step (result : string) (kv : string * JSValue) : string :=
  JSString.replace result (placeholder (fst kv)) (String_ (snd kv)).

(** The loop of [interpolatePrompt] over already enumerated entries. *)
Definition interpolate_entries (prompt : string)
    (entries : list (string * JSValue)) : string :=
  fold_left interpolate_step entries prompt.

(** [interpolatePrompt(prompt, state)] as a function of the prompt and of
    [state.userData], the only field it reads. *)
Definition interpolatePrompt (prompt : string)
    (userData : option (JSObject.t JSValue)) : string :=
  match userData with
  | Some data => interpolate_entries prompt (JSObject.Object_entries data)
  | None => prompt
  end.

(** ** Regular expressions

    [new RegExp(pattern, 'i').test(input)] for the fragment of the pattern
    grammar that the flows of the source use: pattern characters, [.],
    escaped syntax characters, groups, alternation and the quantifiers
    [*], [+] and [?].  A pattern outside the fragment has no model here
    ([compile] answers [None]). *)

Module RegExp.

Inductive regex :=
| RNone
| REps
| RChar (c : ascii)
| RDot
| RAlt (r1 r2 : regex)
| RSeq (r1 r2 : regex)
| RStar (r : regex).

Definition is_syntax_char (c : ascii) : bool :=
  match c with
  | "^" | "$" | "\" | "." | "*" | "+" | "?" | "(" | ")"
  | "[" | "]" | "{" | "}" | "|" => true
  | _ => false
  end%char.

Fixpoint parse_disjunction (fuel : nat) (s : string) : option (regex * string) :=
  match fuel with
  | O => None
  | S f =>
      match parse_alternative f s with
      | Some (a, String "|" r) =>
          match parse_disjunction f r with
          | Some (b, r') => Some (RAlt a b, r')
          | None => None
          end
      | other => other
      end
  end
with parse_alternative (fuel : nat) (s : string) : option (regex * string) :=
  match fuel with
  | O => None
  | S f =>
      match s with
      | EmptyString | String "|" _ | String ")" _ => Some (REps, s)
      | _ =>
          match parse_term f s with
          | Some (t, r) =>
              match parse_alternative f r with
              | Some (a, r') => Some (RSeq t a, r')
              | None => None
              end
          | None => None
          end
      end
  end
with parse_term (fuel : nat) (s : string) : option (regex * string) :=
  match fuel with
  | O => None
  | S f =>
      match parse_atom f s with
      | Some (a, String "*" r) => Some (RStar a, r)
      | Some (a, String "+" r) => Some (RSeq a (RStar a), r)
      | Some (a, String "?" r) => Some (RAlt a REps, r)
      | other => other
      end
  end
with parse_atom (fuel : nat) (s : string) : option (regex * string) :=
  match fuel with
  | O => None
  | S f =>
      match s with
      | EmptyString => None
      | String "." r => Some (RDot, r)
      | String "(" r =>
          match parse_disjunction f r with
          | Some (e, String ")" r') => Some (e, r')
          | _ => None
          end
      | String "\" (String c r) =>
          if is_syntax_char c then Some (RChar c, r) else None
      | String c r =>
          if is_syntax_char c then None else Some (RChar c, r)
      end
  end.

(** [new RegExp(pattern, 'i')] on the fragment. *)
Definition compile (pattern : string) : option regex :=
  match parse_disjunction (4 * String.length pattern + 4) pattern with
  | Some (e, EmptyString) => Some e
  | _ => None
  end.

Fixpoint nullable (r : regex) : bool :=
  match r with
  | RNone | RChar _ | RDot => false
  | REps | RStar _ => true
  | RAlt a b => nullable a || nullable b
  | RSeq a b => nullable a && nullable b
  end.

(** [.] matches everything but a line terminator. *)
Definition is_line_terminator (c : ascii) : bool :=
  match nat_of_ascii c with 10 | 13 => true | _ => false end.

(** Characters are compared after canonicalisation (flag [i]). *)
Definition same_char (c d : ascii) : bool :=
  Ascii.eqb (JSString.upper_char c) (JSString.upper_char d).

(** What is left of [r] once the input character [c] is consumed. *)
Fixpoint deriv (c : ascii) (r : regex) : regex :=
  match r with
  | RNone | REps => RNone
  | RChar d => if same_char c d then REps else RNone
  | RDot => if is_line_terminator c then RNone else REps
  | RAlt a b => RAlt (deriv c a) (deriv c b)
  | RSeq a b =>
      if nullable a then RAlt (RSeq (deriv c a) b) (deriv c b)
      else RSeq (deriv c a) b
  | RStar a => RSeq (deriv c a) (RStar a)
  end.

(** Some prefix of [s] matches [r]. *)
Fixpoint matches_at (r : regex) (s : string) : bool :=
  nullable r ||
  match s with
  | EmptyString => false
  | String c s' => matches_at (deriv c r) s'
  end.

(** Some substring of [s] matches [r]: the regex has no [g] or [y]
    flag, so [test] searches from index 0. *)
Fixpoint search (r : regex) (s : string) : bool :=
  matches_at r s ||
  match s with
  | EmptyString => false
  | String _ s' => search r s'
  end.

(** [new RegExp(pattern, 'i').test(input)] *)
Definition test (pattern input : string) : option bool :=
  match compile pattern with
  | Some r => Some (search r input)
  | None => None
  end.

End RegExp.

(** ** Data model *)

(** [interface ConversationState].  [lastInteraction] is a time in
    milliseconds; an absent optional field is [None]. *)
Record ConversationState := mkConversationState {
  userId : string;
  context : list string;
  currentTopic : option string;
  lastInteraction : Z;
  userData : option (JSObject.t JSValue)
}.

Definition set_context (state : ConversationState) (c : list string) :=
  mkConversationState (userId state) c (currentTopic state)
    (lastInteraction state) (userData state).

Definition set_lastInteraction (state : ConversationState) (t : Z) :=
  mkConversationState (userId state) (context state) (currentTopic state)
    t (userData state).

Definition set_userData (state : ConversationState)
    (d : option (JSObject.t JSValue)) :=
  mkConversationState (userId state) (context state) (currentTopic state)
    (lastInteraction state) d.

(** One entry of [ConversationFlow.states].  An action is a state
    transformer: it receives the session object and the raw input. *)
Record StateDefinition := mkStateDefinition {
  prompt : string;
  transitions : JSObject.t string;
  action : option (ConversationState -> string -> ConversationState)
}.

(** [interface ConversationFlow] *)
Record ConversationFlow := mkConversationFlow {
  name : string;
  triggers : list string;
  states : JSObject.t StateDefinition;
  initialState : string
}.

(** What [flow.states[name]] can be besides [undefined]: a state the flow
    declares, or a member of [Object.prototype].  Such a member is a
    function, or the prototype itself: it is truthy, and its [prompt],
    [transitions] and [action] are [undefined]. *)
Inductive StateRef :=
| Declared (def : StateDefinition)
| Inherited.

(** [flow.states[name]] *)
Definition states_at (flow : ConversationFlow) (name : string) : option StateRef :=
  match JSObject.get (states flow) name with
  | Some def => Some (Declared def)
  | None => if JSObject.inherits name then Some Inherited else None
  end.

(** The [content] of a message that was sent: a text, or [undefined]. *)
Inductive Content :=
| Text (text : string)
| NoText.


(** The fields of a Discord [Message] that the bot reads. *)
Record Message := mkMessage {
  isFromBot : bool;
  authorId : N;
  content : string;
  channelId : N
}.

(** [Map<string, ConversationFlow>] in insertion order. *)
Module JSMap.
Section Ops.
Context {V : Type}.

Fixpoint get (m : list (string * V)) (k : string) : option V :=
  match m with
  | [] => None
  | (k', v) :: r => if String.eqb k k' then Some v else get r k
  end.

(** [m.set(k, v)]: the value of an existing key is replaced where it
    stands, a new key goes last.  Nothing is ever refused. *)
Fixpoint set (m : list (string * V)) (k : string) (v : V) : list (string * V) :=
  match m with
  | [] => [(k, v)]
  | (k', v') :: r =>
      if String.eqb k k' then (k, v) :: r else (k', v') :: set r k v
  end.

Definition values (m : list (string * V)) : list V := map snd m.
End Ops.
End JSMap.

(** The mutable world of a [ConversationalBot]: its two maps, what it has
    sent so far (channel and content, oldest first) and the clock. *)
Record Bot := mkBot {
  conversations : gmap string ConversationState;
  flows : list (string * ConversationFlow);
  transcript : list (N * Content);
  clock : Z
}.

Definition set_conversations (b : Bot) (c : gmap string ConversationState) :=
  mkBot c (flows b) (transcript b) (clock b).

Definition set_flows (b : Bot) (f : list (string * ConversationFlow)) :=
  mkBot (conversations b) f (transcript b) (clock b).

Definition set_transcript (b : Bot) (t : list (N * Content)) :=
  mkBot (conversations b) (flows b) t (clock b).

Definition set_clock (b : Bot) (t : Z) :=
  mkBot (conversations b) (flows b) (transcript b) t.

(** ** Handlers as computations on the world *)

Inductive JSError :=
| SyntaxError (pattern : string)
| TypeError.

(** How a call ends: with a value, or with an exception in flight. *)
Inductive completion (A : Type) :=
| Normal (a : A)
| Throw (e : JSError).
Arguments Normal {A} a.
Arguments Throw {A} e.

(** A computation reads and writes the world; what it wrote before an
    exception stays written. *)
Definition M (A : Type) : Type := Bot -> completion A * Bot.

Definition M_ret {A} (a : A) : M A := fun b => (Normal a, b).

Definition M_bind {A B} (f : A -> M B) (m : M A) : M B :=
  fun b =>
    match m b with
    | (Normal a, b') => f a b'
    | (Throw e, b') => (Throw e, b')
    end.

#[global] Instance M_mret : MRet M := @M_ret.
#[global] Instance M_mbind : MBind M := @M_bind.

Definition lift {A} (c : completion A) : M A := fun b => (c, b).

Definition read {A} (f : Bot -> A) : M A := fun b => (Normal (f b), b).

Definition write (f : Bot -> Bot) : M unit := fun b => (Normal tt, f b).

(** [String(n)] for a bigint identifier. *)
Definition N_toString (n : N) : string :=
  DecimalString.NilZero.string_of_uint (N.to_uint n).

(** [await sendMessage(bot, channelId, { content })] *)
Definition sendMessage (channel : N) (content : Content) : M unit :=
  write (fun b => set_transcript b (transcript b ++ [(channel, content)])).

(** A write through the reference [state]: the object is the one the
    [conversations] map holds under [key]. *)
Definition store (key : string) (state : ConversationState) : M unit :=
  write (fun b => set_conversations b (<[key := state]> (conversations b))).

(** [this.conversations.delete(userId)] *)
Definition conversations_delete (user : string) : M unit :=
  write (fun b => set_conversations b (delete user (conversations b))).

Definition sessionTimeout : Z := 5 * 60 * 1000.

(** [isSessionExpired(state)] at time [t]. *)
Definition isSessionExpired (t : Z) (state : ConversationState) : bool :=
  (t - lastInteraction state >? sessionTimeout)%Z.

(** [createConversationState(userId, topic)] at time [t]. *)
Definition createConversationState (t : Z) (user topic : string) : ConversationState :=
  mkConversationState user [] (Some topic) t (Some []).

(** JavaScript truthiness of a string. *)
Definition truthy (s : string) : bool :=
  match s with EmptyString => false | _ => true end.

(** ** The onboarding flow *)

Definition menu_transitions (fallback : string) : list (string * string) :=
  [ ("(1|learn|discord|bot)", "botLearning");
    ("(2|help|coding|code)", "codingHelp");
    ("(3|chat|talk)", "casualChat");
    (".*", fallback) ].

Definition yes_no_transitions (yes : string) : list (string * string) :=
  [ ("(yes|sure|ok|yeah)", yes);
    ("(no|nope)", "complete");
    (".*", "complete") ].

Definition leaf (text : string) : StateDefinition :=
  mkStateDefinition text (JSObject.literal [(".*", "complete")]) None.

(** The action of the [greeting] state:
    [state.userData = { name: input.trim() }]. *)
Definition greeting_action (state : ConversationState) (input : string) :=
  set_userData state
    (Some (JSObject.literal [("name", VString (JSString.trim input))])).

(** The [greeting] state. *)
Definition greeting_state : StateDefinition :=
  mkStateDefinition
    "👋 Hello! I'm your conversational assistant. What's your name?"
    (JSObject.literal [(".*", "askPurpose")])
    (Some greeting_action).

(** [createOnboardingFlow()] *)
Definition createOnboardingFlow : ConversationFlow :=
  mkConversationFlow "onboarding" ["hello"; "hi"; "start"; "help"]
    (JSObject.literal
       [ ("greeting", greeting_state);
         ("askPurpose",
          mkStateDefinition
            "Nice to meet you, {name}! What brings you here today?
1. Learn about Discord bots
2. Get help with coding
3. Just chatting"
            (JSObject.literal (menu_transitions "clarifyPurpose")) None);
         ("clarifyPurpose",
          mkStateDefinition
            "I didn't quite understand. Could you tell me which option you'd prefer? (1, 2, or 3)"
            (JSObject.literal (menu_transitions "askPurpose")) None);
         ("botLearning",
          mkStateDefinition
            "Great! Discord bots are powerful tools. What aspect interests you most?
• Commands and interactions
• Event handling
• API integration"
            (JSObject.literal
               [ ("(command|interaction)", "commandsInfo");
                 ("(event|handling)", "eventsInfo");
                 ("(api|integration)", "apiInfo");
                 (".*", "complete") ]) None);
         ("codingHelp",
          mkStateDefinition
            "I'd be happy to help with coding! What language are you working with?"
            (JSObject.literal
               [ ("(javascript|js|typescript|ts)", "jsHelp");
                 ("(python|py)", "pythonHelp");
                 ("(deno|rust)", "denoRustHelp");
                 (".*", "generalHelp") ]) None);
         ("casualChat", leaf "That's nice! What would you like to talk about?");
         ("commandsInfo",
          mkStateDefinition
            "Commands are the primary way users interact with bots. You can use prefix commands (!help) or slash commands (/help). Would you like to see an example?"
            (JSObject.literal (yes_no_transitions "showExample")) None);
         ("eventsInfo",
          mkStateDefinition
            "Event handling allows your bot to respond to various Discord events like messages, reactions, and member joins. Interested in learning more?"
            (JSObject.literal (yes_no_transitions "showExample")) None);
         ("apiInfo",
          mkStateDefinition
            "The Discord API provides REST endpoints and WebSocket connections for real-time communication. Would you like documentation links?"
            (JSObject.literal (yes_no_transitions "provideLinks")) None);
         ("showExample",
          leaf "Here's a simple Deno example:
```typescript
bot.events.messageCreate = (bot, message) => {
  if (message.content === '!ping') {
    sendMessage(bot, message.channelId, { content: 'Pong!' });
  }
};
```
Anything else you'd like to know?");
         ("provideLinks",
          leaf "Check out these resources:
• Discordeno: https://deno.land/x/discordeno
• Discord API Docs: https://discord.com/developers/docs
• Deno Deploy: https://deno.com/deploy

Is there anything specific you need help with?");
         ("jsHelp",
          leaf "JavaScript/TypeScript works great with Deno! Are you using Discordeno for Discord?");
         ("pythonHelp",
          leaf "Python is great for Discord bots! Are you familiar with discord.py?");
         ("denoRustHelp",
          leaf "Excellent choice! Deno and Rust are both modern and performant. Which one are you focusing on?");
         ("generalHelp",
          leaf "I can help with various programming concepts. What specific challenge are you facing?");
         ("complete",
          mkStateDefinition
            "Thank you for the conversation! Feel free to say 'hi' again anytime you need help. 😊"
            (JSObject.literal []) None) ])
    "greeting".

(** ** The conversation engine *)

(** The two fixed replies of the engine. *)
Definition confused_notice : string := "I'm a bit confused. Let's start over!".
Definition unknown_notice : string := "I didn't understand that. Could you rephrase?".

Section Engine.

(** [new RegExp(pattern, 'i').test(input)]: [None] when the constructor
    throws a [SyntaxError]. *)
Variable RegExp_test : string -> string -> option bool.

(** The [for ... of Object.entries(transitions)] loop of
    [findNextState], then its final [return]. *)
Fixpoint findNextState_loop (userInput : string)
    (entries : list (string * string)) (fallback : option string)
    : completion (option string) :=
  match entries with
  | [] => Normal fallback
  | (pattern, targetState) :: rest =>
      match RegExp_test pattern userInput with
      | None => Throw (SyntaxError pattern)
      | Some true => Normal (Some targetState)
      | Some false => findNextState_loop userInput rest fallback
      end
  end.

(** [findNextState(userInput, transitions)] *)
Definition findNextState (userInput : string) (transitions : JSObject.t string)
    : completion (option string) :=
  findNextState_loop userInput (JSObject.Object_entries transitions)
    (JSObject.get transitions ".*").

(** [detectFlow(content)] over [this.flows.values()]. *)
Definition detectFlow (registered : list (string * ConversationFlow))
    (content : string) : option ConversationFlow :=
  let normalizedContent := JSString.trim (JSString.toLowerCase content) in
  List.find
    (fun flow =>
       existsb (fun trigger => JSString.includes normalizedContent trigger)
         (triggers flow))
    (JSMap.values registered).

(** [handleConfusedState(bot, message, state)] *)
Definition handleConfusedState (message : Message) (state : ConversationState)
    : M unit :=
  sendMessage (channelId message) (Text confused_notice) ;;
  conversations_delete (userId state).

(** [this.interpolatePrompt(currentState.prompt, state)] for what was read
    off [flow.states].  The prompt of a member of [Object.prototype] is
    [undefined]: it is returned as it is when there is nothing to replace,
    and the first [result.replace(...)] is a [TypeError]. *)
Definition renderPrompt (currentState : StateRef)
    (userData : option (JSObject.t JSValue)) : completion Content :=
  match currentState with
  | Declared def => Normal (Text (interpolatePrompt (prompt def) userData))
  | Inherited =>
      match userData with
      | Some data =>
          match JSObject.Object_entries data with
          | [] => Normal NoText
          | _ :: _ => Throw TypeError
          end
      | None => Normal NoText
      end
  end.

(** [handleInitialState(bot, message, state, flow, currentState)] *)
Definition handleInitialState (key : string) (message : Message)
    (state : ConversationState) (flow : ConversationFlow)
    (currentState : StateRef) : M unit :=
  let state := set_context state (context state ++ [initialState flow]) in
  store key state ;;
  prompt ← lift (renderPrompt currentState (userData state));
  sendMessage (channelId message) prompt.

(** [handleUnknownInput(bot, message)] *)
Definition handleUnknownInput (message : Message) : M unit :=
  sendMessage (channelId message) (Text unknown_notice).

(** [transitionToNextState(bot, message, state, flow, nextStateName)] *)
Definition transitionToNextState (key : string) (message : Message)
    (state : ConversationState) (flow : ConversationFlow)
    (nextStateName : string) : M unit :=
  let state := set_context state (context state ++ [nextStateName]) in
  store key state ;;
  match states_at flow nextStateName with
  | Some nextState =>
      prompt ← lift (renderPrompt nextState (userData state));
      sendMessage (channelId message) prompt ;;
      if String.eqb nextStateName "complete"
      then conversations_delete (userId state)
      else mret tt
  | None => mret tt
  end.

(** [processUserInput(bot, message, state, flow, currentState)].  A
    member of [Object.prototype] has no [action], and
    [Object.entries(undefined)] in [findNextState] is a [TypeError]. *)
Definition processUserInput (key : string) (message : Message)
    (state : ConversationState) (flow : ConversationFlow)
    (currentState : StateRef) : M unit :=
  let userInput := JSString.trim (JSString.toLowerCase (content message)) in
  state ← match currentState with
          | Declared def =>
              match action def with
              | Some act =>
                  let state' := act state (content message) in
                  store key state' ;; mret state'
              | None => mret state
              end
          | Inherited => mret state
          end;
  nextStateName ← lift (match currentState with
                        | Declared def => findNextState userInput (transitions def)
                        | Inherited => Throw TypeError
                        end);
  match nextStateName with
  | Some next =>
      if truthy next
      then transitionToNextState key message state flow next
      else handleUnknownInput message
  | None => handleUnknownInput message
  end.

(** [state.context[state.context.length - 1] || flow.initialState] *)
Definition currentStateName (state : ConversationState)
    (flow : ConversationFlow) : string :=
  match last (context state) with
  | Some s => if truthy s then s else initialState flow
  | None => initialState flow
  end.

(** [processConversation(bot, message, state, flow)] *)
Definition processConversation (key : string) (message : Message)
    (state : ConversationState) (flow : ConversationFlow) : M unit :=
  t ← read clock;
  let state := set_lastInteraction state t in
  store key state ;;
  match states_at flow (currentStateName state flow) with
  | None => handleConfusedState message state
  | Some currentState =>
      match context state with
      | [] => handleInitialState key message state flow currentState
      | _ :: _ => processUserInput key message state flow currentState
      end
  end.

(** [handleNewConversation(bot, message, userId)] *)
Definition handleNewConversation (message : Message) (user : string) : M unit :=
  registered ← read flows;
  match detectFlow registered (content message) with
  | Some flow =>
      t ← read clock;
      let state := createConversationState t user (name flow) in
      store user state ;;
      processConversation user message state flow
  | None => mret tt
  end.

(** [handleExistingConversation(bot, message, state)]; [key] is where
    the map holds [state]. *)
Definition handleExistingConversation (key : string) (message : Message)
    (state : ConversationState) : M unit :=
  match currentTopic state with
  | Some flowName =>
      if truthy flowName then
        registered ← read flows;
        match JSMap.get registered flowName with
        | Some flow => processConversation key message state flow
        | None => mret tt
        end
      else mret tt
  | None => mret tt
  end.

(** [handleMessage(bot, message)] *)
Definition handleMessage (message : Message) : M unit :=
  if isFromBot message then mret tt
  else
    let user := N_toString (authorId message) in
    sessions ← read conversations;
    t ← read clock;
    match sessions !! user with
    | Some state =>
        if isSessionExpired t state
        then handleNewConversation message user
        else handleExistingConversation user message state
    | None => handleNewConversation message user
    end.

End Engine.

(** [registerConversationFlows()] *)
Definition registerConversationFlows : M unit :=
  write (fun b => set_flows b (JSMap.set (flows b) "onboarding" createOnboardingFlow)).

(** [cleanupExpiredSessions()] *)
Definition cleanupExpiredSessions : M unit :=
  write (fun b =>
    set_conversations b
      (filter (fun kv => isSessionExpired (clock b) (snd kv) = false)
         (conversations b))).

(** The world right after [new ConversationalBot()] at time [t]. *)
Definition new_ConversationalBot (t : Z) : Bot :=
  snd (registerConversationFlows (mkBot ∅ [] [] t)).

(** The world a handler leaves behind. *)
Definition run {A} (m : M A) (b : Bot) : Bot := snd (m b).

(** What the handler sent, in order. *)
Definition sent_by {A} (m : M A) (b : Bot) : list (N * Content) :=
  skipn (length (transcript b)) (transcript (run m b)).

(** ** Vocabulary of the statements *)

(** What [processUserInput] hands to [findNextState]:
    [message.content.toLowerCase().trim()]. *)
Definition normalize (s : string) : string :=
  JSString.trim (JSString.toLowerCase s).

(** The session object once the current state's action, if any, ran. *)
Definition acted (def : StateDefinition) (state : ConversationState)
    (input : string) : ConversationState :=
  match action def with
  | Some act => act state input
  | None => state
  end.

(** An action that assigns [state.userData] and nothing else, as the one
    action of the source does. *)
Definition writes_userData_only
    (act : ConversationState -> string -> ConversationState) : Prop :=
  forall state input, act state input = set_userData state (userData (act state input)).

Definition flow_actions_ok (flow : ConversationFlow) : Prop :=
  forall sname def act,
    JSObject.get (states flow) sname = Some def ->
    action def = Some act -> writes_userData_only act.

Definition registry_ok (registered : list (string * ConversationFlow)) : Prop :=
  Forall (fun kv => flow_actions_ok (snd kv)) registered.

(** The user has no session, or one that has expired. *)
Definition no_live_session (b : Bot) (user : string) : Prop :=
  match conversations b !! user with
  | Some state => isSessionExpired (clock b) state = true
  | None => True
  end.

(** The store holds [state] for [user], and [state] belongs to the
    registered flow [flow]. *)
Definition session_of (b : Bot) (user : string) (state : ConversationState)
    (flow : ConversationFlow) : Prop :=
  conversations b !! user = Some state /\
  userId state = user /\
  exists fname, currentTopic state = Some fname /\ truthy fname = true /\
                JSMap.get (flows b) fname = Some flow.

(** A session of the store that has not expired. *)
Definition live_session (b : Bot) (user : string) (state : ConversationState)
    (flow : ConversationFlow) : Prop :=
  session_of b user state flow /\ isSessionExpired (clock b) state = false.

(** Every session is stored under the identifier it carries. *)
Definition keyed_by_user (b : Bot) : Prop :=
  forall key state, conversations b !! key = Some state -> userId state = key.

(** A message of a human user. *)
Definition from_user (message : Message) (user : string) : Prop :=
  isFromBot message = false /\ N_toString (authorId message) = user.

(** The message arrives when the clock shows [t]. *)
Definition deliver (tester : string -> string -> option bool)
    (t : Z) (message : Message) (b : Bot) : Bot :=
  run (handleMessage tester message) (set_clock b t).

(** Messages delivered one after the other, each at its own time. *)
Definition deliver_all (tester : string -> string -> option bool)
    (arrivals : list (Z * Message)) (b : Bot) : Bot :=
  fold_left (fun b tm => deliver tester (fst tm) (snd tm) b) arrivals b.

(** No gap between two consecutive arrivals, the first counted from
    [since], exceeds the session timeout. *)
Fixpoint in_time (since : Z) (arrivals : list (Z * Message)) : Prop :=
  match arrivals with
  | [] => True
  | (t, _) :: rest => (t - since <= sessionTimeout)%Z /\ in_time t rest
  end.

(** The store after a handler: the entry under [key] was written with
    [state'], and possibly the entry of [userId state'] was removed. *)
Definition rewritten (key : string) (state' : ConversationState)
    (before after : gmap string ConversationState) : Prop :=
  after = <[key := state']> before \/
  after = delete (userId state') (<[key := state']> before).

(** ** The transition matcher in the words of the specification *)

(** "Patterns are evaluated in declaration order; the first pattern whose
    match succeeds wins." *)
Fixpoint first_declared_match (tester : string -> string -> option bool)
    (input : string) (declared : list (string * string)) : option string :=
  match declared with
  | [] => None
  | (pattern, target) :: rest =>
      match tester pattern input with
      | Some true => Some target
      | _ => first_declared_match tester input rest
      end
  end.

(** "If no explicit pattern matches, and a catch-all pattern exists in
    the transition set, its target is returned; absence of any match
    yields none." *)
Definition catch_all (declared : list (string * string)) : option string :=
  match List.find (fun kv => String.eqb (fst kv) ".*") declared with
  | Some kv => Some (snd kv)
  | None => None
  end.

Definition declared_match (tester : string -> string -> option bool)
    (input : string) (declared : list (string * string)) : option string :=
  match first_declared_match tester input declared with
  | Some target => Some target
  | None => catch_all declared
  end.

(** Every declared pattern is a regular expression the engine accepts. *)
Definition patterns_valid (tester : string -> string -> option bool)
    (input : string) (declared : list (string * string)) : Prop :=
  Forall (fun kv => tester (fst kv) input <> None) declared.

(** No declared key is an array index. *)
Definition no_index_keys {V} (declared : list (string * V)) : Prop :=
  Forall (fun kv => JSObject.is_index (fst kv) = false) declared.

(** ** Vocabulary for templates *)

(** A key or a piece of text without braces. *)
Definition brace_free (s : string) : bool :=
  negb (JSString.has_char "{" s) && negb (JSString.has_char "}" s).

(** Text that is inserted as it is: no brace, and no [$] that could
    start a replacement pattern. *)
Definition plain_text (s : string) : bool :=
  brace_free s && negb (JSString.has_char "$" s).

(** A template seen as a sequence of literal characters and
    placeholders. *)
Inductive token :=
| Lit (c : ascii)
| Hole (key : string).

Definition token_ok (t : token) : bool :=
  match t with
  | Lit c => negb (Ascii.eqb c "{") && negb (Ascii.eqb c "}")
  | Hole key => brace_free key
  end.

(** The text of a token sequence. *)
Fixpoint untok (ts : list token) : string :=
  match ts with
  | [] => EmptyString
  | Lit c :: r => String c (untok r)
  | Hole key :: r => placeholder key ++ untok r
  end.

Fixpoint lits (s : string) : list token :=
  match s with
  | EmptyString => []
  | String c r => Lit c :: lits r
  end.

(** Put the text [v] in place of the first placeholder of [key]. *)
Fixpoint fill_first (key v : string) (ts : list token) : list token :=
  match ts with
  | [] => []
  | Lit c :: r => Lit c :: fill_first key v r
  | Hole key' :: r =>
      if String.eqb key key' then (lits v ++ r)%list
      else Hole key' :: fill_first key v r
  end.

(** The body of the loop of [interpolatePrompt], on tokens. *)
Definition fill_step (ts : list token) (kv : string * JSValue) : list token :=
  fill_first (fst kv) (String_ (snd kv)) ts.

(** [filled keys ts ts']: [ts'] is [ts] where some placeholders of
    [keys] gave way to literal text; every other token is kept in place. *)
Inductive filled (keys : list string) : list token -> list token -> Prop :=
| filled_nil : filled keys [] []
| filled_keep t ts ts' :
    filled keys ts ts' -> filled keys (t :: ts) (t :: ts')
| filled_hole key v ts ts' :
    In key keys -> filled keys ts ts' ->
    filled keys (Hole key :: ts) (lits v ++ ts')%list.

(** The keys of [data] have no braces and are pairwise distinct, and the
    string forms of its values are plain text. *)
Definition tame_data (data : list (string * JSValue)) : Prop :=
  NoDup (map fst data) /\
  Forall (fun kv => brace_free (fst kv) = true /\ plain_text (String_ (snd kv)) = true) data.

(** Inputs of the examples. *)

(** The table of the specification's round trip. *)
Definition round_trip_table : list (string * string) :=
  [("(1|yes)", "A"); (".*", "B")].

(** A flow that somebody registered under the name of the onboarding
    flow before [registerConversationFlows] runs. *)
Definition earlier_flow : ConversationFlow :=
  mkConversationFlow "onboarding" ["welcome"]
    (JSObject.literal [("welcome", mkStateDefinition "Welcome!" (JSObject.literal []) None)])
    "welcome".

(** The same mapping written in two orders, and a mapping in which the
    value of one key spells another key. *)
Definition nested_first : JSObject.t JSValue :=
  JSObject.literal [("a", VString "{b}"); ("b", VString "X")].

Definition nested_last : JSObject.t JSValue :=
  JSObject.literal [("b", VString "X"); ("a", VString "{b}")].

Definition chained : JSObject.t JSValue :=
  JSObject.literal [("a", VString "b"); ("b", VString "Z")].

(** A flow with a state that has no way out, and a flow with a
    transition to a state that does not exist. *)
Definition parking_flow : ConversationFlow :=
  mkConversationFlow "parking" ["park"]
    (JSObject.literal
       [ ("ask", mkStateDefinition "Where to?" (JSObject.literal [(".*", "parked")]) None);
         ("parked", mkStateDefinition "Parked." (JSObject.literal []) None) ])
    "ask".

Definition dangling_flow : ConversationFlow :=
  mkConversationFlow "dangling" ["dangle"]
    (JSObject.literal
       [ ("ask", mkStateDefinition "Where to?" (JSObject.literal [(".*", "nowhere")]) None) ])
    "ask".

(** A flow with a transition to a name that is no state of the flow but
    a member of [Object.prototype]. *)
Definition borrowed_flow : ConversationFlow :=
  mkConversationFlow "borrowed" ["borrow"]
    (JSObject.literal
       [ ("ask", mkStateDefinition "Where to?" (JSObject.literal [(".*", "toString")]) None) ])
    "ask".

(** A message of user 42 on channel 7, and a world where that user is
    in state [at_state] of the one registered flow since time 0. *)
Definition says (text : string) : Message := mkMessage false 42 text 7.

Definition world_at (flow : ConversationFlow) (history : list string) (t : Z) : Bot :=
  mkBot {[ "42" := mkConversationState "42" history (Some (name flow)) 0 (Some []) ]}
    [(name flow, flow)] [] t.


(** ** Vocabulary of the further properties *)

(** What [processConversation] does with one message, read off its
    branches: how the call ends, the session object as the call leaves it,
    whether [this.conversations.delete(state.userId)] ran, and the texts
    sent. *)
Record Effect := mkEffect {
  outcome : completion unit;
  final : ConversationState;
  removes : bool;
  replies : list Content
}.

Definition conversation_effect (tester : string -> string -> option bool)
    (message : Message) (state : ConversationState) (flow : ConversationFlow)
    (t : Z) : Effect :=
  let touched := set_lastInteraction state t in
  match states_at flow (currentStateName state flow) with
  | None => mkEffect (Normal tt) touched true [Text confused_notice]
  | Some currentState =>
      match context state with
      | [] =>
          let entered := set_context touched [initialState flow] in
          match renderPrompt currentState (userData state) with
          | Normal prompt => mkEffect (Normal tt) entered false [prompt]
          | Throw e => mkEffect (Throw e) entered false []
          end
      | _ :: _ =>
          match currentState with
          | Inherited => mkEffect (Throw TypeError) touched false []
          | Declared def =>
              let state1 := acted def touched (content message) in
              match findNextState tester (normalize (content message)) (transitions def) with
              | Throw e => mkEffect (Throw e) state1 false []
              | Normal None => mkEffect (Normal tt) state1 false [Text unknown_notice]
              | Normal (Some next) =>
                  if truthy next then
                    let state2 := set_context state1 (context state1 ++ [next]) in
                    match states_at flow next with
                    | Some target =>
                        match renderPrompt target (userData state1) with
                        | Normal prompt =>
                            mkEffect (Normal tt) state2 (String.eqb next "complete") [prompt]
                        | Throw e => mkEffect (Throw e) state2 false []
                        end
                    | None => mkEffect (Normal tt) state2 false []
                    end
                  else mkEffect (Normal tt) state1 false [Text unknown_notice]
              end
          end
      end
  end.

(** The store once the effect is written through the object held under
    [key]. *)
Definition apply_effect (key : string) (e : Effect)
    (sessions : gmap string ConversationState) : gmap string ConversationState :=
  if removes e then delete (userId (final e)) (<[key := final e]> sessions)
  else <[key := final e]> sessions.

(** What [handleMessage] hands to [processConversation], if anything: the
    session object, its flow, and whether the object was just created. *)
Definition dispatch (b : Bot) (message : Message)
    : option (ConversationState * ConversationFlow * bool) :=
  if isFromBot message then None
  else
    let user := N_toString (authorId message) in
    let fresh :=
      match detectFlow (flows b) (content message) with
      | Some flow => Some (createConversationState (clock b) user (name flow), flow, true)
      | None => None
      end in
    match conversations b !! user with
    | Some state =>
        if isSessionExpired (clock b) state then fresh
        else
          match currentTopic state with
          | Some flowName =>
              if truthy flowName then
                match JSMap.get (flows b) flowName with
                | Some flow => Some (state, flow, false)
                | None => None
                end
              else None
          | None => None
          end
    | None => fresh
    end.

(** An upper-case letter of the ASCII range. *)
Definition is_upper (c : ascii) : bool :=
  let n := nat_of_ascii c in (65 <=? n)%nat && (n <=? 90)%nat.

Fixpoint has_upper (s : string) : bool :=
  match s with
  | EmptyString => false
  | String c r => is_upper c || has_upper r
  end.

(** The message text [content] contains a trigger of [flow], once
    normalised. *)
Definition fires (content : string) (flow : ConversationFlow) : Prop :=
  exists trigger, In trigger (triggers flow) /\
                  JSString.occurs trigger (normalize content).

(** A transition table from which every input leads somewhere: it holds
    the catch-all pattern, every pattern is accepted by [RegExp.compile],
    and every target is a non-empty name of a state of the flow. *)
Definition open_table (flow : ConversationFlow) (table : JSObject.t string) : bool :=
  let entries := JSObject.Object_entries table in
  existsb (fun kv => String.eqb (fst kv) ".*") entries &&
  forallb (fun kv =>
             match RegExp.compile (fst kv) with Some _ => true | None => false end &&
             truthy (snd kv) &&
             match JSObject.get (states flow) (snd kv) with
             | Some _ => true
             | None => false
             end) entries.

(** A flow in which a conversation cannot get stuck: every state but
    [complete] has an open table, and the initial state exists and is not
    [complete]. *)
Definition advancing (flow : ConversationFlow) : bool :=
  forallb (fun kv => String.eqb (fst kv) "complete" ||
                     open_table flow (transitions (snd kv))) (states flow) &&
  match JSObject.get (states flow) (initialState flow) with
  | Some _ => negb (String.eqb (initialState flow) "complete")
  | None => false
  end.

(** A session that rests in a state of [flow] other than [complete]. *)
Definition resting (flow : ConversationFlow) (state : ConversationState) : Prop :=
  context state <> [] /\
  currentStateName state flow <> "complete" /\
  JSObject.get (states flow) (currentStateName state flow) <> None.

(** A text that is a prompt of [flow], rendered with some user data. *)
Definition prompt_of (flow : ConversationFlow) (sent : Content) : Prop :=
  exists sname def data,
    JSObject.get (states flow) sname = Some def /\
    sent = Text (interpolatePrompt (prompt def) data).

(** A world that serves [flow] alone and in which every session is stored
    under its user, belongs to the flow and rests in one of its states,
    and everything sent so far is a prompt of the flow. *)
Definition settled (flow : ConversationFlow) (b : Bot) : Prop :=
  flows b = [(name flow, flow)] /\
  (forall key state,
     conversations b !! key = Some state ->
     userId state = key /\ currentTopic state = Some (name flow) /\
     resting flow state) /\
  Forall (fun sent => prompt_of flow (snd sent)) (transcript b).

(** The prompt of the [askPurpose] state after the placeholder, and the
    prompt with [name] in the placeholder's place. *)
Definition askPurpose_tail : string :=
  "! What brings you here today?
1. Learn about Discord bots
2. Get help with coding
3. Just chatting".

Definition greets (name : string) : string :=
  "Nice to meet you, " ++ name ++ askPurpose_tail.


(** What the bot reacts to: a message, or a tick of the clean-up timer;
    each comes with the time at which it is handled. *)
Inductive Event :=
| MessageCreate (t : Z) (message : Message)
| CleanupTick (t : Z).

(** [bot.events.messageCreate] and the callback of [setInterval]. *)
Definition on_event (tester : string -> string -> option bool)
    (b : Bot) (e : Event) : Bot :=
  match e with
  | MessageCreate t message => deliver tester t message b
  | CleanupTick t => run cleanupExpiredSessions (set_clock b t)
  end.

(** The world after the events, in order. *)
Definition run_events (tester : string -> string -> option bool)
    (events : list Event) (b : Bot) : Bot :=
  fold_left (on_event tester) events b.

(** ** Further example inputs *)

(** The session of user 42 belongs to a flow that is not registered. *)
Definition orphaned_world : Bot :=
  set_flows (world_at parking_flow ["ask"] 1000) [("onboarding", createOnboardingFlow)].

(** A flow whose second pattern is not a regular expression. *)
Definition broken_flow : ConversationFlow :=
  mkConversationFlow "broken" ["break"]
    (JSObject.literal
       [ ("ask", mkStateDefinition "Sure?"
                   (JSObject.literal [("(no|nope)", "bye"); ("(", "bye")]) None);
         ("bye", leaf "Bye.") ])
    "ask".

(** A flow with an upper-case trigger, and one with the empty trigger. *)
Definition shouting_flow : ConversationFlow :=
  mkConversationFlow "shouting" ["HELP"] (JSObject.literal [("ask", leaf "Yes?")]) "ask".

Definition eager_flow : ConversationFlow :=
  mkConversationFlow "eager" [""] (JSObject.literal [("ask", leaf "Yes?")]) "ask".

(** Users 42 and 43, both in the [ask] state of the parking flow. *)
Definition two_users : Bot :=
  mkBot (<["43" := mkConversationState "43" ["ask"] (Some "parking") 500 (Some [])]>
           (conversations (world_at parking_flow ["ask"] 1000)))
    [("parking", parking_flow)] [] 1000.

Definition idle_session : ConversationState :=
  mkConversationState "42" ["ask"] (Some "parking") 0 (Some []).


(** * Verification *)

(** ** The embedding on the inputs of the repository's tests *)

Example interpolate_alice :
  interpolatePrompt "Nice to meet you, {name}! What brings you here today?"
    (Some (JSObject.literal [("name", VString "Alice")]))
  = "Nice to meet you, Alice! What brings you here today?".
Proof. reflexivity. Qed.

Example interpolate_bob :
  interpolatePrompt "Hello {name}, your ID is {id}"
    (Some (JSObject.literal [("name", VString "Bob"); ("id", VString "12345")]))
  = "Hello Bob, your ID is 12345".
Proof. reflexivity. Qed.

Example entries_order :
  JSObject.Object_entries (JSObject.literal [("yes", 1); ("10", 2); ("b", 3); ("2", 4)])
  = [("2", 4); ("10", 2); ("yes", 1); ("b", 3)].
Proof. reflexivity. Qed.

Example trim_ex : JSString.trim "  Yes please  " = "Yes please".
Proof. reflexivity. Qed.

Example regexp_compile_menu :
  RegExp.compile "(1|yes)"
  = Some (RegExp.RSeq
            (RegExp.RAlt (RegExp.RSeq (RegExp.RChar "1") RegExp.REps)
                         (RegExp.RSeq (RegExp.RChar "y")
                            (RegExp.RSeq (RegExp.RChar "e")
                               (RegExp.RSeq (RegExp.RChar "s") RegExp.REps))))
            RegExp.REps).
Proof. reflexivity. Qed.

Example regexp_test_menu :
  RegExp.test "(1|learn|discord|bot)" "i want to LEARN" = Some true
  /\ RegExp.test "(2|help|coding|code)" "i want to learn" = Some false
  /\ RegExp.test ".*" "" = Some true
  /\ RegExp.test "(" "x" = None.
Proof. repeat split; reflexivity. Qed.

Example transition_matching_test :
  let transitions := JSObject.literal (menu_transitions "clarifyPurpose") in
  findNextState RegExp.test "1" transitions = Normal (Some "botLearning") /\
  findNextState RegExp.test "learn" transitions = Normal (Some "botLearning") /\
  findNextState RegExp.test "help" transitions = Normal (Some "codingHelp") /\
  findNextState RegExp.test "chat" transitions = Normal (Some "casualChat") /\
  findNextState RegExp.test "something else" transitions = Normal (Some "clarifyPurpose").
Proof. repeat split; reflexivity. Qed.

Example greeting_triggers_test :
  let detected text := detectFlow [("onboarding", createOnboardingFlow)] text in
  detected "hello there" = Some createOnboardingFlow /\
  detected "hi bot" = Some createOnboardingFlow /\
  detected "start conversation" = Some createOnboardingFlow /\
  detected "help me" = Some createOnboardingFlow /\
  detected "goodbye" = None.
Proof. repeat split; reflexivity. Qed.

Example session_expiry_test :
  let now := 1000000000%Z in
  isSessionExpired now (mkConversationState "1" [] None (now - 10 * 60 * 1000) None) = true /\
  isSessionExpired now (mkConversationState "1" [] None (now - 2 * 60 * 1000) None) = false.
Proof. split; reflexivity. Qed.

(** The onboarding scenario: "hello" opens the flow, "Alice" is stored by
    the action of [greeting] and shows in the next prompt. *)
Example onboarding_scenario :
  let b1 := run (handleMessage RegExp.test (says "hello")) (new_ConversationalBot 0) in
  let b2 := run (handleMessage RegExp.test (says "Alice")) b1 in
  context <$> conversations b1 !! "42" = Some ["greeting"] /\
  context <$> conversations b2 !! "42" = Some ["greeting"; "askPurpose"] /\
  (conversations b2 !! "42" ≫= userData) = Some [("name", VString "Alice")] /\
  snd <$> last (transcript b2)
  = Some (Text "Nice to meet you, Alice! What brings you here today?
1. Learn about Discord bots
2. Get help with coding
3. Just chatting").
Proof. repeat split; reflexivity. Qed.

(** ** How the handlers compute *)

Ltac munfold :=
  unfold run, sent_by, mbind, mret, M_mbind, M_mret, M_bind, M_ret,
    lift, read, write, sendMessage, store, conversations_delete in *.

Section Handlers.

Variable tester : string -> string -> option bool.

Lemma handleMessage_bot message b :
  isFromBot message = true -> handleMessage tester message b = (Normal tt, b).
Proof. intros H. unfold handleMessage. rewrite H. reflexivity. Qed.

Lemma handleMessage_existing message b state fname flow :
  isFromBot message = false ->
  conversations b !! N_toString (authorId message) = Some state ->
  isSessionExpired (clock b) state = false ->
  currentTopic state = Some fname -> truthy fname = true ->
  JSMap.get (flows b) fname = Some flow ->
  handleMessage tester message b
  = processConversation tester (N_toString (authorId message)) message state flow b.
Proof.
  intros Hb Hs He Ht Hf Hg. unfold handleMessage. rewrite Hb. munfold. cbn.
  rewrite Hs, He. unfold handleExistingConversation. rewrite Ht, Hf. munfold. cbn.
  rewrite Hg. reflexivity.
Qed.

Lemma handleMessage_live message b user state flow :
  from_user message user -> live_session b user state flow ->
  handleMessage tester message b
  = processConversation tester user message state flow b.
Proof.
  intros [Hb <-] [(Hs & _ & fname & Ht & Hf & Hg) He].
  eapply handleMessage_existing; eauto.
Qed.

Lemma handleMessage_new message b flow :
  isFromBot message = false ->
  no_live_session b (N_toString (authorId message)) ->
  detectFlow (flows b) (content message) = Some flow ->
  handleMessage tester message b
  = processConversation tester (N_toString (authorId message)) message
      (createConversationState (clock b) (N_toString (authorId message)) (name flow)) flow
      (set_conversations b
         (<[N_toString (authorId message) :=
              createConversationState (clock b) (N_toString (authorId message)) (name flow)]>
            (conversations b))).
Proof.
  intros Hb Hs Hd. unfold handleMessage, no_live_session in *. rewrite Hb. munfold. cbn.
  destruct (conversations b !! N_toString (authorId message)) as [st|].
  - rewrite Hs. unfold handleNewConversation. munfold. cbn. rewrite Hd. reflexivity.
  - unfold handleNewConversation. munfold. cbn. rewrite Hd. reflexivity.
Qed.

Lemma handleMessage_ignored message b :
  isFromBot message = false ->
  no_live_session b (N_toString (authorId message)) ->
  detectFlow (flows b) (content message) = None ->
  handleMessage tester message b = (Normal tt, b).
Proof.
  intros Hb Hs Hd. unfold handleMessage, no_live_session in *. rewrite Hb. munfold. cbn.
  destruct (conversations b !! N_toString (authorId message)) as [st|].
  - rewrite Hs. unfold handleNewConversation. munfold. cbn. rewrite Hd. reflexivity.
  - unfold handleNewConversation. munfold. cbn. rewrite Hd. reflexivity.
Qed.

Lemma states_at_declared flow sname def :
  JSObject.get (states flow) sname = Some def ->
  states_at flow sname = Some (Declared def).
Proof. intros H. unfold states_at. by rewrite H. Qed.


Lemma states_at_none flow sname :
  states_at flow sname = None <->
  JSObject.get (states flow) sname = None /\ JSObject.inherits sname = false.
Proof.
  unfold states_at. destruct (JSObject.get (states flow) sname).
  - split; [discriminate | by intros [? _]].
  - destruct (JSObject.inherits sname); split; try done. by intros [_ ?].
Qed.

Lemma processConversation_confused key message state flow b :
  states_at flow (currentStateName state flow) = None ->
  processConversation tester key message state flow b
  = (Normal tt,
     mkBot (delete (userId state)
              (<[key := set_lastInteraction state (clock b)]> (conversations b)))
       (flows b) (transcript b ++ [(channelId message, Text confused_notice)]) (clock b)).
Proof.
  intros H. unfold processConversation. munfold. cbn.
  change (currentStateName (set_lastInteraction state (clock b)) flow)
    with (currentStateName state flow).
  rewrite H. reflexivity.
Qed.

Lemma processConversation_enter key message state flow currentState b :
  context state = [] ->
  states_at flow (initialState flow) = Some currentState ->
  processConversation tester key message state flow b
  = match renderPrompt currentState (userData state) with
    | Normal prompt =>
        (Normal tt,
         mkBot (<[key := set_context (set_lastInteraction state (clock b))
                           [initialState flow]]> (conversations b))
           (flows b) (transcript b ++ [(channelId message, prompt)]) (clock b))
    | Throw e =>
        (Throw e,
         mkBot (<[key := set_context (set_lastInteraction state (clock b))
                           [initialState flow]]> (conversations b))
           (flows b) (transcript b) (clock b))
    end.
Proof.
  intros Hc Hs. unfold processConversation, currentStateName. munfold. cbn.
  rewrite Hc. cbn. rewrite Hs. unfold handleInitialState. munfold. cbn. rewrite Hc.
  cbn. unfold set_transcript, set_conversations. cbn. rewrite insert_insert_eq.
  by destruct (renderPrompt currentState (userData state)).
Qed.

Lemma processConversation_initial key message state flow def b :
  context state = [] ->
  JSObject.get (states flow) (initialState flow) = Some def ->
  processConversation tester key message state flow b
  = (Normal tt,
     mkBot (<[key := set_context (set_lastInteraction state (clock b)) [initialState flow]]>
              (conversations b))
       (flows b)
       (transcript b
        ++ [(channelId message, Text (interpolatePrompt (prompt def) (userData state)))])
       (clock b)).
Proof.
  intros Hc Hs.
  by rewrite (processConversation_enter _ _ _ _ _ _ Hc (states_at_declared _ _ _ Hs)).
Qed.

Lemma processConversation_reply key message state flow currentState b :
  context state <> [] ->
  states_at flow (currentStateName state flow) = Some currentState ->
  processConversation tester key message state flow b
  = processUserInput tester key message (set_lastInteraction state (clock b)) flow
      currentState
      (set_conversations b (<[key := set_lastInteraction state (clock b)]> (conversations b))).
Proof.
  intros Hc Hs. unfold processConversation. munfold. cbn.
  change (currentStateName (set_lastInteraction state (clock b)) flow)
    with (currentStateName state flow).
  rewrite Hs. destruct (context state); [congruence | reflexivity].
Qed.

Lemma processConversation_input key message state flow def b :
  context state <> [] ->
  JSObject.get (states flow) (currentStateName state flow) = Some def ->
  processConversation tester key message state flow b
  = processUserInput tester key message (set_lastInteraction state (clock b)) flow
      (Declared def)
      (set_conversations b (<[key := set_lastInteraction state (clock b)]> (conversations b))).
Proof.
  intros Hc Hs. apply (processConversation_reply _ _ _ _ _ _ Hc).
  by apply states_at_declared.
Qed.

Lemma processUserInput_inherited key message state flow b :
  processUserInput tester key message state flow Inherited b = (Throw TypeError, b).
Proof. reflexivity. Qed.

Lemma processUserInput_next key message state flow def b next :
  conversations b !! key = Some state ->
  findNextState tester (normalize (content message)) (transitions def) = Normal (Some next) ->
  truthy next = true ->
  processUserInput tester key message state flow (Declared def) b
  = transitionToNextState key message (acted def state (content message)) flow next
      (set_conversations b (<[key := acted def state (content message)]> (conversations b))).
Proof.
  intros Hk Hf Ht. unfold processUserInput, acted. unfold normalize in Hf. munfold.
  destruct (action def) as [act|]; cbn; rewrite Hf, Ht; [reflexivity|].
  rewrite (insert_id _ _ _ Hk). destruct b; reflexivity.
Qed.

Lemma processUserInput_unknown key message state flow def b :
  conversations b !! key = Some state ->
  (findNextState tester (normalize (content message)) (transitions def) = Normal None \/
   exists next, findNextState tester (normalize (content message)) (transitions def)
                = Normal (Some next) /\ truthy next = false) ->
  processUserInput tester key message state flow (Declared def) b
  = (Normal tt,
     mkBot (<[key := acted def state (content message)]> (conversations b)) (flows b)
       (transcript b ++ [(channelId message, Text unknown_notice)]) (clock b)).
Proof.
  intros Hk Hf. unfold processUserInput, acted. unfold normalize in Hf. munfold.
  destruct Hf as [Hf | (next & Hf & Ht)];
  destruct (action def) as [act|]; cbn; rewrite Hf; try rewrite Ht; try reflexivity;
  rewrite (insert_id _ _ _ Hk); destruct b; reflexivity.
Qed.

Lemma processUserInput_throw key message state flow def b e :
  conversations b !! key = Some state ->
  findNextState tester (normalize (content message)) (transitions def) = Throw e ->
  processUserInput tester key message state flow (Declared def) b
  = (Throw e,
     set_conversations b (<[key := acted def state (content message)]> (conversations b))).
Proof.
  intros Hk Hf. unfold processUserInput, acted. unfold normalize in Hf. munfold.
  destruct (action def) as [act|]; cbn; rewrite Hf; try reflexivity.
  rewrite (insert_id _ _ _ Hk). destruct b; reflexivity.
Qed.

Lemma transitionToNextState_eq key message state flow next b :
  transitionToNextState key message state flow next b
  = match states_at flow next with
    | Some nextState =>
        match renderPrompt nextState (userData state) with
        | Normal prompt =>
            (Normal tt,
             mkBot (if String.eqb next "complete"
                    then delete (userId state)
                           (<[key := set_context state (context state ++ [next])]>
                              (conversations b))
                    else <[key := set_context state (context state ++ [next])]>
                           (conversations b))
               (flows b) (transcript b ++ [(channelId message, prompt)]) (clock b))
        | Throw e =>
            (Throw e,
             mkBot (<[key := set_context state (context state ++ [next])]> (conversations b))
               (flows b) (transcript b) (clock b))
        end
    | None =>
        (Normal tt,
         mkBot (<[key := set_context state (context state ++ [next])]> (conversations b))
           (flows b) (transcript b) (clock b))
    end.
Proof.
  unfold transitionToNextState. munfold. cbn.
  destruct (states_at flow next) as [nextState|]; cbn; [|reflexivity].
  destruct (renderPrompt nextState (userData state)); cbn; [|reflexivity].
  destruct (String.eqb next "complete"); reflexivity.
Qed.

Lemma transitionToNextState_declared key message state flow next def b :
  JSObject.get (states flow) next = Some def ->
  transitionToNextState key message state flow next b
  = (Normal tt,
     mkBot (if String.eqb next "complete"
            then delete (userId state)
                   (<[key := set_context state (context state ++ [next])]> (conversations b))
            else <[key := set_context state (context state ++ [next])]> (conversations b))
       (flows b)
       (transcript b
        ++ [(channelId message, Text (interpolatePrompt (prompt def) (userData state)))])
       (clock b)).
Proof.
  intros H. by rewrite transitionToNextState_eq, (states_at_declared _ _ _ H).
Qed.

Lemma transitionToNextState_absent key message state flow next b :
  states_at flow next = None ->
  transitionToNextState key message state flow next b
  = (Normal tt,
     mkBot (<[key := set_context state (context state ++ [next])]> (conversations b))
       (flows b) (transcript b) (clock b)).
Proof. intros H. by rewrite transitionToNextState_eq, H. Qed.

End Handlers.

(** ** One run of [processConversation], summed up *)

Lemma processConversation_effect tester key message state flow b :
  processConversation tester key message state flow b
  = (outcome (conversation_effect tester message state flow (clock b)),
     mkBot (apply_effect key (conversation_effect tester message state flow (clock b))
              (conversations b))
       (flows b)
       (transcript b
        ++ map (pair (channelId message))
             (replies (conversation_effect tester message state flow (clock b))))
       (clock b)).
Proof.
  unfold conversation_effect, apply_effect.
  destruct (states_at flow (currentStateName state flow)) as [currentState|] eqn:Hat.
  2:{ by rewrite (processConversation_confused _ _ _ _ _ _ Hat). }
  destruct (context state) as [|c cs] eqn:Hc.
  { unfold currentStateName in Hat. rewrite Hc in Hat. cbn in Hat.
    rewrite (processConversation_enter _ _ _ _ _ _ _ Hc Hat).
    destruct (renderPrompt currentState (userData state)); cbn; [reflexivity|].
    by rewrite app_nil_r. }
  assert (Hne : context state <> []) by (rewrite Hc; done).
  rewrite (processConversation_reply _ _ _ _ _ _ _ Hne Hat).
  destruct currentState as [def|].
  2:{ rewrite processUserInput_inherited. cbn. by rewrite app_nil_r. }
  set (b1 := set_conversations b _).
  assert (Hk : conversations b1 !! key = Some (set_lastInteraction state (clock b)))
    by (cbn; apply lookup_insert_eq).
  destruct (findNextState tester (normalize (content message)) (transitions def))
    as [[next|]|e] eqn:Hf.
  - destruct (truthy next) eqn:Ht.
    + rewrite (processUserInput_next _ _ _ _ _ _ _ _ Hk Hf Ht), transitionToNextState_eq.
      cbn. destruct (states_at flow next) as [target|]; cbn.
      * destruct (renderPrompt target _); cbn.
        -- destruct (String.eqb next "complete"); by rewrite !insert_insert_eq.
        -- by rewrite !insert_insert_eq, app_nil_r.
      * by rewrite !insert_insert_eq, app_nil_r.
    + erewrite processUserInput_unknown; eauto. cbn. by rewrite insert_insert_eq.
  - erewrite processUserInput_unknown; eauto. cbn. by rewrite insert_insert_eq.
  - rewrite (processUserInput_throw _ _ _ _ _ _ _ _ Hk Hf). cbn.
    unfold set_conversations. cbn. by rewrite insert_insert_eq, app_nil_r.
Qed.

(** ** Actions that only assign [userData] *)

Lemma acted_fields flow sname def state input :
  flow_actions_ok flow ->
  JSObject.get (states flow) sname = Some def ->
  userId (acted def state input) = userId state /\
  context (acted def state input) = context state /\
  currentTopic (acted def state input) = currentTopic state /\
  lastInteraction (acted def state input) = lastInteraction state.
Proof.
  intros Hok Hget. unfold acted.
  destruct (action def) as [act|] eqn:Hact; [|done].
  rewrite (Hok sname def act Hget Hact state input). done.
Qed.

Lemma greeting_action_ok : writes_userData_only greeting_action.
Proof. intros state input. reflexivity. Qed.

Lemma currentStateName_last state flow (history : list string) s :
  context state = (history ++ [s])%list -> truthy s = true ->
  currentStateName state flow = s.
Proof.
  intros Hc Ht. unfold currentStateName. rewrite Hc, last_snoc, Ht. reflexivity.
Qed.

(** ** One message, from a live session, that matches a transition *)

Lemma handleMessage_transition tester b message user state flow def next :
  from_user message user -> live_session b user state flow ->
  context state <> [] ->
  JSObject.get (states flow) (currentStateName state flow) = Some def ->
  findNextState tester (normalize (content message)) (transitions def) = Normal (Some next) ->
  truthy next = true ->
  handleMessage tester message b
  = transitionToNextState user message
      (acted def (set_lastInteraction state (clock b)) (content message)) flow next
      (set_conversations b
         (<[user := acted def (set_lastInteraction state (clock b)) (content message)]>
            (conversations b))).
Proof.
  intros Hm Hl Hc Hd Hf Ht.
  rewrite (handleMessage_live _ _ _ _ _ _ Hm Hl).
  rewrite (processConversation_input _ _ _ _ _ _ _ Hc Hd).
  erewrite processUserInput_next; eauto; cbn.
  - unfold set_conversations; cbn. rewrite insert_insert_eq. reflexivity.
  - apply lookup_insert_eq.
Qed.

(** ** One message, from a live session whose current state is gone *)

Lemma handleMessage_confused tester b message user state flow :
  from_user message user ->
  live_session b user state flow ->
  states_at flow (currentStateName state flow) = None ->
  handleMessage tester message b
  = (Normal tt,
     mkBot (delete user (conversations b)) (flows b)
       (transcript b ++ [(channelId message, Text confused_notice)]) (clock b)).
Proof.
  intros Hm Hl Hs.
  rewrite (handleMessage_live _ _ _ _ _ _ Hm Hl).
  rewrite (processConversation_confused _ _ _ _ _ _ Hs).
  destruct Hl as [(_ & -> & _) _]. rewrite delete_insert_eq. reflexivity.
Qed.

Lemma not_expired_within t state :
  (t - lastInteraction state <= sessionTimeout)%Z ->
  isSessionExpired t state = false.
Proof. intros H. unfold isSessionExpired. rewrite Z.gtb_ltb. apply Z.ltb_ge. exact H. Qed.

(** ** A session parked in a state without transitions *)

Lemma findNextState_no_transitions tester input :
  findNextState tester input [] = Normal None.
Proof. reflexivity. Qed.

Lemma deliver_dead_end tester t message b user state flow (history : list string) sname def :
  from_user message user ->
  session_of b user state flow ->
  flow_actions_ok flow ->
  context state = (history ++ [sname])%list -> truthy sname = true ->
  JSObject.get (states flow) sname = Some def ->
  transitions def = [] ->
  (t - lastInteraction state <= sessionTimeout)%Z ->
  exists state',
    deliver tester t message b
    = mkBot (<[user := state']> (conversations b)) (flows b)
        (transcript b ++ [(channelId message, Text unknown_notice)]) t /\
    userId state' = user /\ context state' = context state /\
    currentTopic state' = currentTopic state /\ lastInteraction state' = t.
Proof.
  intros Hm Hs Hok Hc Ht Hd Htr Htime.
  assert (Hcur : currentStateName state flow = sname)
    by (eapply currentStateName_last; eauto).
  assert (Hl : live_session (set_clock b t) user state flow).
  { split; [exact Hs | apply not_expired_within; exact Htime]. }
  assert (Hne : context state <> []) by (rewrite Hc; by destruct history).
  unfold deliver, run.
  rewrite (handleMessage_live _ _ _ _ _ _ Hm Hl).
  rewrite <- Hcur in Hd.
  rewrite (processConversation_input _ _ _ _ _ _ _ Hne Hd).
  erewrite processUserInput_unknown;
    [ | cbn; apply lookup_insert_eq | left; rewrite Htr; apply findNextState_no_transitions ].
  cbn. rewrite insert_insert_eq.
  destruct (acted_fields flow _ def (set_lastInteraction state t) (content message) Hok Hd)
    as (Hu & Hctx & Htop & Hlast).
  eexists. split; [reflexivity|].
  destruct Hs as (_ & Huser & _). cbn in *. repeat split; congruence.
Qed.

Lemma deliver_all_cons tester t message rest b :
  deliver_all tester ((t, message) :: rest) b
  = deliver_all tester rest (deliver tester t message b).
Proof. reflexivity. Qed.

Lemma deliver_all_dead_end tester arrivals :
  forall b user state flow (history : list string) sname def,
  Forall (fun tm => from_user (snd tm) user) arrivals ->
  session_of b user state flow ->
  flow_actions_ok flow ->
  context state = (history ++ [sname])%list -> truthy sname = true ->
  JSObject.get (states flow) sname = Some def ->
  transitions def = [] ->
  in_time (lastInteraction state) arrivals ->
  transcript (deliver_all tester arrivals b)
  = (transcript b ++ map (fun tm => (channelId (snd tm), Text unknown_notice)) arrivals)%list /\
  exists state',
    conversations (deliver_all tester arrivals b) !! user = Some state' /\
    context state' = context state.
Proof.
  induction arrivals as [|[t message] rest IH];
    intros b user state flow history sname def Hall Hs Hok Hc Ht Hd Htr Htime.
  - cbn. rewrite app_nil_r. split; [reflexivity|].
    exists state. split; [apply Hs | reflexivity].
  - cbn in Htime. destruct Htime as [Hnow Hlater].
    apply Forall_cons in Hall as [Hm Hall]. cbn in Hm.
    destruct (deliver_dead_end tester t message b user state flow history sname def
                Hm Hs Hok Hc Ht Hd Htr Hnow)
      as (state' & Hb' & Hu' & Hc' & Htop' & Hlast').
    rewrite deliver_all_cons, Hb'.
    destruct Hs as (_ & _ & fname & Htopic & Hfn & Hflow).
    edestruct (IH (mkBot (<[user := state']> (conversations b)) (flows b)
                     (transcript b ++ [(channelId message, Text unknown_notice)]) t)
                 user state' flow history sname def) as (Htrans & state'' & Hlook & Hctx'');
      eauto.
    + split; [cbn; apply lookup_insert_eq|]. split; [exact Hu'|].
      exists fname. rewrite Htop'. done.
    + congruence.
    + rewrite Hlast'. exact Hlater.
    + split.
      * rewrite Htrans. cbn. rewrite <- app_assoc. reflexivity.
      * exists state''. split; [exact Hlook | congruence].
Qed.

(** ** What one message can do to the store *)

Lemma processConversation_history tester key message state flow b :
  flow_actions_ok flow ->
  exists state',
    context state `prefix_of` context state' /\
    userId state' = userId state /\
    rewritten key state' (conversations b)
      (conversations (run (processConversation tester key message state flow) b)).
Proof.
  intros Hok. unfold run, rewritten.
  destruct (states_at flow (currentStateName state flow)) as [currentState|] eqn:Hat.
  2:{ rewrite (processConversation_confused _ _ _ _ _ _ Hat). cbn.
      exists (set_lastInteraction state (clock b)). split; [done|]. split; [done | by right]. }
  destruct (context state) as [|c cs] eqn:Hc.
  { unfold currentStateName in Hat. rewrite Hc in Hat. cbn in Hat.
    rewrite (processConversation_enter _ _ _ _ _ _ _ Hc Hat).
    exists (set_context (set_lastInteraction state (clock b)) [initialState flow]).
    split; [apply prefix_nil|]. split; [reflexivity|].
    destruct (renderPrompt currentState (userData state)); left; reflexivity. }
  assert (Hne : context state <> []) by (rewrite Hc; done).
  rewrite (processConversation_reply _ _ _ _ _ _ _ Hne Hat).
  destruct currentState as [def|].
  2:{ rewrite processUserInput_inherited. cbn.
      exists (set_lastInteraction state (clock b)). cbn. rewrite Hc.
      split; [done|]. split; [done | by left]. }
  assert (Hd : JSObject.get (states flow) (currentStateName state flow) = Some def).
  { unfold states_at in Hat.
    destruct (JSObject.get (states flow) (currentStateName state flow)) as [def'|];
      [by injection Hat as -> | by destruct (JSObject.inherits _)]. }
  destruct (acted_fields flow _ def (set_lastInteraction state (clock b)) (content message) Hok Hd)
    as (Hu & Hctx & _ & _). cbn in Hu, Hctx. rewrite Hc in Hctx.
  set (b1 := set_conversations b _).
  set (state1 := acted def (set_lastInteraction state (clock b)) (content message)) in *.
  assert (Hk : conversations b1 !! key = Some (set_lastInteraction state (clock b)))
    by (cbn; apply lookup_insert_eq).
  assert (Hstay : exists state',
            c :: cs `prefix_of` context state' /\
            userId state' = userId state /\
            (<[key:=state1]> (conversations b1) = <[key:=state']> (conversations b) \/
             <[key:=state1]> (conversations b1)
             = delete (userId state') (<[key:=state']> (conversations b)))).
  { exists state1. rewrite Hctx. split; [done|]. split; [done|]. left. cbn.
    apply insert_insert_eq. }
  destruct (findNextState tester (normalize (content message)) (transitions def))
    as [[next|]|e] eqn:Hf.
  - destruct (truthy next) eqn:Ht.
    + rewrite (processUserInput_next _ _ _ _ _ _ _ _ Hk Hf Ht), transitionToNextState_eq.
      fold state1.
      exists (set_context state1 (context state1 ++ [next])).
      split; [ cbn; rewrite Hctx; by apply prefix_app_r | ].
      split; [exact Hu|].
      destruct (states_at flow next) as [nextState|]; cbn;
        [destruct (renderPrompt nextState (userData state1)); cbn;
         [destruct (String.eqb next "complete")|]|];
        rewrite !insert_insert_eq; auto.
    + erewrite processUserInput_unknown; eauto.
  - erewrite processUserInput_unknown; eauto.
  - rewrite (processUserInput_throw _ _ _ _ _ _ _ _ Hk Hf). exact Hstay.
Qed.

Lemma JSMap_get_In {V} (m : list (string * V)) k v :
  JSMap.get m k = Some v -> In (k, v) m.
Proof.
  induction m as [|[k' v'] r IH]; cbn; [done|].
  destruct (String.eqb_spec k k') as [->|]; [intros [= ->]; by left | right; auto].
Qed.

Lemma registry_ok_get registered fname flow :
  registry_ok registered -> JSMap.get registered fname = Some flow -> flow_actions_ok flow.
Proof.
  intros Hok Hget. apply JSMap_get_In in Hget.
  unfold registry_ok in Hok. rewrite List.Forall_forall in Hok. apply (Hok _ Hget).
Qed.

Lemma registry_ok_detect registered text flow :
  registry_ok registered -> detectFlow registered text = Some flow -> flow_actions_ok flow.
Proof.
  intros Hok Hd. unfold detectFlow in Hd. apply find_some in Hd as [Hin _].
  unfold JSMap.values in Hin. apply in_map_iff in Hin as ([k f] & <- & Hin).
  unfold registry_ok in Hok. rewrite List.Forall_forall in Hok. apply (Hok _ Hin).
Qed.

(** Every path through [handleMessage]: the store is untouched, or the
    live session of the author went through [processConversation], or a
    fresh session was stored and went through it. *)
Lemma handleMessage_history tester message b :
  registry_ok (flows b) ->
  conversations (run (handleMessage tester message) b) = conversations b \/
  (exists state state',
     conversations b !! N_toString (authorId message) = Some state /\
     isSessionExpired (clock b) state = false /\
     context state `prefix_of` context state' /\
     userId state' = userId state /\
     rewritten (N_toString (authorId message)) state' (conversations b)
       (conversations (run (handleMessage tester message) b))) \/
  (exists fresh state',
     no_live_session b (N_toString (authorId message)) /\
     userId state' = N_toString (authorId message) /\
     rewritten (N_toString (authorId message)) state'
       (<[N_toString (authorId message) := fresh]> (conversations b))
       (conversations (run (handleMessage tester message) b))).
Proof.
  intros Hok. set (user := N_toString (authorId message)).
  destruct (isFromBot message) eqn:Hb.
  { left. unfold run. by rewrite handleMessage_bot. }
  assert (Hnew : no_live_session b user ->
            conversations (run (handleMessage tester message) b) = conversations b \/
            exists fresh state',
              no_live_session b user /\
              userId state' = user /\
              rewritten user state' (<[user := fresh]> (conversations b))
                (conversations (run (handleMessage tester message) b))).
  { intros Hn. destruct (detectFlow (flows b) (content message)) as [flow|] eqn:Hd.
    - right. unfold run. rewrite (handleMessage_new _ _ _ _ Hb Hn Hd).
      destruct (processConversation_history tester user message
                  (createConversationState (clock b) user (name flow)) flow
                  (set_conversations b
                     (<[user := createConversationState (clock b) user (name flow)]>
                        (conversations b)))
                  (registry_ok_detect _ _ _ Hok Hd)) as (state' & _ & Hu & Hr).
      eexists _, state'. split; [exact Hn|]. split; [exact Hu | exact Hr].
    - left. unfold run. by rewrite (handleMessage_ignored _ _ _ Hb Hn Hd). }
  destruct (conversations b !! user) as [state|] eqn:Hs.
  2:{ destruct Hnew as [H | H]; [by unfold no_live_session; rewrite Hs | by left | by right; right]. }
  destruct (isSessionExpired (clock b) state) eqn:He.
  { destruct Hnew as [H | H]; [by unfold no_live_session; rewrite Hs | by left | by right; right]. }
  destruct (currentTopic state) as [fname|] eqn:Ht.
  2:{ left. unfold run, handleMessage. rewrite Hb. munfold. cbn. fold user. rewrite Hs, He.
      unfold handleExistingConversation. by rewrite Ht. }
  destruct (truthy fname) eqn:Hf.
  2:{ left. unfold run, handleMessage. rewrite Hb. munfold. cbn. fold user. rewrite Hs, He.
      unfold handleExistingConversation. by rewrite Ht, Hf. }
  destruct (JSMap.get (flows b) fname) as [flow|] eqn:Hg.
  2:{ left. unfold run, handleMessage. rewrite Hb. munfold. cbn. fold user. rewrite Hs, He.
      unfold handleExistingConversation. rewrite Ht, Hf. munfold. cbn. by rewrite Hg. }
  right. left. unfold run.
  rewrite (handleMessage_existing _ _ _ _ _ _ Hb Hs He Ht Hf Hg).
  destruct (processConversation_history tester user message state flow b
              (registry_ok_get _ _ _ Hok Hg)) as (state' & Hp & Hu & Hr).
  exists state, state'. done.
Qed.

Lemma new_bot_keyed t : keyed_by_user (new_ConversationalBot t).
Proof. intros key state H. cbn in H. by rewrite lookup_empty in H. Qed.

(** Handling a message keeps every session under the identifier it
    carries. *)
Lemma handleMessage_keyed tester message b :
  registry_ok (flows b) -> keyed_by_user b ->
  keyed_by_user (run (handleMessage tester message) b).
Proof.
  intros Hok Hkeyed key state.
  assert (Hkeep : forall user state' before,
            userId state' = user ->
            (forall k st, k <> user -> before !! k = Some st -> userId st = k) ->
            forall after, rewritten user state' before after ->
            after !! key = Some state -> userId state = key).
  { intros user state' before Hu Hbefore after [-> | ->] Hlook.
    - destruct (decide (user = key)) as [<-|Hne].
      + rewrite lookup_insert_eq in Hlook. by injection Hlook as <-.
      + rewrite lookup_insert_ne in Hlook by done. eauto.
    - apply lookup_delete_Some in Hlook as [_ Hlook].
      destruct (decide (user = key)) as [<-|Hne].
      + rewrite lookup_insert_eq in Hlook. by injection Hlook as <-.
      + rewrite lookup_insert_ne in Hlook by done. eauto. }
  destruct (handleMessage_history tester message b Hok)
    as [-> | [(st & st' & Hst & _ & _ & Hu & Hr) | (fresh & st' & _ & Hu & Hr)]].
  - apply Hkeyed.
  - eapply Hkeep; [|intros k s0 _; apply Hkeyed|exact Hr]. rewrite Hu. by apply Hkeyed.
  - eapply Hkeep; [exact Hu| |exact Hr].
    intros k s0 Hne Hlook. rewrite lookup_insert_ne in Hlook by done. by apply Hkeyed.
Qed.

(** Handling a message changes neither the registry nor the clock. *)
Lemma handleMessage_flows_clock tester message b :
  flows (run (handleMessage tester message) b) = flows b /\
  clock (run (handleMessage tester message) b) = clock b.
Proof.
  assert (Hpc : forall key state flow b0,
            flows (run (processConversation tester key message state flow) b0) = flows b0 /\
            clock (run (processConversation tester key message state flow) b0) = clock b0).
  { intros key state flow b0. unfold run. by rewrite processConversation_effect. }
  set (user := N_toString (authorId message)).
  destruct (isFromBot message) eqn:Hb.
  { unfold run. by rewrite handleMessage_bot. }
  assert (Hnew : no_live_session b user ->
            flows (run (handleMessage tester message) b) = flows b /\
            clock (run (handleMessage tester message) b) = clock b).
  { intros Hn. destruct (detectFlow (flows b) (content message)) as [flow|] eqn:Hd.
    - unfold run. rewrite (handleMessage_new _ _ _ _ Hb Hn Hd).
      apply (Hpc _ _ _ (set_conversations b _)).
    - unfold run. by rewrite (handleMessage_ignored _ _ _ Hb Hn Hd). }
  destruct (conversations b !! user) as [state|] eqn:Hs.
  2:{ apply Hnew. unfold no_live_session. by rewrite Hs. }
  destruct (isSessionExpired (clock b) state) eqn:He.
  { apply Hnew. unfold no_live_session. by rewrite Hs. }
  destruct (currentTopic state) as [fname|] eqn:Ht.
  2:{ unfold run, handleMessage. rewrite Hb. munfold. cbn. fold user. rewrite Hs, He.
      unfold handleExistingConversation. by rewrite Ht. }
  destruct (truthy fname) eqn:Hf.
  2:{ unfold run, handleMessage. rewrite Hb. munfold. cbn. fold user. rewrite Hs, He.
      unfold handleExistingConversation. by rewrite Ht, Hf. }
  destruct (JSMap.get (flows b) fname) as [flow|] eqn:Hg.
  2:{ unfold run, handleMessage. rewrite Hb. munfold. cbn. fold user. rewrite Hs, He.
      unfold handleExistingConversation. rewrite Ht, Hf. munfold. cbn. by rewrite Hg. }
  unfold run. rewrite (handleMessage_existing _ _ _ _ _ _ Hb Hs He Ht Hf Hg). apply Hpc.
Qed.

(** A message of one user leaves the sessions of the others alone. *)
Lemma handleMessage_other_user tester message b user :
  registry_ok (flows b) -> keyed_by_user b ->
  user <> N_toString (authorId message) ->
  conversations (run (handleMessage tester message) b) !! user = conversations b !! user.
Proof.
  intros Hok Hkeyed Hne.
  destruct (handleMessage_history tester message b Hok)
    as [-> | [(st & st' & Hst & _ & _ & Hu & Hr) | (fresh & st' & _ & Hu & Hr)]].
  - reflexivity.
  - rewrite (Hkeyed _ _ Hst) in Hu.
    destruct Hr as [-> | ->].
    + by rewrite lookup_insert_ne.
    + rewrite Hu, lookup_delete_ne by done. by rewrite lookup_insert_ne.
  - destruct Hr as [-> | ->].
    + by rewrite !lookup_insert_ne.
    + rewrite Hu, lookup_delete_ne by done. by rewrite !lookup_insert_ne.
Qed.

(** ** The session reaper *)

Lemma isSessionExpired_spec t state :
  isSessionExpired t state = true <-> (t - lastInteraction state > sessionTimeout)%Z.
Proof. unfold isSessionExpired. rewrite Z.gtb_ltb, Z.ltb_lt. lia. Qed.

Lemma cleanupExpiredSessions_lookup b user :
  conversations (run cleanupExpiredSessions b) !! user
  = match conversations b !! user with
    | Some state => if isSessionExpired (clock b) state then None else Some state
    | None => None
    end.
Proof.
  unfold run, cleanupExpiredSessions, write. cbn.
  rewrite map_lookup_filter.
  destruct (conversations b !! user) as [state|]; cbn; [|reflexivity].
  destruct (isSessionExpired (clock b) state) eqn:He.
  - rewrite option_guard_False; [reflexivity | cbn; congruence].
  - rewrite option_guard_True; [reflexivity | cbn; congruence].
Qed.

(** ** Claims about the conversation engine *)

(** C3.  A message that creates a flow session (no session, or an expired
    one, and a trigger match) is consumed by entering the initial state:
    the handler returns normally, the stored session is the fresh one with
    the initial state as its whole history and with empty user data, and
    the single thing sent is the initial state's prompt.  The outcome
    mentions neither the regex engine, nor the transitions, nor the action
    of the initial state: none of them is consulted. *)
Theorem C3_trigger_message_enters_initial_state
    tester b message user flow def :
  from_user message user ->
  no_live_session b user ->
  detectFlow (flows b) (content message) = Some flow ->
  JSObject.get (states flow) (initialState flow) = Some def ->
  handleMessage tester message b
  = (Normal tt,
     mkBot (<[user := mkConversationState user [initialState flow]
                        (Some (name flow)) (clock b) (Some [])]> (conversations b))
       (flows b)
       (transcript b ++ [(channelId message, Text (prompt def))])
       (clock b)).
Proof.
  intros [Hb <-] Hn Hd Hs.
  rewrite (handleMessage_new _ _ _ _ Hb Hn Hd).
  erewrite processConversation_initial; eauto.
  cbn. rewrite insert_insert_eq. reflexivity.
Qed.

(** C4.  The code at the failing input.  The history of user 42 ends
    with [constructor], which is not a state of the parking flow.  The
    read [flow.states["constructor"]] finds the member of
    [Object.prototype], so the session is not taken for a corrupted one:
    no recovery notice is sent, the session stays in the store, and the
    handler ends with the [TypeError] of [Object.entries(undefined)],
    whatever the regex engine is. *)
Theorem C4_inherited_state_name_throws tester :
  JSObject.get (states parking_flow) "constructor" = None /\
  handleMessage tester (says "anything") (world_at parking_flow ["ask"; "constructor"] 1000)
  = (Throw TypeError,
     mkBot {[ "42" := mkConversationState "42" ["ask"; "constructor"]
                        (Some "parking") 1000 (Some []) ]}
       [("parking", parking_flow)] [] 1000).
Proof.
  split; [reflexivity|].
  rewrite (handleMessage_live tester (says "anything")
             (world_at parking_flow ["ask"; "constructor"] 1000) "42"
             (mkConversationState "42" ["ask"; "constructor"] (Some "parking") 0 (Some []))
             parking_flow).
  - rewrite processConversation_effect. cbn. by rewrite insert_singleton_eq.
  - split; reflexivity.
  - split; [|reflexivity]. split; [reflexivity|]. split; [reflexivity|].
    exists "parking". split; [reflexivity|]. split; reflexivity.
Qed.

(** C10.  The code at the failing input.  The catch-all of the state
    [ask] of [borrowed_flow] leads to [toString], which is not a state of
    the flow.  The read [flow.states["toString"]] finds the member of
    [Object.prototype]: the name is appended to the history and a message
    is sent at once, with [undefined] as its content; the next message of
    the user, in time, gets no recovery notice and the session is not
    deleted: the handler ends with a [TypeError].  The regex engine is
    [RegExp.test]. *)
Theorem C10_inherited_target_is_answered :
  JSObject.get (states borrowed_flow) "toString" = None /\
  handleMessage RegExp.test (says "downtown") (world_at borrowed_flow ["ask"] 1000)
  = (Normal tt,
     mkBot {[ "42" := mkConversationState "42" ["ask"; "toString"]
                        (Some "borrowed") 1000 (Some []) ]}
       [("borrowed", borrowed_flow)] [(7%N, NoText)] 1000) /\
  handleMessage RegExp.test (says "hello?")
    (set_clock (run (handleMessage RegExp.test (says "downtown"))
                  (world_at borrowed_flow ["ask"] 1000)) 2000)
  = (Throw TypeError,
     mkBot {[ "42" := mkConversationState "42" ["ask"; "toString"]
                        (Some "borrowed") 2000 (Some []) ]}
       [("borrowed", borrowed_flow)] [(7%N, NoText)] 2000).
Proof. split; [reflexivity|]. split; vm_compute; reflexivity. Qed.

(** C9.  Whether a matched transition ends the session is decided by the
    name of the target alone.  From a live session, a matched transition
    to a resolvable target removes the user's entry exactly when the
    target is spelled "complete"; any other target keeps the session, with
    the target appended to its history.  If that other target has no
    transitions, every later message of the user that arrives before the
    session expires is answered with the "didn't understand" reply and
    leaves the history as it is. *)
Theorem C9_completion_is_decided_by_the_name
    tester b message user state flow def next target arrivals :
  from_user message user ->
  live_session b user state flow ->
  flow_actions_ok flow ->
  context state <> [] ->
  JSObject.get (states flow) (currentStateName state flow) = Some def ->
  findNextState tester (normalize (content message)) (transitions def) = Normal (Some next) ->
  truthy next = true ->
  JSObject.get (states flow) next = Some target ->
  Forall (fun tm => from_user (snd tm) user) arrivals ->
  in_time (clock b) arrivals ->
  (conversations (run (handleMessage tester message) b) !! user = None <-> next = "complete") /\
  (next <> "complete" ->
   exists state1,
     conversations (run (handleMessage tester message) b) !! user = Some state1 /\
     context state1 = (context state ++ [next])%list) /\
  (next <> "complete" -> transitions target = [] ->
   transcript (deliver_all tester arrivals (run (handleMessage tester message) b))
   = (transcript (run (handleMessage tester message) b)
      ++ map (fun tm => (channelId (snd tm), Text unknown_notice)) arrivals)%list /\
   exists state',
     conversations (deliver_all tester arrivals (run (handleMessage tester message) b)) !! user
     = Some state' /\
     context state' = (context state ++ [next])%list).
Proof.
  intros Hm Hl Hok Hc Hd Hf Ht Hn Hall Htime. unfold run.
  rewrite (handleMessage_transition _ _ _ _ _ _ _ _ Hm Hl Hc Hd Hf Ht).
  rewrite (transitionToNextState_declared _ _ _ _ _ _ _ Hn). cbn.
  destruct (acted_fields flow _ def (set_lastInteraction state (clock b)) (content message) Hok Hd)
    as (Hu & Hctx & Htop & Hlast).
  cbn in Hu, Hctx, Htop, Hlast.
  set (state1 := acted def (set_lastInteraction state (clock b)) (content message)) in *.
  set (state2 := set_context state1 (context state1 ++ [next])).
  destruct Hl as [(Hs & Huser & fname & Htopic & Hfn & Hflow) He].
  destruct (String.eqb_spec next "complete") as [Heq | Hneq].
  - split; [|split; intros; congruence].
    split; [done|]. intros _. rewrite Hu, Huser. apply lookup_delete_eq.
  - assert (Hlook : <[user:=state2]> (<[user:=state1]> (conversations b)) !! user = Some state2)
      by apply lookup_insert_eq.
    assert (Hctx2 : context state2 = (context state ++ [next])%list)
      by (cbn; by rewrite Hctx).
    split; [split; [rewrite Hlook; discriminate | done]|].
    split; [intros _; exists state2; done|].
    intros _ Htr.
    edestruct (deliver_all_dead_end tester arrivals
                 (mkBot (<[user:=state2]> (<[user:=state1]> (conversations b))) (flows b)
                    (transcript b ++ [(channelId message,
                                       Text (interpolatePrompt (prompt target)
                                               (userData state1)))])
                    (clock b))
                 user state2 flow (context state1) next target)
      as (Htrans & state' & Hlook' & Hctx'); eauto.
    + split; [exact Hlook|]. split; [cbn; congruence|].
      exists fname. cbn. rewrite Htop. done.
    + cbn. rewrite Hlast. exact Htime.
    + split; [exact Htrans|]. exists state'. split; [exact Hlook' | congruence].
Qed.

#[local] Arguments JSObject.inherits : simpl never.



(** ** Objects and their enumeration order *)

Lemma JSObject_set_fresh {V} (o : JSObject.t V) k v :
  k ∉ map fst o -> JSObject.set o k v = (o ++ [(k, v)])%list.
Proof.
  induction o as [|[k' v'] r IH]; cbn; intros Hk; [reflexivity|].
  apply not_elem_of_cons in Hk as [Hne Hk].
  destruct (String.eqb_spec k k') as [->|_]; [done|]. by rewrite IH.
Qed.

Lemma JSObject_literal_from {V} (props acc : list (string * V)) :
  NoDup (map fst (acc ++ props)) ->
  fold_left (fun o kv => JSObject.set o (fst kv) (snd kv)) props acc = (acc ++ props)%list.
Proof.
  revert acc. induction props as [|[k v] r IH]; intros acc Hnd; cbn.
  - by rewrite app_nil_r.
  - rewrite JSObject_set_fresh.
    + rewrite IH; rewrite <- app_assoc; [reflexivity | exact Hnd].
    + rewrite map_app in Hnd. cbn in Hnd.
      apply NoDup_app in Hnd as (_ & Hdis & _). intros Hin.
      apply (Hdis _ Hin). by left.
Qed.

Lemma JSObject_literal_nodup {V} (props : list (string * V)) :
  NoDup (map fst props) -> JSObject.literal props = props.
Proof. intros Hnd. unfold JSObject.literal. by rewrite JSObject_literal_from. Qed.

Lemma Object_entries_named {V} (o : JSObject.t V) :
  no_index_keys o -> JSObject.Object_entries o = o.
Proof.
  unfold JSObject.Object_entries, no_index_keys. intros Hno.
  assert (Hidx : JSObject.index_props o = [] /\ JSObject.named_props o = o).
  { induction Hno as [|[k v] r Hk _ [IHi IHn]]; [done|]. cbn in *.
    rewrite Hk. unfold JSObject.is_index in Hk.
    destruct (JSObject.array_index k); [done|]. by rewrite IHi, IHn. }
  destruct Hidx as [-> ->]. reflexivity.
Qed.

Lemma Object_entries_declared {V} (declared : list (string * V)) :
  NoDup (map fst declared) -> no_index_keys declared ->
  JSObject.Object_entries (JSObject.literal declared) = declared.
Proof.
  intros Hnd Hno. rewrite JSObject_literal_nodup by done. by apply Object_entries_named.
Qed.

Lemma JSObject_get_find {V} (o : JSObject.t V) key :
  JSObject.get o key
  = match List.find (fun kv => String.eqb (fst kv) key) o with
    | Some kv => Some (snd kv)
    | None => None
    end.
Proof.
  induction o as [|[k v] r IH]; cbn; [reflexivity|].
  rewrite (String.eqb_sym k). destruct (String.eqb key k); [reflexivity | exact IH].
Qed.

Lemma JSObject_get_catch_all (o : JSObject.t string) :
  JSObject.get o ".*" = catch_all o.
Proof. apply JSObject_get_find. Qed.

(** ** The transition matcher *)

Lemma findNextState_loop_declared tester input entries fallback :
  patterns_valid tester input entries ->
  findNextState_loop tester input entries fallback
  = Normal (match first_declared_match tester input entries with
            | Some target => Some target
            | None => fallback
            end).
Proof.
  induction 1 as [|[p t] r Hp _ IH]; cbn; [reflexivity|]. cbn in Hp.
  destruct (tester p input) as [[|]|]; [reflexivity | exact IH | done].
Qed.

(** The catch-all pattern matches every input, the empty one included,
    so the final [return] of [findNextState] is reached only by tables
    without it. *)
Lemma catch_all_always_matches input : RegExp.test ".*" input = Some true.
Proof.
  unfold RegExp.test.
  change (RegExp.compile ".*")
    with (Some (RegExp.RSeq (RegExp.RStar RegExp.RDot) RegExp.REps)).
  by destruct input.
Qed.

(** C1 (amended).  [findNextState] tries the patterns in the enumeration
    order of the transitions object.  For a table declared with distinct
    patterns that are valid regular expressions, none of which is an
    array-index key, that order is the declaration order: the result is
    the target of the first declared pattern that matches the normalised
    input; when none matches it is the target of the [.*] entry if there
    is one, and nothing otherwise. *)
Theorem C1_first_declared_match_wins
    tester (declared : list (string * string)) (input : string) :
  NoDup (map fst declared) ->
  no_index_keys declared ->
  patterns_valid tester (normalize input) declared ->
  findNextState tester (normalize input) (JSObject.literal declared)
  = Normal (declared_match tester (normalize input) declared).
Proof.
  intros Hnd Hno Hval. unfold findNextState, declared_match.
  rewrite Object_entries_declared by done.
  rewrite findNextState_loop_declared by done.
  rewrite JSObject_literal_nodup by done.
  by rewrite JSObject_get_catch_all.
Qed.

Lemma C1_round_trip_witness :
  findNextState RegExp.test (normalize "1") (JSObject.literal round_trip_table)
  = Normal (Some "A") /\
  findNextState RegExp.test (normalize "yes please") (JSObject.literal round_trip_table)
  = Normal (Some "A") /\
  findNextState RegExp.test (normalize "nah") (JSObject.literal round_trip_table)
  = Normal (Some "B").
Proof.
  assert (Hnd : NoDup (map fst round_trip_table))
    by (apply (bool_decide_unpack (NoDup (map fst round_trip_table))); vm_compute; exact I).
  assert (Hno : no_index_keys round_trip_table) by (repeat constructor).
  assert (Hval : forall input, patterns_valid RegExp.test input round_trip_table)
    by (intros input; repeat constructor; discriminate).
  refine (conj _ (conj _ _)).
  - rewrite (C1_first_declared_match_wins RegExp.test round_trip_table "1" Hnd Hno (Hval _)).
    reflexivity.
  - rewrite (C1_first_declared_match_wins RegExp.test round_trip_table "yes please"
               Hnd Hno (Hval _)).
    reflexivity.
  - rewrite (C1_first_declared_match_wins RegExp.test round_trip_table "nah" Hnd Hno (Hval _)).
    reflexivity.
Defined.

(** C1, as stated, fails on a table with an array-index pattern: "yes" is
    declared first and matches, yet the entry of "1" is tried first. *)
Lemma C1_index_key_counterexample :
  declared_match RegExp.test (normalize "yes 1") [("yes", "A"); ("1", "B")] = Some "A" /\
  findNextState RegExp.test (normalize "yes 1") (JSObject.literal [("yes", "A"); ("1", "B")])
  = Normal (Some "B") /\
  findNextState RegExp.test (normalize "yes 1") (JSObject.literal [("yes", "A"); ("1", "B")])
  <> Normal (declared_match RegExp.test (normalize "yes 1") [("yes", "A"); ("1", "B")]).
Proof. refine (conj eq_refl (conj eq_refl _)). vm_compute. discriminate. Qed.

(** ** The flow registry *)

Lemma JSMap_get_set_eq {V} (m : list (string * V)) k v :
  JSMap.get (JSMap.set m k v) k = Some v.
Proof.
  induction m as [|[k' v'] r IH]; cbn.
  - by rewrite String.eqb_refl.
  - destruct (String.eqb_spec k k') as [->|Hne]; cbn.
    + by rewrite String.eqb_refl.
    + destruct (String.eqb_spec k k'); [done | exact IH].
Qed.

Lemma JSMap_get_set_ne {V} (m : list (string * V)) k k' v :
  k' <> k -> JSMap.get (JSMap.set m k v) k' = JSMap.get m k'.
Proof.
  intros Hne. induction m as [|[k0 v0] r IH]; cbn.
  - destruct (String.eqb_spec k' k); [done | reflexivity].
  - destruct (String.eqb_spec k k0) as [->|Hk]; cbn.
    + destruct (String.eqb_spec k' k0); [done | reflexivity].
    + destruct (String.eqb_spec k' k0); [reflexivity | exact IH].
Qed.

Lemma JSMap_set_keys {V} (m : list (string * V)) k v :
  map fst (JSMap.set m k v)
  = match JSMap.get m k with
    | Some _ => map fst m
    | None => (map fst m ++ [k])%list
    end.
Proof.
  induction m as [|[k' v'] r IH]; cbn; [reflexivity|].
  destruct (String.eqb_spec k k') as [->|Hk]; cbn; [reflexivity|].
  rewrite IH. by destruct (JSMap.get r k).
Qed.

(** C6 (amended).  Registration cannot fail: [registerConversationFlows]
    returns normally from every world and stores the onboarding flow with
    [Map.set].  A definition already registered under that name is
    replaced where it stands, without notice; otherwise the flow is added
    last.  Other registrations, the sessions and the transcript are left
    alone. *)
Theorem C6_registration_overwrites b :
  fst (registerConversationFlows b) = Normal tt /\
  JSMap.get (flows (run registerConversationFlows b)) "onboarding"
  = Some createOnboardingFlow /\
  (forall k, k <> "onboarding" ->
     JSMap.get (flows (run registerConversationFlows b)) k = JSMap.get (flows b) k) /\
  map fst (flows (run registerConversationFlows b))
  = match JSMap.get (flows b) "onboarding" with
    | Some _ => map fst (flows b)
    | None => (map fst (flows b) ++ ["onboarding"])%list
    end /\
  conversations (run registerConversationFlows b) = conversations b /\
  transcript (run registerConversationFlows b) = transcript b.
Proof.
  unfold registerConversationFlows, run, write. cbn.
  refine (conj eq_refl (conj _ (conj _ (conj _ (conj eq_refl eq_refl))))).
  - apply JSMap_get_set_eq.
  - intros k Hk. by apply JSMap_get_set_ne.
  - apply JSMap_set_keys.
Qed.

(** C6, as stated, fails: the name is taken, yet registering returns
    normally and the earlier definition is lost. *)
Lemma C6_duplicate_accepted_counterexample :
  JSMap.get (flows (mkBot ∅ [("onboarding", earlier_flow)] [] 0)) "onboarding"
  = Some earlier_flow /\
  fst (registerConversationFlows (mkBot ∅ [("onboarding", earlier_flow)] [] 0)) = Normal tt /\
  flows (run registerConversationFlows (mkBot ∅ [("onboarding", earlier_flow)] [] 0))
  = [("onboarding", createOnboardingFlow)] /\
  initialState createOnboardingFlow <> initialState earlier_flow.
Proof. refine (conj eq_refl (conj eq_refl (conj eq_refl _))). discriminate. Qed.

(** ** Strings: first occurrence and replacement *)

#[local] Arguments String.append !s1 s2 / : simpl nomatch.

Lemma append_assoc (a b c : string) : (a ++ b) ++ c = a ++ (b ++ c).
Proof. induction a as [|x a IH]; cbn; [reflexivity | by rewrite IH]. Qed.

Lemma append_nil_r (a : string) : a ++ "" = a.
Proof. induction a as [|x a IH]; [reflexivity | exact (f_equal (String x) IH)]. Qed.

Lemma prefix_append (p r : string) : String.prefix p (p ++ r) = true.
Proof.
  induction p as [|x p IH]; cbn; [by destruct r|].
  destruct (ascii_dec x x); [exact IH | done].
Qed.

Lemma prefix_inv (p s : string) :
  String.prefix p s = true -> exists r, s = p ++ r.
Proof.
  revert s. induction p as [|x p IH]; intros s H.
  - by exists s.
  - destruct s as [|y s]; cbn in H; [done|].
    destruct (ascii_dec x y) as [->|]; [|done].
    destruct (IH _ H) as [r ->]. by exists r.
Qed.

Lemma skip_append (p r : string) : JSString.skip (String.length p) (p ++ r) = r.
Proof. induction p as [|x p IH]; cbn; [by destruct r | exact IH]. Qed.

Lemma split_first_nil pat :
  JSString.split_first pat ""
  = if String.prefix pat "" then Some ("", JSString.skip (String.length pat) "") else None.
Proof. reflexivity. Qed.

Lemma split_first_cons pat c s :
  JSString.split_first pat (String c s)
  = if String.prefix pat (String c s)
    then Some ("", JSString.skip (String.length pat) (String c s))
    else match JSString.split_first pat s with
         | Some (a, b) => Some (String c a, b)
         | None => None
         end.
Proof. reflexivity. Qed.

Lemma split_first_sound pat s a b :
  JSString.split_first pat s = Some (a, b) -> s = a ++ pat ++ b.
Proof.
  revert a b. induction s as [|c s IH]; intros a b.
  - rewrite split_first_nil. destruct (String.prefix pat "") eqn:Hp; [|done].
    intros [= <- <-]. destruct (prefix_inv _ _ Hp) as [r Hr].
    rewrite Hr at 1. rewrite Hr at 2. by rewrite skip_append.
  - rewrite split_first_cons. destruct (String.prefix pat (String c s)) eqn:Hp.
    + intros [= <- <-]. destruct (prefix_inv _ _ Hp) as [r Hr].
      rewrite Hr. by rewrite skip_append.
    + destruct (JSString.split_first pat s) as [[a' b']|]; [|done].
      intros [= <- <-]. cbn. by rewrite <- (IH a' b' eq_refl).
Qed.

Lemma split_first_complete pat s :
  JSString.occurs pat s -> JSString.split_first pat s <> None.
Proof.
  intros (a & b & ->). induction a as [|c a IH].
  - change ("" ++ pat ++ b) with (pat ++ b).
    destruct (pat ++ b) as [|c r] eqn:E.
    + rewrite split_first_nil, <- E, prefix_append. done.
    + rewrite split_first_cons, <- E, prefix_append. done.
  - change (String c a ++ pat ++ b) with (String c (a ++ pat ++ b)).
    rewrite split_first_cons.
    destruct (String.prefix pat (String c (a ++ pat ++ b))); [done|].
    destruct (JSString.split_first pat (a ++ pat ++ b)) as [[? ?]|]; done.
Qed.

Lemma replace_absent s pat repl :
  ~ JSString.occurs pat s -> JSString.replace s pat repl = s.
Proof.
  intros Hno. unfold JSString.replace.
  destruct (JSString.split_first pat s) as [[a b]|] eqn:E; [|reflexivity].
  destruct Hno. exists a, b. by apply split_first_sound.
Qed.

Lemma replace_present s pat repl :
  JSString.occurs pat s ->
  exists a b, s = a ++ pat ++ b /\
              JSString.replace s pat repl
              = a ++ JSString.GetSubstitution pat a b repl ++ b.
Proof.
  intros Hocc. unfold JSString.replace.
  destruct (JSString.split_first pat s) as [[a b]|] eqn:E.
  - exists a, b. split; [by apply split_first_sound | reflexivity].
  - by destruct (split_first_complete _ _ Hocc).
Qed.

Lemma GetSubstitution_plain matched before after repl :
  JSString.has_char "$" repl = false ->
  JSString.GetSubstitution matched before after repl = repl.
Proof.
  induction repl as [|c r IH]; [reflexivity|]. cbn [JSString.has_char].
  destruct (Ascii.eqb_spec "$"%char c) as [<-|Hne]; [done|]. intros Hr.
  specialize (IH Hr).
  assert (Hstep : JSString.GetSubstitution matched before after (String c r)
                  = String c (JSString.GetSubstitution matched before after r)).
  { destruct c as [[] [] [] [] [] [] [] []]; try reflexivity; by destruct Hne. }
  by rewrite Hstep, IH.
Qed.

(** ** [Object.entries] enumerates the own properties *)

Lemma insert_index_perm {V} n (kv : string * V) sorted :
  JSObject.insert_index n kv sorted ≡ₚ (n, kv) :: sorted.
Proof.
  induction sorted as [|[m kv'] r IH]; cbn; [reflexivity|].
  destruct (n <? m)%N; [reflexivity|].
  rewrite IH. apply perm_swap.
Qed.

Lemma Object_entries_perm {V} (o : JSObject.t V) :
  JSObject.Object_entries o ≡ₚ o.
Proof.
  unfold JSObject.Object_entries. induction o as [|[k v] r IH]; cbn; [reflexivity|].
  unfold JSObject.is_index. destruct (JSObject.array_index k) as [n|].
  - rewrite insert_index_perm. cbn. by rewrite IH.
  - rewrite <- Permutation_middle. by rewrite IH.
Qed.

(** ** Rendering: what is not a placeholder of the data stays *)

Lemma interpolate_entries_cons template kv entries :
  interpolate_entries template (kv :: entries)
  = interpolate_entries (interpolate_step template kv) entries.
Proof. reflexivity. Qed.

Lemma interpolate_entries_absent template entries :
  Forall (fun kv => ~ JSString.occurs (placeholder (fst kv)) template) entries ->
  interpolate_entries template entries = template.
Proof.
  induction 1 as [|kv r Hkv _ IH]; [reflexivity|].
  rewrite interpolate_entries_cons. unfold interpolate_step.
  rewrite replace_absent by exact Hkv. exact IH.
Qed.

Lemma has_char_cons c d r :
  JSString.has_char c (String d r) = if Ascii.eqb c d then true else JSString.has_char c r.
Proof. reflexivity. Qed.

Lemma has_char_append c a b :
  JSString.has_char c (a ++ b) = JSString.has_char c a || JSString.has_char c b.
Proof.
  induction a as [|d a IH]; [reflexivity|].
  change (String d a ++ b) with (String d (a ++ b)). rewrite !has_char_cons.
  destruct (Ascii.eqb c d); [reflexivity | exact IH].
Qed.

Lemma brace_free_cons c s :
  brace_free (String c s) = true ->
  c <> "{"%char /\ c <> "}"%char /\ brace_free s = true.
Proof.
  unfold brace_free. rewrite !has_char_cons.
  destruct (Ascii.eqb_spec "{"%char c) as [<-|H1]; [done|].
  destruct (Ascii.eqb_spec "}"%char c) as [<-|H2]; [by rewrite andb_false_r|].
  intros H. repeat split; [congruence | congruence | exact H].
Qed.

(** Two brace-free keys closed by the same brace are the same key. *)
Lemma closed_key_inj k x b d :
  brace_free k = true -> brace_free x = true ->
  k ++ String "}" b = x ++ String "}" d -> k = x /\ b = d.
Proof.
  revert x. induction k as [|c k IH]; intros [|c' x] Hk Hx E; cbn in E.
  - by injection E.
  - injection E as E1 E2. apply brace_free_cons in Hx as (_ & Hne & _). congruence.
  - injection E as E1 E2. apply brace_free_cons in Hk as (_ & Hne & _). congruence.
  - injection E as -> E. apply brace_free_cons in Hk as (_ & _ & Hk).
    apply brace_free_cons in Hx as (_ & _ & Hx).
    destruct (IH x Hk Hx E) as [-> ->]. done.
Qed.

(** An opening brace cannot sit inside text that has none. *)
Lemma open_brace_after w r c q :
  JSString.has_char "{" w = false ->
  w ++ r = c ++ String "{" q ->
  exists m, c = w ++ m /\ r = m ++ String "{" q.
Proof.
  revert c. induction w as [|ch w IH]; intros c Hw E.
  - by exists c.
  - rewrite has_char_cons in Hw. cbn in E.
    destruct (Ascii.eqb_spec "{"%char ch) as [<-|Hne]; [done|].
    destruct c as [|ch' c]; cbn in E; injection E as E1 E2; [congruence|].
    subst ch'. destruct (IH c Hw E2) as (m & -> & ->). by exists m.
Qed.

Lemma brace_free_no_open s : brace_free s = true -> JSString.has_char "{" s = false.
Proof. unfold brace_free. intros H. apply andb_true_iff in H as [H _]. by destruct (JSString.has_char "{" s). Qed.

(** Occurrences of the placeholders of two different brace-free keys do
    not overlap. *)
Lemma placeholders_apart k x a b c d :
  brace_free k = true -> brace_free x = true -> k <> x ->
  a ++ placeholder k ++ b = c ++ placeholder x ++ d ->
  (exists m, a = c ++ placeholder x ++ m) \/ (exists m, b = m ++ placeholder x ++ d).
Proof.
  intros Hk Hx Hne. unfold placeholder.
  revert c. induction a as [|ch a IH]; intros c E.
  - destruct c as [|ch c]; cbn in E.
    + injection E as E. rewrite !append_assoc in E. cbn in E.
      destruct (closed_key_inj _ _ _ _ Hk Hx E). done.
    + injection E as <- E. rewrite !append_assoc in E. cbn in E.
      destruct (open_brace_after _ _ _ _ (brace_free_no_open _ Hk) E) as (m & -> & Em).
      destruct m as [|ch m]; [discriminate Em|]. cbn in Em.
      injection Em as <- ->. right. exists m. by rewrite !append_assoc.
  - destruct c as [|ch' c]; cbn in E.
    + injection E as -> E. rewrite !append_assoc in E. cbn in E. symmetry in E.
      destruct (open_brace_after _ _ _ _ (brace_free_no_open _ Hx) E) as (m & -> & Em).
      destruct m as [|ch m]; [discriminate Em|]. cbn in Em.
      injection Em as <- ->. left. exists m. cbn. by rewrite !append_assoc.
    + injection E as <- E. destruct (IH c E) as [[m ->] | [m ->]].
      * left. by exists m.
      * right. by exists m.
Qed.

Lemma replace_keeps_other_placeholder s k x repl :
  brace_free k = true -> brace_free x = true -> k <> x ->
  JSString.occurs (placeholder x) s ->
  JSString.occurs (placeholder x) (JSString.replace s (placeholder k) repl).
Proof.
  intros Hk Hx Hne Hocc. unfold JSString.replace.
  destruct (JSString.split_first (placeholder k) s) as [[a b]|] eqn:E; [|exact Hocc].
  apply split_first_sound in E. destruct Hocc as (c & d & Hs). rewrite Hs in E.
  symmetry in E.
  destruct (placeholders_apart _ _ _ _ _ _ Hk Hx Hne E) as [[m ->] | [m ->]].
  - exists c, (m ++ JSString.GetSubstitution (placeholder k) (c ++ placeholder x ++ m)
                      b repl ++ b).
    by rewrite !append_assoc.
  - exists (a ++ JSString.GetSubstitution (placeholder k) a (m ++ placeholder x ++ d) repl ++ m), d.
    by rewrite !append_assoc.
Qed.

Lemma interpolate_entries_keeps_absent template entries x :
  brace_free x = true ->
  Forall (fun kv => brace_free (fst kv) = true /\ fst kv <> x) entries ->
  JSString.occurs (placeholder x) template ->
  JSString.occurs (placeholder x) (interpolate_entries template entries).
Proof.
  intros Hx Hall. revert template.
  induction Hall as [|kv r [Hk Hne] _ IH]; intros template Hocc; [exact Hocc|].
  rewrite interpolate_entries_cons. apply IH.
  by apply replace_keeps_other_placeholder.
Qed.

(** ** Rendering a template of literal text and placeholders *)

Lemma untok_app ts1 ts2 : untok (ts1 ++ ts2) = untok ts1 ++ untok ts2.
Proof.
  induction ts1 as [|[c|k] r IH]; cbn; [reflexivity | by rewrite IH |].
  by rewrite IH, !append_assoc.
Qed.

Lemma untok_lits v : untok (lits v) = v.
Proof. induction v as [|c v IH]; cbn; [reflexivity | by rewrite IH]. Qed.

Lemma placeholder_cons key : placeholder key = String "{" (key ++ "}").
Proof. reflexivity. Qed.

Lemma prefix_cons a p b s :
  String.prefix (String a p) (String b s)
  = if ascii_dec a b then String.prefix p s else false.
Proof. cbn. by destruct (ascii_dec a b). Qed.

Lemma prefix_other_char a p b s : a <> b -> String.prefix (String a p) (String b s) = false.
Proof. intros H. rewrite prefix_cons. by destruct (ascii_dec a b). Qed.

(** Text without an opening brace is stepped over when a placeholder is
    searched. *)
Lemma split_first_skip p w s :
  JSString.has_char "{" w = false ->
  JSString.split_first (String "{" p) (w ++ s)
  = match JSString.split_first (String "{" p) s with
    | Some (a, b) => Some (w ++ a, b)
    | None => None
    end.
Proof.
  induction w as [|ch w IH]; intros Hw.
  - cbn. by destruct (JSString.split_first (String "{" p) s) as [[a b]|].
  - rewrite has_char_cons in Hw.
    destruct (Ascii.eqb_spec "{"%char ch) as [<-|Hne]; [done|].
    change (String ch w ++ s) with (String ch (w ++ s)).
    rewrite split_first_cons, (prefix_other_char _ _ _ _ Hne), (IH Hw).
    by destruct (JSString.split_first (String "{" p) s) as [[a b]|].
Qed.

Lemma closed_key_no_open key :
  brace_free key = true -> JSString.has_char "{" (key ++ "}") = false.
Proof.
  intros H. rewrite has_char_append, (brace_free_no_open _ H). reflexivity.
Qed.

Lemma prefix_closed_key k k' rest :
  brace_free k = true -> brace_free k' = true ->
  String.prefix (k ++ "}") (k' ++ String "}" rest) = true -> k = k'.
Proof.
  intros Hk Hk' Hp. apply prefix_inv in Hp as [r Hr].
  rewrite append_assoc in Hr. cbn in Hr. symmetry in Hr.
  by destruct (closed_key_inj _ _ _ _ Hk Hk' Hr).
Qed.

(** Where the first placeholder of [key] is, in a well-formed template. *)
Lemma split_first_untok key ts :
  brace_free key = true ->
  Forall (fun t => token_ok t = true) ts ->
  JSString.split_first (placeholder key) (untok ts)
  = match ts with
    | [] => None
    | Lit c :: r =>
        match JSString.split_first (placeholder key) (untok r) with
        | Some (a, b) => Some (String c a, b)
        | None => None
        end
    | Hole key' :: r =>
        if String.eqb key key' then Some ("", untok r)
        else match JSString.split_first (placeholder key) (untok r) with
             | Some (a, b) => Some (placeholder key' ++ a, b)
             | None => None
             end
    end.
Proof.
  intros Hk Hts. destruct Hts as [|[c|key'] r Hok Hr]; [reflexivity | |].
  - cbn [untok]. rewrite split_first_cons, placeholder_cons.
    cbn in Hok. apply andb_true_iff in Hok as [Hopen _].
    rewrite prefix_other_char; [reflexivity|].
    intros <-. by rewrite Ascii.eqb_refl in Hopen.
  - cbn [untok]. cbn in Hok.
    destruct (String.eqb_spec key key') as [<-|Hne].
    + change (placeholder key ++ untok r) with (String "{" ((key ++ "}") ++ untok r)).
      rewrite split_first_cons.
      change (String "{" ((key ++ "}") ++ untok r)) with (placeholder key ++ untok r).
      by rewrite prefix_append, skip_append.
    + rewrite (placeholder_cons key'), (placeholder_cons key). cbn [append].
      rewrite split_first_cons, prefix_cons. destruct (ascii_dec "{" "{") as [_|]; [|done].
      rewrite append_assoc. cbn [append].
      destruct (String.prefix (key ++ "}") (key' ++ String "}" (untok r))) eqn:Hp.
      { by destruct (Hne (prefix_closed_key _ _ _ Hk Hok Hp)). }
      change (key' ++ String "}" (untok r)) with (key' ++ "}" ++ untok r).
      rewrite <- append_assoc, (split_first_skip _ _ _ (closed_key_no_open _ Hok)).
      by destruct (JSString.split_first (String "{" (key ++ "}")) (untok r)) as [[a b]|].
Qed.

Lemma plain_text_inv v :
  plain_text v = true -> brace_free v = true /\ JSString.has_char "$" v = false.
Proof.
  unfold plain_text. intros H. apply andb_true_iff in H as [Hb Hd].
  split; [exact Hb | by destruct (JSString.has_char "$" v)].
Qed.

(** One step of the loop on a well-formed template: the first placeholder
    of the key gives way to the text, everything else stays. *)
Lemma replace_untok key v ts :
  brace_free key = true -> plain_text v = true ->
  Forall (fun t => token_ok t = true) ts ->
  JSString.replace (untok ts) (placeholder key) v = untok (fill_first key v ts).
Proof.
  intros Hk Hv Hts. destruct (plain_text_inv _ Hv) as [_ Hdollar].
  induction Hts as [|t r Hok Hr IH]; [reflexivity|].
  unfold JSString.replace in *.
  rewrite (split_first_untok key (t :: r) Hk (Forall_cons_2 _ _ _ Hok Hr)).
  destruct t as [c|key']; cbn [fill_first untok].
  - destruct (JSString.split_first (placeholder key) (untok r)) as [[a b]|].
    + rewrite GetSubstitution_plain in * by exact Hdollar. cbn. by rewrite <- IH.
    + by rewrite <- IH.
  - destruct (String.eqb key key').
    + rewrite GetSubstitution_plain by exact Hdollar.
      by rewrite untok_app, untok_lits.
    + cbn [untok].
      destruct (JSString.split_first (placeholder key) (untok r)) as [[a b]|].
      * rewrite GetSubstitution_plain in * by exact Hdollar.
        rewrite <- IH. by rewrite !append_assoc.
      * by rewrite <- IH.
Qed.

Lemma lits_ok v : brace_free v = true -> Forall (fun t => token_ok t = true) (lits v).
Proof.
  induction v as [|c v IH]; intros H; cbn; [constructor|].
  apply brace_free_cons in H as (H1 & H2 & H3). constructor; [|by apply IH].
  cbn. destruct (Ascii.eqb_spec c "{"%char); [done|].
  by destruct (Ascii.eqb_spec c "}"%char).
Qed.

Lemma fill_first_ok key v ts :
  brace_free v = true ->
  Forall (fun t => token_ok t = true) ts ->
  Forall (fun t => token_ok t = true) (fill_first key v ts).
Proof.
  intros Hv. induction 1 as [|[c|key'] r Hok Hr IH]; cbn; [constructor | by constructor |].
  destruct (String.eqb key key').
  - apply Forall_app. split; [by apply lits_ok | exact Hr].
  - by constructor.
Qed.

Lemma fill_first_lits key v w ts :
  fill_first key v (lits w ++ ts) = (lits w ++ fill_first key v ts)%list.
Proof. induction w as [|c w IH]; cbn; [reflexivity | by rewrite IH]. Qed.

(** Filling the first placeholders of two different keys commutes. *)
Lemma fill_first_comm k1 v1 k2 v2 ts :
  k1 <> k2 ->
  fill_first k1 v1 (fill_first k2 v2 ts) = fill_first k2 v2 (fill_first k1 v1 ts).
Proof.
  intros Hne. induction ts as [|[c|key] r IH]; cbn; [reflexivity | by rewrite IH |].
  destruct (String.eqb_spec k2 key) as [->|H2];
    destruct (String.eqb_spec k1 key) as [->|H1]; cbn.
  - done.
  - rewrite fill_first_lits. destruct (String.eqb_spec key key); [|done].
    destruct (String.eqb_spec k1 key); [done | reflexivity].
  - rewrite fill_first_lits. destruct (String.eqb_spec key key); [|done].
    destruct (String.eqb_spec k2 key); [done | reflexivity].
  - destruct (String.eqb_spec k1 key); [done|].
    destruct (String.eqb_spec k2 key); [done|]. by rewrite IH.
Qed.

Lemma interpolate_entries_untok entries :
  forall ts,
  Forall (fun kv => brace_free (fst kv) = true /\ plain_text (String_ (snd kv)) = true)
    entries ->
  Forall (fun t => token_ok t = true) ts ->
  interpolate_entries (untok ts) entries = untok (fold_left fill_step entries ts).
Proof.
  induction entries as [|[k v] r IH]; intros ts Hall Hts; [reflexivity|].
  apply Forall_cons in Hall as [[Hk Hv] Hall]. cbn in Hk, Hv.
  rewrite interpolate_entries_cons. unfold interpolate_step. cbn [fst snd].
  rewrite (replace_untok _ _ _ Hk Hv Hts). cbn [fold_left].
  apply IH; [exact Hall|]. apply fill_first_ok; [|exact Hts].
  by destruct (plain_text_inv _ Hv).
Qed.

Lemma fold_fill_perm entries1 entries2 :
  entries1 ≡ₚ entries2 ->
  NoDup (map fst entries1) ->
  forall ts, fold_left fill_step entries1 ts = fold_left fill_step entries2 ts.
Proof.
  induction 1 as [|x l l' Hp IH|x y l|l l' l'' Hp1 IH1 Hp2 IH2]; intros Hnd ts.
  - reflexivity.
  - cbn. apply IH. cbn in Hnd. by apply NoDup_cons_1_2 in Hnd.
  - cbn. unfold fill_step at 2 3 5 6. rewrite fill_first_comm; [reflexivity|].
    cbn in Hnd. apply NoDup_cons in Hnd as [Hx _]. intros E. apply Hx. rewrite E. by left.
  - rewrite IH1 by exact Hnd. apply IH2. by rewrite <- Hp1.
Qed.

(** Only placeholders of the data are filled. *)
Lemma filled_refl keys ts : filled keys ts ts.
Proof. induction ts; by constructor. Qed.

Lemma filled_fill_first keys key v ts ts' :
  In key keys -> filled keys ts ts' -> filled keys ts (fill_first key v ts').
Proof.
  intros Hin. induction 1 as [|t ts ts' Hf IH|key0 v0 ts ts' Hin0 Hf IH].
  - constructor.
  - destruct t as [c|key']; cbn.
    + by constructor.
    + destruct (String.eqb_spec key key') as [<-|_].
      * by constructor.
      * by constructor.
  - rewrite fill_first_lits. by constructor.
Qed.

Lemma filled_fold keys entries :
  forall ts ts',
  Forall (fun kv => In (fst kv) keys) entries ->
  filled keys ts ts' -> filled keys ts (fold_left fill_step entries ts').
Proof.
  induction entries as [|[k v] r IH]; intros ts ts' Hall Hf; [exact Hf|].
  apply Forall_cons in Hall as [Hk Hall]. cbn [fold_left].
  apply IH; [exact Hall|]. by apply filled_fill_first.
Qed.

(** ** Claims about the template interpolator *)

(** C2.  The code at the failing input: a placeholder that occurs twice
    is replaced once, the second occurrence is still in the output. *)
Theorem C2_second_occurrence_is_left
  : interpolatePrompt "{name} and {name}"
      (Some (JSObject.literal [("name", VString "Al")]))
    = "Al and {name}".
Proof. reflexivity. Qed.

(** The replacement text is a replacement template: a value with a
    dollar pattern is not inserted as its string form either. *)
Example dollar_patterns_are_expanded :
  interpolatePrompt "Hi {name}!" (Some (JSObject.literal [("name", VString "A$&B$$C")]))
  = "Hi A{name}B$C!".
Proof. reflexivity. Qed.

Lemma Forall_entries {V} (P : string * V -> Prop) (o : JSObject.t V) :
  Forall P o -> Forall P (JSObject.Object_entries o).
Proof. intros H. by rewrite Object_entries_perm. Qed.

(** C7 (amended).  Rendering is a loop over the enumerated entries, each
    replacement acting on the output of the one before.  On a template
    made of literal text and well-formed placeholders, with distinct
    brace-free keys and values whose string forms contain no brace and no
    dollar sign, the result is the same for every order in which the same
    entries are held, and it is the template with placeholders filled by
    literal text: nothing that was substituted is substituted into. *)
Theorem C7_order_independent_on_tame_data
    (ts : list token) (data1 data2 : JSObject.t JSValue) :
  Forall (fun t => token_ok t = true) ts ->
  tame_data data1 ->
  data1 ≡ₚ data2 ->
  interpolatePrompt (untok ts) (Some data1) = interpolatePrompt (untok ts) (Some data2) /\
  interpolatePrompt (untok ts) (Some data1) = untok (fold_left fill_step data1 ts).
Proof.
  intros Hts [Hnd Hall] Hperm. unfold interpolatePrompt.
  assert (Hall2 : Forall (fun kv => brace_free (fst kv) = true /\
                                     plain_text (String_ (snd kv)) = true) data2)
    by (by rewrite <- Hperm).
  rewrite !interpolate_entries_untok by (by apply Forall_entries || done).
  assert (H1 : fold_left fill_step (JSObject.Object_entries data1) ts
               = fold_left fill_step data1 ts).
  { apply fold_fill_perm; [apply Object_entries_perm|].
    by rewrite Object_entries_perm. }
  assert (H2 : fold_left fill_step (JSObject.Object_entries data2) ts
               = fold_left fill_step data1 ts).
  { apply fold_fill_perm.
    - rewrite Object_entries_perm. by symmetry.
    - by rewrite Object_entries_perm, <- Hperm. }
  by rewrite H1, H2.
Qed.

Lemma C7_order_witness :
  interpolatePrompt "Hi {name} ({7})"
    (Some [("name", VString "Al"); ("7", VString "x")])
  = interpolatePrompt "Hi {name} ({7})"
      (Some [("7", VString "x"); ("name", VString "Al")]) /\
  interpolatePrompt "Hi {name} ({7})"
    (Some [("name", VString "Al"); ("7", VString "x")])
  = "Hi Al (x)".
Proof.
  apply (C7_order_independent_on_tame_data
           [Lit "H"; Lit "i"; Lit " "; Hole "name"; Lit " "; Lit "("; Hole "7"; Lit ")"]
           [("name", VString "Al"); ("7", VString "x")]
           [("7", VString "x"); ("name", VString "Al")]).
  - repeat constructor.
  - split.
    + apply (bool_decide_unpack (NoDup ["name"; "7"])). vm_compute. exact I.
    + repeat constructor.
  - apply perm_swap.
Defined.

(** C7, as stated, fails: the same mapping rendered from two enumeration
    orders gives two results, and in the first the text substituted for
    [a] was itself substituted into. *)
Lemma C7_rescan_counterexample :
  nested_first ≡ₚ nested_last /\
  interpolatePrompt "{a}" (Some nested_first) = "X" /\
  interpolatePrompt "{a}" (Some nested_last) = "{b}" /\
  interpolatePrompt "{a}" (Some nested_first) <> interpolatePrompt "{a}" (Some nested_last).
Proof.
  refine (conj _ (conj eq_refl (conj eq_refl _))).
  - apply perm_swap.
  - vm_compute. discriminate.
Qed.

(** C8 (amended).  Rendering never fails and (a) returns unchanged every
    template in which no placeholder of a data key occurs, whatever the
    values are; (b) keeps a placeholder whose key is absent from the data,
    when that key and the data's keys are brace-free; (c) on a template of
    literal text and well-formed placeholders, with distinct brace-free
    keys and plain values, touches nothing but placeholders of data keys:
    every other token of the template is in the output, in place. *)
Theorem C8_unmatched_parts_stay
    (template : string) (data : JSObject.t JSValue) (x : string) :
  (Forall (fun kv => ~ JSString.occurs (placeholder (fst kv)) template) data ->
   interpolatePrompt template (Some data) = template) /\
  (brace_free x = true ->
   Forall (fun kv => brace_free (fst kv) = true /\ fst kv <> x) data ->
   JSString.occurs (placeholder x) template ->
   JSString.occurs (placeholder x) (interpolatePrompt template (Some data))) /\
  (forall ts,
     template = untok ts ->
     Forall (fun t => token_ok t = true) ts ->
     tame_data data ->
     exists ts', filled (map fst data) ts ts' /\
                 interpolatePrompt template (Some data) = untok ts').
Proof.
  unfold interpolatePrompt. split; [|split].
  - intros H. apply interpolate_entries_absent. by apply Forall_entries.
  - intros Hx H Hocc. apply interpolate_entries_keeps_absent; [done | | done].
    by apply Forall_entries.
  - intros ts -> Hts [Hnd Hall].
    exists (fold_left fill_step (JSObject.Object_entries data) ts). split.
    + apply filled_fold; [|apply filled_refl].
      apply Forall_entries. rewrite List.Forall_forall. intros [k v] Hin.
      apply in_map_iff. by exists (k, v).
    + apply interpolate_entries_untok; [by apply Forall_entries | exact Hts].
Qed.

(** C8, as stated, fails: the braces around [{a}] are no placeholder of
    the data, yet they are gone from the output. *)
Lemma C8_literal_braces_counterexample :
  interpolatePrompt "{{a}}" (Some chained) = "Z" /\
  ~ JSString.occurs "{" (interpolatePrompt "{{a}}" (Some chained)).
Proof.
  split; [reflexivity|]. intros (a & b & E). vm_compute in E.
  destruct a as [|c a]; cbn in E; [discriminate E|].
  injection E as _ E. by destruct a.
Qed.

(** ** The flows of the examples respect the data model *)

Lemma JSObject_get_In {V} (o : JSObject.t V) k v :
  JSObject.get o k = Some v -> In (k, v) o.
Proof.
  induction o as [|[k' v'] r IH]; cbn; [done|].
  destruct (String.eqb_spec k k') as [->|]; [intros [= ->]; by left | right; auto].
Qed.

Lemma flow_actions_ok_states flow :
  Forall (fun kv => match action (snd kv) with
                    | Some act => writes_userData_only act
                    | None => True
                    end) (states flow) ->
  flow_actions_ok flow.
Proof.
  intros Hall sname def act Hget Hact. apply JSObject_get_In in Hget.
  rewrite List.Forall_forall in Hall. specialize (Hall _ Hget). cbn in Hall.
  by rewrite Hact in Hall.
Qed.

Lemma onboarding_actions_ok : flow_actions_ok createOnboardingFlow.
Proof.
  apply flow_actions_ok_states.
  repeat (constructor; [first [exact I | exact greeting_action_ok]|]). constructor.
Qed.

Lemma parking_actions_ok : flow_actions_ok parking_flow.
Proof. apply flow_actions_ok_states. repeat (constructor; [exact I|]). constructor. Qed.

Lemma dangling_actions_ok : flow_actions_ok dangling_flow.
Proof. apply flow_actions_ok_states. repeat (constructor; [exact I|]). constructor. Qed.

(** ** The claims at concrete inputs *)

Lemma C3_hello_witness :
  handleMessage RegExp.test (says "hello") (new_ConversationalBot 0)
  = (Normal tt,
     mkBot {[ "42" := mkConversationState "42" ["greeting"] (Some "onboarding") 0 (Some []) ]}
       [("onboarding", createOnboardingFlow)]
       [(7%N, Text (prompt greeting_state))] 0).
Proof.
  apply (C3_trigger_message_enters_initial_state RegExp.test (new_ConversationalBot 0)
           (says "hello") "42" createOnboardingFlow greeting_state).
  - split; reflexivity.
  - exact I.
  - reflexivity.
  - reflexivity.
Defined.



Lemma C9_parking_witness :
  (conversations (run (handleMessage RegExp.test (says "downtown"))
                    (world_at parking_flow ["ask"] 1000)) !! "42" = None
   <-> "parked" = "complete") /\
  ("parked" <> "complete" ->
   exists state1,
     conversations (run (handleMessage RegExp.test (says "downtown"))
                      (world_at parking_flow ["ask"] 1000)) !! "42" = Some state1 /\
     context state1 = ["ask"; "parked"]) /\
  ("parked" <> "complete" -> @nil (string * string) = [] ->
   transcript (deliver_all RegExp.test [(2000%Z, says "hello?"); (3000%Z, says "1")]
                 (run (handleMessage RegExp.test (says "downtown"))
                    (world_at parking_flow ["ask"] 1000)))
   = (transcript (run (handleMessage RegExp.test (says "downtown"))
                    (world_at parking_flow ["ask"] 1000))
      ++ [(7%N, Text unknown_notice); (7%N, Text unknown_notice)])%list /\
   exists state',
     conversations (deliver_all RegExp.test [(2000%Z, says "hello?"); (3000%Z, says "1")]
                      (run (handleMessage RegExp.test (says "downtown"))
                         (world_at parking_flow ["ask"] 1000))) !! "42" = Some state' /\
     context state' = ["ask"; "parked"]).
Proof.
  apply (C9_completion_is_decided_by_the_name RegExp.test
           (world_at parking_flow ["ask"] 1000) (says "downtown") "42"
           (mkConversationState "42" ["ask"] (Some "parking") 0 (Some []))
           parking_flow
           (mkStateDefinition "Where to?" (JSObject.literal [(".*", "parked")]) None)
           "parked"
           (mkStateDefinition "Parked." (JSObject.literal []) None)
           [(2000%Z, says "hello?"); (3000%Z, says "1")]).
  - split; reflexivity.
  - split; [|reflexivity]. split; [reflexivity|]. split; [reflexivity|].
    exists "parking". split; [reflexivity|]. split; reflexivity.
  - exact parking_actions_ok.
  - discriminate.
  - reflexivity.
  - reflexivity.
  - reflexivity.
  - reflexivity.
  - repeat constructor.
  - cbn. unfold sessionTimeout. lia.
Defined.

Lemma C8_absent_key_witness :
  interpolatePrompt "Hello {who}" (Some [("name", VString "Al")]) = "Hello {who}" /\
  JSString.occurs (placeholder "who")
    (interpolatePrompt "{name}: {who}" (Some [("name", VString "{who}$&")])) /\
  exists ts',
    filled ["name"] [Hole "name"; Lit ":"; Hole "who"] ts' /\
    interpolatePrompt "{name}:{who}" (Some [("name", VString "Al")]) = untok ts'.
Proof.
  refine (conj _ (conj _ _)).
  - apply (proj1 (C8_unmatched_parts_stay "Hello {who}" [("name", VString "Al")] "who")).
    repeat constructor. intros H. by apply split_first_complete in H.
  - apply (proj1 (proj2 (C8_unmatched_parts_stay "{name}: {who}"
                           [("name", VString "{who}$&")] "who"))).
    + reflexivity.
    + repeat constructor. discriminate.
    + by exists "{name}: ", "".
  - apply (proj2 (proj2 (C8_unmatched_parts_stay "{name}:{who}"
                           [("name", VString "Al")] "who"))
             [Hole "name"; Lit ":"; Hole "who"]).
    + reflexivity.
    + repeat constructor.
    + split; [|repeat constructor].
      apply (bool_decide_unpack (NoDup ["name"])). vm_compute. exact I.
Defined.


(** * Further properties of the engine *)

(** ** One message, summed up *)

Lemma handleMessage_dispatch tester message b :
  handleMessage tester message b
  = match dispatch b message with
    | None => (Normal tt, b)
    | Some (state, flow, created) =>
        processConversation tester (N_toString (authorId message)) message state flow
          (if created
           then set_conversations b (<[N_toString (authorId message) := state]> (conversations b))
           else b)
    end.
Proof.
  unfold dispatch. destruct (isFromBot message) eqn:Hb.
  { by apply handleMessage_bot. }
  set (user := N_toString (authorId message)).
  assert (Hnew : no_live_session b user ->
            handleMessage tester message b
            = match
                match detectFlow (flows b) (content message) with
                | Some flow => Some (createConversationState (clock b) user (name flow), flow, true)
                | None => None
                end
              with
              | None => (Normal tt, b)
              | Some (state, flow, created) =>
                  processConversation tester user message state flow
                    (if created
                     then set_conversations b (<[user := state]> (conversations b))
                     else b)
              end).
  { intros Hn. destruct (detectFlow (flows b) (content message)) as [flow|] eqn:Hd.
    - by rewrite (handleMessage_new _ _ _ _ Hb Hn Hd).
    - by rewrite (handleMessage_ignored _ _ _ Hb Hn Hd). }
  destruct (conversations b !! user) as [state|] eqn:Hs.
  2:{ apply Hnew. unfold no_live_session. by rewrite Hs. }
  destruct (isSessionExpired (clock b) state) eqn:He.
  { apply Hnew. unfold no_live_session. by rewrite Hs. }
  destruct (currentTopic state) as [fname|] eqn:Ht.
  2:{ unfold handleMessage. rewrite Hb. munfold. cbn. fold user. rewrite Hs, He.
      unfold handleExistingConversation. by rewrite Ht. }
  destruct (truthy fname) eqn:Hf.
  2:{ unfold handleMessage. rewrite Hb. munfold. cbn. fold user. rewrite Hs, He.
      unfold handleExistingConversation. by rewrite Ht, Hf. }
  destruct (JSMap.get (flows b) fname) as [flow|] eqn:Hg.
  2:{ unfold handleMessage. rewrite Hb. munfold. cbn. fold user. rewrite Hs, He.
      unfold handleExistingConversation. rewrite Ht, Hf. munfold. cbn. by rewrite Hg. }
  by rewrite (handleMessage_existing _ _ _ _ _ _ Hb Hs He Ht Hf Hg).
Qed.

Lemma apply_effect_created key e state sessions :
  apply_effect key e (<[key := state]> sessions) = apply_effect key e sessions.
Proof. unfold apply_effect. by rewrite insert_insert_eq. Qed.

Lemma handleMessage_effect tester message b :
  handleMessage tester message b
  = match dispatch b message with
    | None => (Normal tt, b)
    | Some (state, flow, _) =>
        (outcome (conversation_effect tester message state flow (clock b)),
         mkBot (apply_effect (N_toString (authorId message))
                  (conversation_effect tester message state flow (clock b))
                  (conversations b))
           (flows b)
           (transcript b
            ++ map (pair (channelId message))
                 (replies (conversation_effect tester message state flow (clock b))))
           (clock b))
    end.
Proof.
  rewrite handleMessage_dispatch.
  destruct (dispatch b message) as [[[state flow] [|]]|]; [| |reflexivity];
    rewrite processConversation_effect; cbn; [|reflexivity].
  by rewrite apply_effect_created.
Qed.

Lemma conversation_effect_replies tester message state flow t :
  length (replies (conversation_effect tester message state flow t)) <= 1.
Proof.
  unfold conversation_effect.
  repeat match goal with
         | |- context [match ?x with _ => _ end] => destruct x
         end; cbn; lia.
Qed.

(** X1.  Whatever the message, [handleMessage] leaves the registry and
    the clock alone and sends at most one message, to the channel the
    message came from; what was sent before stays. *)
Theorem X1_at_most_one_reply tester message b :
  flows (run (handleMessage tester message) b) = flows b /\
  clock (run (handleMessage tester message) b) = clock b /\
  exists sent,
    transcript (run (handleMessage tester message) b)
    = (transcript b ++ map (pair (channelId message)) sent)%list /\
    length sent <= 1.
Proof.
  unfold run. rewrite handleMessage_effect.
  destruct (dispatch b message) as [[[state flow] created]|]; cbn.
  - split; [reflexivity|]. split; [reflexivity|].
    eexists. split; [reflexivity|]. apply conversation_effect_replies.
  - split; [reflexivity|]. split; [reflexivity|].
    exists []. split; [cbn; by rewrite app_nil_r | cbn; lia].
Qed.

(** ** Messages that start nothing *)

(** X2.  A message of a bot, or a message without a trigger from a user
    who has no live session, changes nothing at all: nothing is sent, no
    exception is raised, and an expired session of that user stays in the
    store exactly as it was. *)
Theorem X2_message_without_effect tester message b :
  isFromBot message = true \/
  (no_live_session b (N_toString (authorId message)) /\
   detectFlow (flows b) (content message) = None) ->
  handleMessage tester message b = (Normal tt, b).
Proof.
  intros [Hb | [Hn Hd]].
  - by apply handleMessage_bot.
  - destruct (isFromBot message) eqn:Hb; [by apply handleMessage_bot|].
    by apply handleMessage_ignored.
Qed.

(** X3.  A live session whose [currentTopic] is missing, empty, or not a
    key of the registry is stuck: every message of its user is dropped
    without reply, and the session is not even refreshed, so it stays as
    it is until it expires. *)
Theorem X3_session_without_flow_is_stuck tester message b state :
  conversations b !! N_toString (authorId message) = Some state ->
  isSessionExpired (clock b) state = false ->
  match currentTopic state with
  | Some flowName => truthy flowName = false \/ JSMap.get (flows b) flowName = None
  | None => True
  end ->
  handleMessage tester message b = (Normal tt, b).
Proof.
  intros Hs He Ht. rewrite handleMessage_dispatch. unfold dispatch.
  destruct (isFromBot message); [reflexivity|]. rewrite Hs, He.
  destruct (currentTopic state) as [flowName|]; [|reflexivity].
  destruct Ht as [-> | Hg]; [reflexivity|].
  rewrite Hg. by destruct (truthy flowName).
Qed.

(** ** Messages to a live session *)

Lemma dispatch_live b message user state flow :
  from_user message user -> live_session b user state flow ->
  dispatch b message = Some (state, flow, false).
Proof.
  intros [Hb <-] [(Hs & _ & fname & Ht & Hf & Hg) He].
  unfold dispatch. by rewrite Hb, Hs, He, Ht, Hf, Hg.
Qed.

Lemma handleMessage_live_effect tester message b user state flow :
  from_user message user -> live_session b user state flow ->
  handleMessage tester message b
  = (outcome (conversation_effect tester message state flow (clock b)),
     mkBot (apply_effect user (conversation_effect tester message state flow (clock b))
              (conversations b))
       (flows b)
       (transcript b
        ++ map (pair (channelId message))
             (replies (conversation_effect tester message state flow (clock b))))
       (clock b)).
Proof.
  intros Hm Hl. rewrite handleMessage_effect, (dispatch_live _ _ _ _ _ Hm Hl).
  destruct Hm as [_ <-]. reflexivity.
Qed.

Lemma truthy_false s : truthy s = false <-> s = "".
Proof. by destruct s. Qed.

(** X4.  Input that selects no state: when [findNextState] returns
    nothing, or returns the empty string as target, the user gets the
    "didn't understand" reply and nothing else; the session stays, its
    history is unchanged and its [lastInteraction] is now, so it lives for
    another full timeout. *)
Theorem X4_unknown_input_keeps_the_state
    tester message b user state flow def :
  from_user message user ->
  live_session b user state flow ->
  flow_actions_ok flow ->
  context state <> [] ->
  JSObject.get (states flow) (currentStateName state flow) = Some def ->
  findNextState tester (normalize (content message)) (transitions def) = Normal None \/
  findNextState tester (normalize (content message)) (transitions def) = Normal (Some "") ->
  fst (handleMessage tester message b) = Normal tt /\
  sent_by (handleMessage tester message) b = [(channelId message, Text unknown_notice)] /\
  exists state',
    conversations (run (handleMessage tester message) b)
    = <[user := state']> (conversations b) /\
    context state' = context state /\
    lastInteraction state' = clock b /\
    isSessionExpired (clock b) state' = false.
Proof.
  intros Hm Hl Hok Hc Hd Hf. unfold sent_by, run.
  rewrite (handleMessage_live_effect _ _ _ _ _ _ Hm Hl).
  destruct (acted_fields flow _ def (set_lastInteraction state (clock b)) (content message) Hok Hd)
    as (_ & Hctx & _ & Hlast). cbn in Hctx, Hlast.
  assert (He : conversation_effect tester message state flow (clock b)
               = mkEffect (Normal tt)
                   (acted def (set_lastInteraction state (clock b)) (content message))
                   false [Text unknown_notice]).
  { unfold conversation_effect. rewrite (states_at_declared _ _ _ Hd).
    destruct (context state); [done|]. by destruct Hf as [-> | ->]. }
  rewrite He. cbn. split; [reflexivity|]. split; [by rewrite drop_app_length|].
  eexists. split; [reflexivity|]. split; [exact Hctx|]. split; [exact Hlast|].
  apply not_expired_within. rewrite Hlast. unfold sessionTimeout. lia.
Qed.

Lemma findNextState_loop_throws tester input pre pattern target post fallback :
  Forall (fun kv => tester (fst kv) input = Some false) pre ->
  tester pattern input = None ->
  findNextState_loop tester input (pre ++ (pattern, target) :: post) fallback
  = Throw (SyntaxError pattern).
Proof.
  intros Hpre Hp. induction Hpre as [|[p t] r Hkv _ IH]; cbn.
  - by rewrite Hp.
  - cbn in Hkv. by rewrite Hkv.
Qed.

(** X5.  A pattern that the regex constructor rejects, reached before
    any pattern matched, ends the handler with the [SyntaxError] of that
    pattern.  Nothing is sent; what was written before stays written: the
    session is still stored, refreshed and as the state's action left it. *)
Theorem X5_invalid_pattern_throws
    tester message b user state flow def pre pattern target post :
  from_user message user ->
  live_session b user state flow ->
  context state <> [] ->
  JSObject.get (states flow) (currentStateName state flow) = Some def ->
  JSObject.Object_entries (transitions def) = (pre ++ (pattern, target) :: post)%list ->
  Forall (fun kv => tester (fst kv) (normalize (content message)) = Some false) pre ->
  tester pattern (normalize (content message)) = None ->
  handleMessage tester message b
  = (Throw (SyntaxError pattern),
     mkBot (<[user := acted def (set_lastInteraction state (clock b)) (content message)]>
              (conversations b))
       (flows b) (transcript b) (clock b)).
Proof.
  intros Hm Hl Hc Hd Hentries Hpre Hp.
  rewrite (handleMessage_live_effect _ _ _ _ _ _ Hm Hl).
  unfold conversation_effect. rewrite (states_at_declared _ _ _ Hd).
  destruct (context state); [done|].
  unfold findNextState. rewrite Hentries, (findNextState_loop_throws _ _ _ _ _ _ _ Hpre Hp).
  cbn. by rewrite app_nil_r.
Qed.

(** X6.  A matched transition to a state of the flow: the handler returns
    normally and sends exactly the prompt of the target, rendered with the
    user data as the action of the state being left wrote it; the action
    gets the raw text of the message, the matcher the normalised one. *)
Theorem X6_transition_sends_the_target_prompt
    tester message b user state flow def next target :
  from_user message user ->
  live_session b user state flow ->
  context state <> [] ->
  JSObject.get (states flow) (currentStateName state flow) = Some def ->
  findNextState tester (normalize (content message)) (transitions def) = Normal (Some next) ->
  truthy next = true ->
  JSObject.get (states flow) next = Some target ->
  fst (handleMessage tester message b) = Normal tt /\
  sent_by (handleMessage tester message) b
  = [(channelId message,
      Text (interpolatePrompt (prompt target)
              (userData (acted def (set_lastInteraction state (clock b))
                           (content message)))))].
Proof.
  intros Hm Hl Hc Hd Hf Ht Hn. unfold sent_by, run.
  rewrite (handleMessage_live_effect _ _ _ _ _ _ Hm Hl).
  unfold conversation_effect. rewrite (states_at_declared _ _ _ Hd).
  destruct (context state); [done|].
  rewrite Hf, Ht, (states_at_declared _ _ _ Hn). cbn.
  split; [reflexivity|]. by rewrite drop_app_length.
Qed.

(** ** Normalised text *)

Lemma lower_char_idem c : JSString.lower_char (JSString.lower_char c) = JSString.lower_char c.
Proof. by destruct c as [[] [] [] [] [] [] [] []]. Qed.

Lemma is_white_lower_char c : JSString.is_white (JSString.lower_char c) = JSString.is_white c.
Proof. by destruct c as [[] [] [] [] [] [] [] []]. Qed.

Lemma is_upper_lower_char c : is_upper (JSString.lower_char c) = false.
Proof. by destruct c as [[] [] [] [] [] [] [] []]. Qed.

Lemma toLowerCase_idem s : JSString.toLowerCase (JSString.toLowerCase s) = JSString.toLowerCase s.
Proof. induction s as [|c r IH]; cbn; [reflexivity | by rewrite lower_char_idem, IH]. Qed.

Lemma toLowerCase_trimStart s :
  JSString.toLowerCase (JSString.trimStart s) = JSString.trimStart (JSString.toLowerCase s).
Proof.
  induction s as [|c r IH]; cbn; [reflexivity|].
  rewrite is_white_lower_char. by destruct (JSString.is_white c).
Qed.

Lemma trimEnd_cons c r :
  JSString.trimEnd (String c r)
  = match JSString.trimEnd r with
    | EmptyString => if JSString.is_white c then EmptyString else String c EmptyString
    | String d r' => String c (String d r')
    end.
Proof. cbn. by destruct (JSString.trimEnd r). Qed.

Lemma toLowerCase_trimEnd s :
  JSString.toLowerCase (JSString.trimEnd s) = JSString.trimEnd (JSString.toLowerCase s).
Proof.
  induction s as [|c r IH]; [reflexivity|].
  change (JSString.toLowerCase (String c r))
    with (String (JSString.lower_char c) (JSString.toLowerCase r)).
  rewrite !trimEnd_cons, <- IH, is_white_lower_char.
  destruct (JSString.trimEnd r) as [|d r']; cbn; [|reflexivity].
  by destruct (JSString.is_white c).
Qed.

Lemma trimStart_idem s : JSString.trimStart (JSString.trimStart s) = JSString.trimStart s.
Proof.
  induction s as [|c r IH]; cbn; [reflexivity|].
  destruct (JSString.is_white c) eqn:Hw; [exact IH|]. cbn. by rewrite Hw.
Qed.

Lemma trimEnd_idem s : JSString.trimEnd (JSString.trimEnd s) = JSString.trimEnd s.
Proof.
  induction s as [|c r IH]; [reflexivity|]. rewrite trimEnd_cons.
  destruct (JSString.trimEnd r) as [|d r'] eqn:Hr.
  - destruct (JSString.is_white c) eqn:Hw; [reflexivity|].
    rewrite trimEnd_cons. cbn. by rewrite Hw.
  - rewrite trimEnd_cons, IH. reflexivity.
Qed.

Lemma trimStart_head s :
  JSString.trimStart s = "" \/
  exists c r, JSString.trimStart s = String c r /\ JSString.is_white c = false.
Proof.
  induction s as [|c r IH]; cbn; [by left|].
  destruct (JSString.is_white c) eqn:Hw; [exact IH|]. right. by exists c, r.
Qed.

Lemma trim_idem s : JSString.trim (JSString.trim s) = JSString.trim s.
Proof.
  unfold JSString.trim.
  destruct (trimStart_head s) as [-> | (c & r & -> & Hw)]; [reflexivity|].
  assert (Hhead : exists r', JSString.trimEnd (String c r) = String c r').
  { rewrite trimEnd_cons. destruct (JSString.trimEnd r); rewrite ?Hw; eauto. }
  destruct Hhead as [r' Hr']. rewrite Hr' at 1. cbn [JSString.trimStart]. rewrite Hw.
  by rewrite <- Hr', trimEnd_idem.
Qed.

Lemma toLowerCase_trim s :
  JSString.toLowerCase (JSString.trim s) = JSString.trim (JSString.toLowerCase s).
Proof. unfold JSString.trim. by rewrite toLowerCase_trimEnd, toLowerCase_trimStart. Qed.

Lemma normalize_idem s : normalize (normalize s) = normalize s.
Proof.
  unfold normalize. by rewrite toLowerCase_trim, toLowerCase_idem, trim_idem.
Qed.

Lemma normalize_toLowerCase s : normalize (JSString.toLowerCase s) = normalize s.
Proof. unfold normalize. by rewrite toLowerCase_idem. Qed.

Lemma normalize_trim s : normalize (JSString.trim s) = normalize s.
Proof. unfold normalize. by rewrite toLowerCase_trim, trim_idem. Qed.

Lemma has_upper_append a b : has_upper (a ++ b) = has_upper a || has_upper b.
Proof.
  induction a as [|c a IH]; cbn; [reflexivity|]. by rewrite IH, orb_assoc.
Qed.

Lemma has_upper_toLowerCase s : has_upper (JSString.toLowerCase s) = false.
Proof. induction s as [|c r IH]; cbn; [reflexivity | by rewrite is_upper_lower_char, IH]. Qed.

Lemma has_upper_trimStart s : has_upper s = false -> has_upper (JSString.trimStart s) = false.
Proof.
  induction s as [|c r IH]; cbn; [done|]. intros H.
  apply orb_false_iff in H as [Hc Hr].
  destruct (JSString.is_white c); [by apply IH | cbn; by rewrite Hc, Hr].
Qed.

Lemma has_upper_trimEnd s : has_upper s = false -> has_upper (JSString.trimEnd s) = false.
Proof.
  induction s as [|c r IH]; [done|]. cbn [has_upper]. intros H.
  apply orb_false_iff in H as [Hc Hr]. specialize (IH Hr). rewrite trimEnd_cons.
  destruct (JSString.trimEnd r) as [|d r'].
  - destruct (JSString.is_white c); cbn; [done | by rewrite Hc].
  - cbn [has_upper]. cbn [has_upper] in IH. by rewrite Hc, IH.
Qed.

Lemma has_upper_normalize s : has_upper (normalize s) = false.
Proof.
  unfold normalize, JSString.trim.
  apply has_upper_trimEnd, has_upper_trimStart, has_upper_toLowerCase.
Qed.

Lemma includes_occurs s pat : JSString.includes s pat = true <-> JSString.occurs pat s.
Proof.
  unfold JSString.includes. split.
  - destruct (JSString.split_first pat s) as [[a b]|] eqn:E; [|done].
    intros _. exists a, b. by apply split_first_sound.
  - intros H. apply split_first_complete in H.
    by destruct (JSString.split_first pat s).
Qed.

(** ** Flow detection *)

Lemma fires_existsb content flow :
  existsb (fun trigger => JSString.includes (normalize content) trigger) (triggers flow) = true
  <-> fires content flow.
Proof.
  unfold fires. rewrite existsb_exists. split.
  - intros (trigger & Hin & Hi). exists trigger. by rewrite <- includes_occurs.
  - intros (trigger & Hin & Ho). exists trigger. by rewrite includes_occurs.
Qed.

(** X7.  [detectFlow] answers with the first registered flow, in
    registration order, one of whose triggers occurs in the normalised
    text; it answers nothing exactly when no registered flow has such a
    trigger. *)
Theorem X7_detectFlow_first_firing registered content :
  match detectFlow registered content with
  | Some flow =>
      exists pre key post,
        registered = (pre ++ (key, flow) :: post)%list /\
        fires content flow /\
        Forall (fun kv => ~ fires content (snd kv)) pre
  | None => Forall (fun kv => ~ fires content (snd kv)) registered
  end.
Proof.
  unfold detectFlow, JSMap.values. fold (normalize content).
  induction registered as [|[key flow] r IH]; cbn; [constructor|].
  destruct (existsb (fun trigger => JSString.includes (normalize content) trigger)
              (triggers flow)) eqn:Hf.
  - exists [], key, r. split; [reflexivity|]. split; [by apply fires_existsb | constructor].
  - assert (Hno : ~ fires content flow).
    { intros H. apply fires_existsb in H. congruence. }
    destruct (find _ (map snd r)) as [flow'|].
    + destruct IH as (pre & key' & post & -> & Hfire & Hpre).
      exists ((key, flow) :: pre), key', post. split; [reflexivity|]. split; [exact Hfire|].
      by constructor.
    + by constructor.
Qed.

(** X8.  Detection reads the text through [toLowerCase().trim()] only:
    lower-casing the text, trimming it, or both, before it is handed to
    [detectFlow] changes nothing. *)
Theorem X8_detectFlow_ignores_case_and_margin registered content :
  detectFlow registered (JSString.toLowerCase content) = detectFlow registered content /\
  detectFlow registered (JSString.trim content) = detectFlow registered content /\
  detectFlow registered (normalize content) = detectFlow registered content.
Proof.
  unfold detectFlow. fold (normalize content) (normalize (JSString.toLowerCase content))
    (normalize (JSString.trim content)) (normalize (normalize content)).
  by rewrite normalize_toLowerCase, normalize_trim, normalize_idem.
Qed.

Lemma occurs_no_upper pat s :
  JSString.occurs pat s -> has_upper s = false -> has_upper pat = false.
Proof.
  intros (a & b & ->). rewrite !has_upper_append. intros H.
  apply orb_false_iff in H as [_ H]. by apply orb_false_iff in H as [H _].
Qed.

(** X9.  Triggers are compared as they are written with text that has
    been lower-cased: a flow all of whose triggers contain an upper-case
    letter (or that has no trigger) is never detected. *)
Theorem X9_upper_case_trigger_never_fires registered content flow :
  Forall (fun trigger => has_upper trigger = true) (triggers flow) ->
  detectFlow registered content <> Some flow.
Proof.
  intros Hup Hd.
  assert (Hfire : fires content flow).
  { unfold detectFlow in Hd. apply find_some in Hd as [_ Hd].
    by apply fires_existsb in Hd. }
  destruct Hfire as (trigger & Hin & Ho).
  rewrite List.Forall_forall in Hup. specialize (Hup _ Hin).
  apply occurs_no_upper in Ho; [congruence | apply has_upper_normalize].
Qed.

(** X10.  The empty string occurs in every text: as soon as one
    registered flow lists it among its triggers, every message that
    reaches detection starts a flow. *)
Theorem X10_empty_trigger_fires_always registered content key flow :
  In (key, flow) registered ->
  In "" (triggers flow) ->
  detectFlow registered content <> None.
Proof.
  intros Hin Hempty Hd. unfold detectFlow in Hd.
  assert (Hflow : In flow (JSMap.values registered)).
  { unfold JSMap.values. apply in_map_iff. by exists (key, flow). }
  pose proof (find_none _ _ Hd flow Hflow) as Hno. cbn in Hno.
  assert (Hfire : fires content flow).
  { exists "". split; [exact Hempty|]. by exists "", (normalize content). }
  apply fires_existsb in Hfire. unfold normalize in Hfire. congruence.
Qed.

(** ** One user's messages and the other users' sessions *)

(** X11.  In a store where every session sits under its own identifier,
    and with actions that assign [userData] only, a message of one user
    leaves the entry of every other user exactly as it was. *)
Theorem X11_other_sessions_untouched tester message b user :
  registry_ok (flows b) ->
  keyed_by_user b ->
  user <> N_toString (authorId message) ->
  conversations (run (handleMessage tester message) b) !! user = conversations b !! user.
Proof. apply handleMessage_other_user. Qed.

(** ** Expiry and the reaper *)

(** X12.  The expiry test is strict: a session idle for exactly the
    timeout is still live, one millisecond later it has expired, and once
    expired it stays so at every later time. *)
Theorem X12_expiry_boundary state t t' :
  isSessionExpired (lastInteraction state + sessionTimeout) state = false /\
  isSessionExpired (lastInteraction state + sessionTimeout + 1) state = true /\
  (isSessionExpired t state = true -> (t <= t')%Z -> isSessionExpired t' state = true).
Proof.
  split; [apply not_expired_within; lia|]. split.
  - apply isSessionExpired_spec. lia.
  - rewrite !isSessionExpired_spec. lia.
Qed.

Lemma cleanup_frame b :
  flows (run cleanupExpiredSessions b) = flows b /\
  transcript (run cleanupExpiredSessions b) = transcript b /\
  clock (run cleanupExpiredSessions b) = clock b.
Proof. done. Qed.

Lemma cleanup_idem b :
  run cleanupExpiredSessions (run cleanupExpiredSessions b) = run cleanupExpiredSessions b.
Proof.
  unfold run, cleanupExpiredSessions, write. cbn. f_equal.
  apply map_eq. intros k. rewrite !map_lookup_filter.
  destruct (conversations b !! k) as [state|]; cbn; [|reflexivity].
  destruct (isSessionExpired (clock b) state) eqn:He.
  - by rewrite option_guard_False by (cbn; congruence).
  - rewrite option_guard_True by (cbn; congruence). cbn.
    by rewrite option_guard_True by (cbn; congruence).
Qed.

(** X13.  One sweep of the reaper removes exactly the sessions that have
    expired at that time and keeps every other session as it is; it sends
    nothing, leaves the registry alone, and a second sweep at the same
    time finds nothing more to remove. *)
Theorem X13_reaper_removes_exactly_the_expired b :
  (forall user,
     conversations (run cleanupExpiredSessions b) !! user
     = match conversations b !! user with
       | Some state => if isSessionExpired (clock b) state then None else Some state
       | None => None
       end) /\
  flows (run cleanupExpiredSessions b) = flows b /\
  transcript (run cleanupExpiredSessions b) = transcript b /\
  run cleanupExpiredSessions (run cleanupExpiredSessions b) = run cleanupExpiredSessions b.
Proof.
  split; [apply cleanupExpiredSessions_lookup|].
  split; [reflexivity|]. split; [reflexivity | apply cleanup_idem].
Qed.

Lemma dispatch_cleanup b message :
  dispatch (run cleanupExpiredSessions b) message = dispatch b message.
Proof.
  unfold dispatch. destruct (isFromBot message); [reflexivity|].
  rewrite cleanupExpiredSessions_lookup. cbn [run cleanupExpiredSessions write snd flows clock
    set_conversations].
  change (flows (run cleanupExpiredSessions b)) with (flows b).
  change (clock (run cleanupExpiredSessions b)) with (clock b).
  destruct (conversations b !! N_toString (authorId message)) as [state|]; [|reflexivity].
  destruct (isSessionExpired (clock b) state) eqn:He; [reflexivity|]. by rewrite He.
Qed.

Lemma apply_effect_lookup key e sessions k :
  apply_effect key e sessions !! k
  = if removes e && bool_decide (userId (final e) = k) then None
    else if bool_decide (key = k) then Some (final e) else sessions !! k.
Proof.
  unfold apply_effect. destruct (removes e); cbn.
  - case_bool_decide as Hu.
    + subst k. apply lookup_delete_eq.
    + rewrite lookup_delete_ne by done. case_bool_decide as Hk.
      * subst k. apply lookup_insert_eq.
      * by rewrite lookup_insert_ne.
  - case_bool_decide as Hk.
    + subst k. apply lookup_insert_eq.
    + by rewrite lookup_insert_ne.
Qed.

Lemma live_filter_apply_effect t key e sessions :
  filter (fun kv => isSessionExpired t (snd kv) = false)
    (apply_effect key e (filter (fun kv => isSessionExpired t (snd kv) = false) sessions))
  = filter (fun kv => isSessionExpired t (snd kv) = false) (apply_effect key e sessions).
Proof.
  apply map_eq. intros k. rewrite !map_lookup_filter, !apply_effect_lookup.
  destruct (removes e && bool_decide (userId (final e) = k)); [reflexivity|].
  destruct (bool_decide (key = k)); [reflexivity|].
  rewrite map_lookup_filter.
  destruct (sessions !! k) as [state|]; cbn; [|reflexivity].
  destruct (isSessionExpired t state) eqn:He.
  - by rewrite option_guard_False by (cbn; congruence).
  - rewrite option_guard_True by (cbn; congruence). cbn.
    by rewrite option_guard_True by (cbn; congruence).
Qed.

(** X14.  The reaper cannot be observed through the messages: whether or
    not a sweep ran just before a message is handled, the handler ends the
    same way and sends the same, and after the next sweep the two worlds
    are the same. *)
Theorem X14_reaper_is_not_observable tester message b :
  fst (handleMessage tester message (run cleanupExpiredSessions b))
  = fst (handleMessage tester message b) /\
  sent_by (handleMessage tester message) (run cleanupExpiredSessions b)
  = sent_by (handleMessage tester message) b /\
  run cleanupExpiredSessions
    (run (handleMessage tester message) (run cleanupExpiredSessions b))
  = run cleanupExpiredSessions (run (handleMessage tester message) b).
Proof.
  pose proof (handleMessage_effect tester message (run cleanupExpiredSessions b)) as H1.
  pose proof (handleMessage_effect tester message b) as H2.
  rewrite dispatch_cleanup in H1.
  change (clock (run cleanupExpiredSessions b)) with (clock b) in H1.
  change (transcript (run cleanupExpiredSessions b)) with (transcript b) in H1.
  change (flows (run cleanupExpiredSessions b)) with (flows b) in H1.
  unfold sent_by, run in *. rewrite H1, H2.
  destruct (dispatch b message) as [[[state flow] created]|].
  - cbn [fst snd transcript]. split; [reflexivity|]. split; [reflexivity|].
    unfold cleanupExpiredSessions, write. cbn. f_equal.
    apply live_filter_apply_effect.
  - cbn [fst snd]. split; [reflexivity|]. split; [reflexivity|]. apply (cleanup_idem b).
Qed.

(** ** Flows in which every input leads somewhere *)

Lemma findNextState_loop_open flow input entries fallback :
  existsb (fun kv => String.eqb (fst kv) ".*") entries = true ->
  forallb (fun kv =>
             match RegExp.compile (fst kv) with Some _ => true | None => false end &&
             truthy (snd kv) &&
             match JSObject.get (states flow) (snd kv) with
             | Some _ => true
             | None => false
             end) entries = true ->
  exists next target,
    findNextState_loop RegExp.test input entries fallback = Normal (Some next) /\
    truthy next = true /\ JSObject.get (states flow) next = Some target.
Proof.
  induction entries as [|[p t] r IH]; cbn [existsb forallb fst snd]; [discriminate|].
  intros Hex Hall. apply andb_prop in Hall as [Hhead Hall].
  apply andb_prop in Hhead as [Hhead Hres]. apply andb_prop in Hhead as [Hcomp Htruthy].
  cbn [findNextState_loop].
  destruct (RegExp.test p input) as [[|]|] eqn:Ht.
  - destruct (JSObject.get (states flow) t) as [target|] eqn:Hg; [|discriminate].
    by exists t, target.
  - destruct (String.eqb_spec p ".*") as [->|Hne].
    + rewrite catch_all_always_matches in Ht. discriminate.
    + cbn in Hex. by apply IH.
  - unfold RegExp.test in Ht. destruct (RegExp.compile p); discriminate.
Qed.

Lemma findNextState_open flow input table :
  open_table flow table = true ->
  exists next target,
    findNextState RegExp.test input table = Normal (Some next) /\
    truthy next = true /\ JSObject.get (states flow) next = Some target.
Proof.
  unfold open_table, findNextState. intros H. apply andb_prop in H as [Hex Hall].
  by apply findNextState_loop_open.
Qed.

Lemma advancing_open flow sname def :
  advancing flow = true ->
  JSObject.get (states flow) sname = Some def ->
  sname <> "complete" ->
  open_table flow (transitions def) = true.
Proof.
  unfold advancing. intros H Hget Hne. apply andb_prop in H as [Hall _].
  rewrite forallb_forall in Hall. apply JSObject_get_In in Hget.
  specialize (Hall _ Hget). cbn in Hall.
  by destruct (String.eqb_spec sname "complete").
Qed.

Lemma conversation_effect_advancing message state flow t :
  advancing flow = true -> flow_actions_ok flow -> resting flow state ->
  exists def next target,
    JSObject.get (states flow) (currentStateName state flow) = Some def /\
    findNextState RegExp.test (normalize (content message)) (transitions def)
    = Normal (Some next) /\
    JSObject.get (states flow) next = Some target /\ truthy next = true /\
    conversation_effect RegExp.test message state flow t
    = mkEffect (Normal tt)
        (set_context (acted def (set_lastInteraction state t) (content message))
           (context state ++ [next]))
        (String.eqb next "complete")
        [Text (interpolatePrompt (prompt target)
                 (userData (acted def (set_lastInteraction state t) (content message))))].
Proof.
  intros Hadv Hok (Hctx & Hnc & Hres).
  destruct (JSObject.get (states flow) (currentStateName state flow)) as [def|] eqn:Hd;
    [|done].
  destruct (findNextState_open flow (normalize (content message)) (transitions def))
    as (next & target & Hf & Htr & Hg).
  { by eapply advancing_open. }
  exists def, next, target. split; [reflexivity|]. split; [exact Hf|].
  split; [exact Hg|]. split; [exact Htr|].
  unfold conversation_effect. rewrite (states_at_declared _ _ _ Hd).
  destruct (context state) as [|c cs] eqn:Hc; [done|].
  rewrite Hf, Htr, (states_at_declared _ _ _ Hg). cbn [renderPrompt].
  destruct (acted_fields flow _ def (set_lastInteraction state t) (content message) Hok Hd)
    as (_ & Hctx' & _). rewrite Hctx'. cbn [context set_lastInteraction]. by rewrite Hc.
Qed.

(** X15.  In a flow where every state but [complete] has a catch-all
    transition, valid patterns and existing targets, a live session that
    rests in a state is never stuck.  The matcher finds a target, which is
    a state of the flow; the handler returns normally and sends exactly
    the prompt of that state, rendered with the user data as the action
    left it.  The session is removed when the target is [complete]; in
    every other case it stays, with the target appended to its history:
    it rests in the target, unexpired and still the user's. *)
Theorem X15_advancing_flow_always_answers message b user state flow :
  advancing flow = true ->
  flow_actions_ok flow ->
  from_user message user ->
  live_session b user state flow ->
  resting flow state ->
  exists def next target,
    JSObject.get (states flow) (currentStateName state flow) = Some def /\
    findNextState RegExp.test (normalize (content message)) (transitions def)
    = Normal (Some next) /\
    JSObject.get (states flow) next = Some target /\
    fst (handleMessage RegExp.test message b) = Normal tt /\
    sent_by (handleMessage RegExp.test message) b
    = [(channelId message,
        Text (interpolatePrompt (prompt target)
                (userData (acted def (set_lastInteraction state (clock b))
                             (content message)))))] /\
    (next = "complete" ->
     conversations (run (handleMessage RegExp.test message) b) !! user = None) /\
    (next <> "complete" ->
     exists state',
       conversations (run (handleMessage RegExp.test message) b) !! user = Some state' /\
       currentStateName state' flow = next /\
       context state' = (context state ++ [next])%list /\
       resting flow state' /\ userId state' = user /\
       currentTopic state' = currentTopic state /\
       isSessionExpired (clock b) state' = false).
Proof.
  intros Hadv Hok Hm Hl Hrest.
  destruct (conversation_effect_advancing message state flow (clock b) Hadv Hok Hrest)
    as (def & next & target & Hd & Hf & Hg & Htr & He).
  destruct (acted_fields flow _ def (set_lastInteraction state (clock b)) (content message)
              Hok Hd) as (Hu & Hc & Htop & Hlast).
  pose proof Hl as [(Hs & Hid & _) Hexp].
  exists def, next, target. split; [exact Hd|]. split; [exact Hf|]. split; [exact Hg|].
  unfold sent_by, run. rewrite (handleMessage_live_effect _ _ _ _ _ _ Hm Hl), He.
  cbn [fst snd outcome transcript conversations replies map].
  split; [reflexivity|]. split; [by rewrite drop_app_length|].
  rewrite apply_effect_lookup.
  cbn [removes final userId set_context]. rewrite Hu. cbn [userId set_lastInteraction].
  rewrite Hid. rewrite !bool_decide_eq_true_2 by reflexivity.
  destruct (String.eqb_spec next "complete") as [->|Hne]; cbn [andb]; [by split|].
  split; [done|]. intros _. eexists. split; [reflexivity|].
  cbn [context currentTopic userId set_context].
  assert (Hname : forall s, context s = (context state ++ [next])%list ->
                            currentStateName s flow = next).
  { intros s Hs'. by apply (currentStateName_last _ _ (context state)). }
  rewrite Hname by reflexivity.
  split; [reflexivity|]. split; [reflexivity|]. split.
  { unfold resting. rewrite Hname by reflexivity. cbn [context set_context].
    split; [by destruct (context state)|]. split; [exact Hne | by rewrite Hg]. }
  rewrite Hu, Htop. cbn [userId currentTopic set_lastInteraction].
  split; [exact Hid|]. split; [reflexivity|].
  apply not_expired_within. cbn [lastInteraction set_context]. rewrite Hlast.
  cbn [lastInteraction set_lastInteraction]. unfold sessionTimeout. lia.
Qed.

(** ** The worlds the bot can reach *)

Section Settled.
Variable flow : ConversationFlow.
Hypothesis Hadv : advancing flow = true.
Hypothesis Hok : flow_actions_ok flow.

Lemma dispatch_settled b message state fl created :
  settled flow b ->
  dispatch b message = Some (state, fl, created) ->
  fl = flow /\
  if created
  then state = createConversationState (clock b) (N_toString (authorId message)) (name flow)
  else conversations b !! N_toString (authorId message) = Some state.
Proof.
  intros (Hf & Hs & _). unfold dispatch. rewrite Hf.
  destruct (isFromBot message); [discriminate|].
  assert (Hfresh :
    match detectFlow [(name flow, flow)] (content message) with
    | Some flow0 =>
        Some (createConversationState (clock b) (N_toString (authorId message)) (name flow0),
              flow0, true)
    | None => None
    end = Some (state, fl, created) ->
    fl = flow /\
    (if created
     then state = createConversationState (clock b) (N_toString (authorId message)) (name flow)
     else conversations b !! N_toString (authorId message) = Some state)).
  { unfold detectFlow. cbn [JSMap.values map snd find].
    destruct (existsb _ (triggers flow)); [|discriminate]. by intros [= <- <- <-]. }
  destruct (conversations b !! N_toString (authorId message)) as [s|] eqn:Hl; [|exact Hfresh].
  destruct (isSessionExpired (clock b) s); [exact Hfresh|].
  destruct (Hs _ _ Hl) as (_ & -> & _).
  destruct (truthy (name flow)); [|discriminate].
  cbn [JSMap.get]. rewrite String.eqb_refl. by intros [= <- <- <-].
Qed.

Lemma conversation_effect_created message user t :
  exists def,
    JSObject.get (states flow) (initialState flow) = Some def /\
    initialState flow <> "complete" /\
    conversation_effect RegExp.test message
      (createConversationState t user (name flow)) flow t
    = mkEffect (Normal tt)
        (set_context (set_lastInteraction (createConversationState t user (name flow)) t)
           [initialState flow])
        false
        [Text (interpolatePrompt (prompt def)
                 (userData (createConversationState t user (name flow))))].
Proof.
  pose proof Hadv as H. unfold advancing in H. apply andb_prop in H as [_ H].
  destruct (JSObject.get (states flow) (initialState flow)) as [def|] eqn:Hd; [|discriminate].
  exists def. split; [reflexivity|]. split.
  { intros E. rewrite E in H. discriminate. }
  unfold conversation_effect.
  change (currentStateName (createConversationState t user (name flow)) flow)
    with (initialState flow).
  by rewrite (states_at_declared _ _ _ Hd).
Qed.

Lemma resting_initial state :
  context state = [initialState flow] -> resting flow state.
Proof.
  intros Hc. pose proof Hadv as H. unfold advancing in H. apply andb_prop in H as [_ H].
  assert (Hn : currentStateName state flow = initialState flow).
  { unfold currentStateName. rewrite Hc. cbn. by destruct (truthy (initialState flow)). }
  unfold resting. rewrite Hn, Hc.
  destruct (JSObject.get (states flow) (initialState flow)); [|discriminate].
  split; [done|]. split; [|done]. intros E. rewrite E in H. discriminate.
Qed.

Lemma settled_handleMessage message b :
  settled flow b ->
  fst (handleMessage RegExp.test message b) = Normal tt /\
  settled flow (run (handleMessage RegExp.test message) b).
Proof.
  intros Hset. unfold run. rewrite handleMessage_effect.
  destruct (dispatch b message) as [[[state fl] created]|] eqn:Hdis; [|by split].
  destruct (dispatch_settled _ _ _ _ _ Hset Hdis) as [-> Hstate].
  destruct Hset as (Hf & Hs & Htr).
  set (user := N_toString (authorId message)) in *.
  assert (He : exists final0 removes0 text,
             conversation_effect RegExp.test message state flow (clock b)
             = mkEffect (Normal tt) final0 removes0 [text] /\
             prompt_of flow text /\ userId final0 = user /\
             (removes0 = false ->
              currentTopic final0 = Some (name flow) /\ resting flow final0)).
  { destruct created.
    - subst state.
      destruct (conversation_effect_created message user (clock b)) as (def & Hd & Hne & ->).
      eexists _, _, _. split; [reflexivity|].
      split; [by eexists _, def, _|]. split; [reflexivity|]. intros _.
      split; [reflexivity|]. by apply resting_initial.
    - destruct (Hs _ _ Hstate) as (Hid & Htop & Hrest).
      destruct (conversation_effect_advancing message state flow (clock b) Hadv Hok Hrest)
        as (def & next & target & Hd & _ & Hg & Htruthy & ->).
      destruct (acted_fields flow _ def (set_lastInteraction state (clock b))
                  (content message) Hok Hd) as (Hu & Hc & Htop' & _).
      eexists _, _, _. split; [reflexivity|].
      split; [by eexists next, target, _|].
      cbn [userId set_context]. rewrite Hu. split; [exact Hid|].
      intros Hne. cbn [currentTopic set_context]. rewrite Htop'. split; [exact Htop|].
      assert (Hname : forall s, context s = (context state ++ [next])%list ->
                                currentStateName s flow = next).
      { intros s Hs'. by apply (currentStateName_last _ _ (context state)). }
      unfold resting. rewrite Hname by reflexivity. cbn [context set_context].
      split; [by destruct (context state)|]. rewrite Hg. split; [|done].
      intros ->. discriminate. }
  destruct He as (final0 & removes0 & text & -> & Hp & Hu & Hrest).
  cbn [fst snd outcome replies map]. split; [reflexivity|].
  split; [exact Hf|]. split.
  - intros key s. cbn [conversations]. rewrite apply_effect_lookup. cbn [removes final].
    rewrite Hu. destruct (bool_decide (user = key)) eqn:Hk.
    + apply bool_decide_eq_true_1 in Hk. subst key.
      destruct removes0; cbn [andb]; [discriminate|]. intros [= <-].
      by destruct (Hrest eq_refl).
    + rewrite andb_false_r. apply Hs.
  - cbn [transcript]. apply Forall_app. split; [exact Htr|]. by constructor.
Qed.

Lemma settled_cleanup b t :
  settled flow b -> settled flow (run cleanupExpiredSessions (set_clock b t)).
Proof.
  intros (Hf & Hs & Htr). split; [exact Hf|]. split; [|exact Htr].
  intros key s. rewrite cleanupExpiredSessions_lookup. cbn [conversations set_clock].
  destruct (conversations b !! key) as [s'|] eqn:Hl; [|discriminate].
  destruct (isSessionExpired _ s'); [discriminate|]. intros [= <-]. by apply Hs.
Qed.

Lemma settled_set_clock b t : settled flow b -> settled flow (set_clock b t).
Proof. by intros (Hf & Hs & Htr). Qed.

Lemma settled_run_events events b :
  settled flow b -> settled flow (run_events RegExp.test events b).
Proof.
  revert b. induction events as [|e events IH]; intros b Hset; [exact Hset|].
  cbn [run_events fold_left]. apply IH. destruct e as [t message|t]; cbn [on_event].
  - unfold deliver. apply settled_handleMessage. by apply settled_set_clock.
  - by apply settled_cleanup.
Qed.

End Settled.

Lemma onboarding_advancing : advancing createOnboardingFlow = true.
Proof. vm_compute. reflexivity. Qed.

Lemma new_bot_settled t : settled createOnboardingFlow (new_ConversationalBot t).
Proof.
  split; [reflexivity|]. split; [|constructor].
  intros key state. cbn. by rewrite lookup_empty.
Qed.

(** X16.  The bot as shipped, after any sequence of messages and clean-up
    ticks since its construction: it serves the onboarding flow alone;
    every stored session sits under its user, belongs to the onboarding
    flow and rests in one of its states other than [complete]; everything
    it has sent is a prompt of that flow; and the handler returns normally
    on whatever message comes next. *)
Theorem X16_shipped_bot_never_throws t0 events message :
  fst (handleMessage RegExp.test message
         (run_events RegExp.test events (new_ConversationalBot t0))) = Normal tt /\
  settled createOnboardingFlow (run_events RegExp.test events (new_ConversationalBot t0)).
Proof.
  assert (Hset : settled createOnboardingFlow
                   (run_events RegExp.test events (new_ConversationalBot t0))).
  { apply settled_run_events;
      [exact onboarding_advancing | exact onboarding_actions_ok | apply new_bot_settled]. }
  split; [|exact Hset].
  apply (settled_handleMessage createOnboardingFlow onboarding_advancing
           onboarding_actions_ok message _ Hset).
Qed.

(** ** Replacement patterns and repeated placeholders *)

Lemma interpolate_step_matched template kv :
  String_ (snd kv) = "$&" -> interpolate_step template kv = template.
Proof.
  intros Hv. unfold interpolate_step, JSString.replace. rewrite Hv.
  destruct (JSString.split_first (placeholder (fst kv)) template) as [[a b]|] eqn:E;
    [|reflexivity].
  apply split_first_sound in E. rewrite E at 1.
  change (JSString.GetSubstitution (placeholder (fst kv)) a b "$&")
    with (placeholder (fst kv) ++ "").
  by rewrite append_nil_r.
Qed.

(** X17.  The value is used as a replacement pattern: user data whose
    values all read [$&] put every placeholder back in its own place, so
    the template is rendered unchanged. *)
Theorem X17_matched_text_pattern_fills_nothing template data :
  Forall (fun kv => String_ (snd kv) = "$&") data ->
  interpolatePrompt template (Some data) = template.
Proof.
  intros Hall. apply Forall_entries in Hall. unfold interpolatePrompt.
  induction Hall as [|kv r Hkv _ IH]; [reflexivity|].
  by rewrite interpolate_entries_cons, interpolate_step_matched.
Qed.

Lemma Object_entries_singleton {V} (k : string) (v : V) :
  JSObject.Object_entries (JSObject.literal [(k, v)]) = [(k, v)].
Proof.
  unfold JSObject.Object_entries, JSObject.literal. cbn.
  unfold JSObject.is_index. by destruct (JSObject.array_index k).
Qed.

Lemma prefix_short p a b :
  String.prefix p (a ++ b) = true -> String.length p <= String.length a ->
  String.prefix p a = true.
Proof.
  revert a. induction p as [|x p IH]; intros a; [by destruct a|].
  destruct a as [|y a]; cbn; [lia|].
  destruct (ascii_dec x y); [|done]. intros Hp Hlen. apply IH; [exact Hp | lia].
Qed.

Lemma length_append (a b : string) :
  String.length (a ++ b) = String.length a + String.length b.
Proof. induction a as [|x a IH]; cbn; [reflexivity | by rewrite IH]. Qed.

Lemma occurs_cons pat c s :
  JSString.occurs pat s -> JSString.occurs pat (String c s).
Proof. intros (a & b & ->). by exists (String c a), b. Qed.

(** The occurrence of [init ++ last] after [pre] is the first one when
    the pattern does not occur in [pre ++ init], that is, when no
    occurrence starts further left. *)
Lemma split_first_leftmost init (last : ascii) pre post :
  ~ JSString.occurs (init ++ String last "") (pre ++ init) ->
  JSString.split_first (init ++ String last "")
    (pre ++ (init ++ String last "") ++ post)
  = Some (pre, post).
Proof.
  set (pat := init ++ String last "").
  induction pre as [|c pre IH]; intros Hno.
  - change ("" ++ pat ++ post) with (pat ++ post).
    destruct (pat ++ post) as [|d r] eqn:E.
    + by rewrite split_first_nil, <- E, prefix_append, skip_append.
    + by rewrite split_first_cons, <- E, prefix_append, skip_append.
  - change (String c pre ++ pat ++ post) with (String c (pre ++ pat ++ post)).
    rewrite split_first_cons.
    destruct (String.prefix pat (String c (pre ++ pat ++ post))) eqn:Hp.
    + destruct Hno. exists "".
      assert (Hin : String.prefix pat (String c pre ++ init) = true).
      { apply (prefix_short _ _ (String last "" ++ post)).
        - change (String c (pre ++ pat ++ post))
            with (String c pre ++ (init ++ String last "") ++ post) in Hp.
          by rewrite append_assoc, <- (append_assoc (String c pre)) in Hp.
        - unfold pat. rewrite !length_append. cbn. lia. }
      destruct (prefix_inv _ _ Hin) as [r Hr]. exists r. exact Hr.
    + rewrite IH; [reflexivity|]. intros H. apply Hno.
      change (String c pre ++ init) with (String c (pre ++ init)). by apply occurs_cons.
Qed.

Lemma interpolatePrompt_leftmost key v pre post :
  ~ JSString.occurs (placeholder key) (pre ++ "{" ++ key) ->
  interpolatePrompt (pre ++ placeholder key ++ post) (Some (JSObject.literal [(key, v)]))
  = pre ++ JSString.GetSubstitution (placeholder key) pre post (String_ v) ++ post.
Proof.
  intros Hpre. unfold interpolatePrompt. rewrite Object_entries_singleton.
  cbn [interpolate_entries fold_left]. unfold interpolate_step, JSString.replace.
  cbn [fst snd].
  change (placeholder key) with (("{" ++ key) ++ String "}" "") in *.
  by rewrite (split_first_leftmost _ _ _ _ Hpre).
Qed.

(** X18.  With a single property in the user data and a value without a
    dollar sign, the leftmost placeholder of the key is replaced by the
    value and the rest of the template is copied as it is, later
    placeholders of the same key included.  The placeholder shown is the
    leftmost one when none starts before it, that is, when none occurs in
    what precedes its closing brace. *)
Theorem X18_only_the_leftmost_placeholder_is_filled key v pre post :
  ~ JSString.occurs (placeholder key) (pre ++ "{" ++ key) ->
  JSString.has_char "$" (String_ v) = false ->
  interpolatePrompt (pre ++ placeholder key ++ post) (Some (JSObject.literal [(key, v)]))
  = pre ++ String_ v ++ post.
Proof.
  intros Hpre Hv. rewrite (interpolatePrompt_leftmost _ _ _ _ Hpre).
  by rewrite GetSubstitution_plain.
Qed.

(** ** The first exchange of the onboarding flow *)

Lemma findNextState_catch_all_only input target :
  findNextState RegExp.test input (JSObject.literal [(".*", target)])
  = Normal (Some target).
Proof.
  unfold findNextState. rewrite Object_entries_singleton.
  cbn [findNextState_loop]. by rewrite catch_all_always_matches.
Qed.

Lemma onboarding_askPurpose :
  exists def,
    JSObject.get (states createOnboardingFlow) "askPurpose" = Some def /\
    prompt def = "Nice to meet you, " ++ placeholder "name" ++ askPurpose_tail.
Proof. eexists. split; reflexivity. Qed.

Lemma greeting_has_no_placeholder :
  ~ JSString.occurs (placeholder "name") ("Nice to meet you, " ++ "{" ++ "name").
Proof. intros H. by apply split_first_complete in H. Qed.

(** X19.  The first exchange of the onboarding flow.  Whatever a user who
    rests in [greeting] writes is taken as the name: the handler returns
    normally, the text is stored trimmed but in its own case under
    [userData.name], and the session moves to [askPurpose].  The one
    reply is the prompt of [askPurpose] with the name used as a
    replacement pattern in the placeholder's place; when the trimmed text
    has no dollar sign, that is the greeting by exactly that text. *)
Theorem X19_greeting_takes_the_name message b user state :
  from_user message user ->
  live_session b user state createOnboardingFlow ->
  context state <> [] ->
  currentStateName state createOnboardingFlow = "greeting" ->
  fst (handleMessage RegExp.test message b) = Normal tt /\
  (exists state',
     conversations (run (handleMessage RegExp.test message) b) !! user = Some state' /\
     context state' = (context state ++ ["askPurpose"])%list /\
     userData state'
     = Some (JSObject.literal [("name", VString (JSString.trim (content message)))])) /\
  sent_by (handleMessage RegExp.test message) b
  = [(channelId message,
      Text ("Nice to meet you, "
            ++ JSString.GetSubstitution (placeholder "name") "Nice to meet you, "
                 askPurpose_tail (JSString.trim (content message))
            ++ askPurpose_tail))] /\
  (JSString.has_char "$" (JSString.trim (content message)) = false ->
   sent_by (handleMessage RegExp.test message) b
   = [(channelId message, Text (greets (JSString.trim (content message))))]).
Proof.
  intros Hm Hl Hctx Hname.
  destruct onboarding_askPurpose as (target & Hg & Hp).
  assert (He : conversation_effect RegExp.test message state createOnboardingFlow (clock b)
               = mkEffect (Normal tt)
                   (set_context
                      (greeting_action (set_lastInteraction state (clock b)) (content message))
                      (context state ++ ["askPurpose"]))
                   false
                   [Text ("Nice to meet you, "
                          ++ JSString.GetSubstitution (placeholder "name")
                               "Nice to meet you, " askPurpose_tail
                               (JSString.trim (content message))
                          ++ askPurpose_tail)]).
  { unfold conversation_effect. rewrite Hname.
    change (states_at createOnboardingFlow "greeting") with (Some (Declared greeting_state)).
    destruct (context state) as [|c cs] eqn:Hc; [done|].
    change (transitions greeting_state) with (JSObject.literal [(".*", "askPurpose")]).
    rewrite findNextState_catch_all_only. cbn [truthy].
    rewrite (states_at_declared _ _ _ Hg). cbn [renderPrompt]. rewrite Hp.
    change (acted greeting_state (set_lastInteraction state (clock b)) (content message))
      with (greeting_action (set_lastInteraction state (clock b)) (content message)).
    cbn [greeting_action userData set_userData context set_lastInteraction].
    rewrite (interpolatePrompt_leftmost "name" (VString (JSString.trim (content message)))
               _ _ greeting_has_no_placeholder).
    by rewrite Hc. }
  pose proof Hl as [(_ & Hid & _) _].
  unfold sent_by, run. rewrite (handleMessage_live_effect _ _ _ _ _ _ Hm Hl), He.
  cbn [fst snd outcome transcript conversations replies map].
  split; [reflexivity|]. split.
  { eexists. rewrite apply_effect_lookup. cbn [removes andb].
    rewrite bool_decide_eq_true_2 by reflexivity. split; [reflexivity|]. by split. }
  rewrite drop_app_length. split; [reflexivity|].
  intros Hdollar. unfold greets. by rewrite GetSubstitution_plain.
Qed.

(** ** The fallback of the transition matcher *)

Lemma findNextState_loop_fallback input entries target fallback fallback' :
  In (".*", target) entries ->
  findNextState_loop RegExp.test input entries fallback
  = findNextState_loop RegExp.test input entries fallback'.
Proof.
  induction entries as [|[p t] r IH]; [done|]. intros Hin. cbn [findNextState_loop].
  destruct (RegExp.test p input) as [[|]|] eqn:Ht; [reflexivity| |reflexivity].
  destruct Hin as [[= -> ->]|Hin]; [|by apply IH].
  rewrite catch_all_always_matches in Ht. discriminate.
Qed.

(** X20.  The statement after the loop of [findNextState], the look-up of
    the catch-all entry, never decides the result: an own property [.*]
    is among the enumerated entries and matches every input, so the loop
    has returned or thrown before; the result is that of the loop with
    nothing as the fallback. *)
Theorem X20_catch_all_lookup_is_redundant input table :
  findNextState RegExp.test input table
  = findNextState_loop RegExp.test input (JSObject.Object_entries table) None.
Proof.
  unfold findNextState.
  destruct (JSObject.get table ".*") as [target|] eqn:Hg; [|reflexivity].
  apply (findNextState_loop_fallback _ _ target).
  apply JSObject_get_In in Hg.
  apply (Permutation_in _ (Permutation_sym (Object_entries_perm table)) Hg).
Qed.

(** ** State names that are not states of the flow *)

(** X21.  A live session whose current state name is neither a state of
    its flow nor the name of a member of [Object.prototype]: the read
    [flow.states[name]] is [undefined], the handler returns normally,
    sends the recovery notice and nothing else, and removes the user's
    entry from the store. *)
Theorem X21_undeclared_state_name_recovers tester b message user state flow :
  from_user message user ->
  live_session b user state flow ->
  JSObject.get (states flow) (currentStateName state flow) = None ->
  JSObject.inherits (currentStateName state flow) = false ->
  fst (handleMessage tester message b) = Normal tt /\
  sent_by (handleMessage tester message) b = [(channelId message, Text confused_notice)] /\
  conversations (run (handleMessage tester message) b) = delete user (conversations b).
Proof.
  intros Hm Hl Hs Hi. unfold sent_by, run.
  rewrite (handleMessage_confused _ _ _ _ _ _ Hm Hl (proj2 (states_at_none _ _) (conj Hs Hi))).
  cbn. split; [reflexivity|]. split; [|reflexivity].
  rewrite drop_app_length. reflexivity.
Qed.

(** X22.  A matched transition whose target is neither a state of the
    flow nor the name of a member of [Object.prototype]: the handler
    returns normally, the name is appended to the history, nothing is sent
    and the session stays in the store.  The recovery notice and the
    deletion come with the next message of that user (delivered before
    the session expires), whatever it says. *)
Theorem X22_undeclared_target_recovers_on_next_message
    tester b m1 m2 t2 user state flow def next :
  from_user m1 user -> from_user m2 user ->
  live_session b user state flow ->
  flow_actions_ok flow ->
  context state <> [] ->
  JSObject.get (states flow) (currentStateName state flow) = Some def ->
  findNextState tester (normalize (content m1)) (transitions def) = Normal (Some next) ->
  truthy next = true ->
  JSObject.get (states flow) next = None ->
  JSObject.inherits next = false ->
  (t2 - clock b <= sessionTimeout)%Z ->
  fst (handleMessage tester m1 b) = Normal tt /\
  transcript (run (handleMessage tester m1) b) = transcript b /\
  (exists state1,
     conversations (run (handleMessage tester m1) b) !! user = Some state1 /\
     context state1 = (context state ++ [next])%list) /\
  transcript (deliver tester t2 m2 (run (handleMessage tester m1) b))
  = (transcript b ++ [(channelId m2, Text confused_notice)])%list /\
  conversations (deliver tester t2 m2 (run (handleMessage tester m1) b)) !! user = None.
Proof.
  intros Hm1 Hm2 Hl Hok Hc Hd Hf Ht Hn Hi Ht2. unfold deliver, run.
  pose proof (proj2 (states_at_none flow next) (conj Hn Hi)) as Hat.
  rewrite (handleMessage_transition _ _ _ _ _ _ _ _ Hm1 Hl Hc Hd Hf Ht).
  rewrite (transitionToNextState_absent _ _ _ _ _ _ Hat). cbn.
  destruct (acted_fields flow _ def (set_lastInteraction state (clock b)) (content m1) Hok Hd)
    as (Hu & Hctx & Htop & Hlast).
  cbn in Hu, Hctx, Htop, Hlast.
  set (state1 := acted def (set_lastInteraction state (clock b)) (content m1)) in *.
  set (state2 := set_context state1 (context state1 ++ [next])).
  refine (conj eq_refl (conj eq_refl (conj _ _))).
  { exists state2. rewrite lookup_insert_eq. split; [reflexivity|]. cbn. by rewrite Hctx. }
  destruct Hl as [(Hs & Huser & fname & Htopic & Hfn & Hflow) He].
  erewrite (handleMessage_confused tester _ m2 user state2 flow); eauto.
  - cbn. split; [reflexivity|]. apply lookup_delete_eq.
  - split; [|apply not_expired_within; cbn; lia].
    split; [cbn; apply lookup_insert_eq|]. split; [cbn; congruence|].
    exists fname. cbn. rewrite Htop. done.
  - rewrite (currentStateName_last state2 flow (context state1) next eq_refl Ht). exact Hat.
Qed.



(** ** The further properties at concrete inputs *)

Lemma X2_small_talk_witness :
  handleMessage RegExp.test (says "good morning") (new_ConversationalBot 0)
  = (Normal tt, new_ConversationalBot 0).
Proof.
  apply (X2_message_without_effect RegExp.test (says "good morning")
           (new_ConversationalBot 0)).
  right. split; [exact I | reflexivity].
Defined.

Lemma X3_orphaned_session_witness :
  handleMessage RegExp.test (says "hello") orphaned_world = (Normal tt, orphaned_world).
Proof.
  apply (X3_session_without_flow_is_stuck RegExp.test (says "hello") orphaned_world
           idle_session).
  - reflexivity.
  - reflexivity.
  - right. reflexivity.
Defined.

Lemma X4_parked_witness :
  fst (handleMessage RegExp.test (says "hello?") (world_at parking_flow ["ask"; "parked"] 1000))
  = Normal tt /\
  sent_by (handleMessage RegExp.test (says "hello?"))
    (world_at parking_flow ["ask"; "parked"] 1000) = [(7%N, Text unknown_notice)] /\
  exists state',
    conversations (run (handleMessage RegExp.test (says "hello?"))
                     (world_at parking_flow ["ask"; "parked"] 1000))
    = <["42" := state']> (conversations (world_at parking_flow ["ask"; "parked"] 1000)) /\
    context state' = ["ask"; "parked"] /\
    lastInteraction state' = 1000%Z /\
    isSessionExpired 1000 state' = false.
Proof.
  apply (X4_unknown_input_keeps_the_state RegExp.test (says "hello?")
           (world_at parking_flow ["ask"; "parked"] 1000) "42"
           (mkConversationState "42" ["ask"; "parked"] (Some "parking") 0 (Some []))
           parking_flow
           (mkStateDefinition "Parked." (JSObject.literal []) None)).
  - split; reflexivity.
  - split; [|reflexivity]. split; [reflexivity|]. split; [reflexivity|].
    exists "parking". split; [reflexivity|]. split; reflexivity.
  - exact parking_actions_ok.
  - discriminate.
  - reflexivity.
  - left. reflexivity.
Defined.

Lemma X5_broken_pattern_witness :
  handleMessage RegExp.test (says "yes") (world_at broken_flow ["ask"] 1000)
  = (Throw (SyntaxError "("),
     mkBot (<["42" := mkConversationState "42" ["ask"] (Some "broken") 1000 (Some [])]>
              (conversations (world_at broken_flow ["ask"] 1000)))
       [("broken", broken_flow)] [] 1000).
Proof.
  apply (X5_invalid_pattern_throws RegExp.test (says "yes")
           (world_at broken_flow ["ask"] 1000) "42"
           (mkConversationState "42" ["ask"] (Some "broken") 0 (Some []))
           broken_flow
           (mkStateDefinition "Sure?"
              (JSObject.literal [("(no|nope)", "bye"); ("(", "bye")]) None)
           [("(no|nope)", "bye")] "(" "bye" []).
  - split; reflexivity.
  - split; [|reflexivity]. split; [reflexivity|]. split; [reflexivity|].
    exists "broken". split; [reflexivity|]. split; reflexivity.
  - discriminate.
  - reflexivity.
  - reflexivity.
  - repeat constructor.
  - reflexivity.
Defined.

Lemma X6_downtown_witness :
  fst (handleMessage RegExp.test (says "downtown") (world_at parking_flow ["ask"] 1000))
  = Normal tt /\
  sent_by (handleMessage RegExp.test (says "downtown")) (world_at parking_flow ["ask"] 1000)
  = [(7%N, Text "Parked.")].
Proof.
  apply (X6_transition_sends_the_target_prompt RegExp.test (says "downtown")
           (world_at parking_flow ["ask"] 1000) "42" idle_session parking_flow
           (mkStateDefinition "Where to?" (JSObject.literal [(".*", "parked")]) None)
           "parked"
           (mkStateDefinition "Parked." (JSObject.literal []) None)).
  - split; reflexivity.
  - split; [|reflexivity]. split; [reflexivity|]. split; [reflexivity|].
    exists "parking". split; [reflexivity|]. split; reflexivity.
  - discriminate.
  - reflexivity.
  - reflexivity.
  - reflexivity.
  - reflexivity.
Defined.

Lemma X9_shouting_witness :
  detectFlow [("shouting", shouting_flow)] "HELP" <> Some shouting_flow.
Proof.
  apply (X9_upper_case_trigger_never_fires [("shouting", shouting_flow)] "HELP"
           shouting_flow).
  repeat constructor.
Defined.

Lemma X10_eager_witness :
  detectFlow [("onboarding", createOnboardingFlow); ("eager", eager_flow)] "good morning"
  <> None.
Proof.
  apply (X10_empty_trigger_fires_always
           [("onboarding", createOnboardingFlow); ("eager", eager_flow)] "good morning"
           "eager" eager_flow).
  - right. left. reflexivity.
  - left. reflexivity.
Defined.

Lemma two_users_keyed : keyed_by_user two_users.
Proof.
  intros key state. unfold two_users, world_at. cbn [conversations].
  rewrite lookup_insert_Some, lookup_singleton_Some.
  intros [[<- <-]|[_ [<- <-]]]; reflexivity.
Qed.

Lemma X11_neighbour_witness :
  conversations (run (handleMessage RegExp.test (says "downtown")) two_users) !! "43"
  = Some (mkConversationState "43" ["ask"] (Some "parking") 500 (Some [])).
Proof.
  rewrite (X11_other_sessions_untouched RegExp.test (says "downtown") two_users "43").
  - reflexivity.
  - repeat constructor. exact parking_actions_ok.
  - exact two_users_keyed.
  - discriminate.
Defined.

Lemma X12_five_minutes_witness :
  isSessionExpired 300000 idle_session = false /\
  isSessionExpired 300001 idle_session = true /\
  (isSessionExpired 300001 idle_session = true -> (300001 <= 400000)%Z ->
   isSessionExpired 400000 idle_session = true).
Proof. exact (X12_expiry_boundary idle_session 300001 400000). Defined.

Lemma X15_onboarding_witness :
  exists def next target,
    JSObject.get (states createOnboardingFlow)
      (currentStateName (mkConversationState "42" ["greeting"; "askPurpose"]
                           (Some "onboarding") 0 (Some [])) createOnboardingFlow)
    = Some def /\
    findNextState RegExp.test (normalize "2") (transitions def) = Normal (Some next) /\
    JSObject.get (states createOnboardingFlow) next = Some target /\
    fst (handleMessage RegExp.test (says "2")
           (world_at createOnboardingFlow ["greeting"; "askPurpose"] 1000)) = Normal tt /\
    sent_by (handleMessage RegExp.test (says "2"))
      (world_at createOnboardingFlow ["greeting"; "askPurpose"] 1000)
    = [(7%N,
        Text (interpolatePrompt (prompt target)
                (userData (acted def
                             (set_lastInteraction
                                (mkConversationState "42" ["greeting"; "askPurpose"]
                                   (Some "onboarding") 0 (Some [])) 1000) "2"))))] /\
    (next = "complete" ->
     conversations (run (handleMessage RegExp.test (says "2"))
                      (world_at createOnboardingFlow ["greeting"; "askPurpose"] 1000))
     !! "42" = None) /\
    (next <> "complete" ->
     exists state',
       conversations (run (handleMessage RegExp.test (says "2"))
                        (world_at createOnboardingFlow ["greeting"; "askPurpose"] 1000))
       !! "42" = Some state' /\
       currentStateName state' createOnboardingFlow = next /\
       context state' = ["greeting"; "askPurpose"; next] /\
       resting createOnboardingFlow state' /\ userId state' = "42" /\
       currentTopic state' = Some "onboarding" /\
       isSessionExpired 1000 state' = false).
Proof.
  apply (X15_advancing_flow_always_answers (says "2")
           (world_at createOnboardingFlow ["greeting"; "askPurpose"] 1000) "42"
           (mkConversationState "42" ["greeting"; "askPurpose"] (Some "onboarding") 0 (Some []))
           createOnboardingFlow).
  - vm_compute. reflexivity.
  - exact onboarding_actions_ok.
  - split; reflexivity.
  - split; [|reflexivity]. split; [reflexivity|]. split; [reflexivity|].
    exists "onboarding". split; [reflexivity|]. split; reflexivity.
  - split; [discriminate|]. split; discriminate.
Defined.

Lemma X17_dollar_name_witness :
  interpolatePrompt "Nice to meet you, {name}!"
    (Some (JSObject.literal [("name", VString "$&")]))
  = "Nice to meet you, {name}!".
Proof.
  apply (X17_matched_text_pattern_fills_nothing "Nice to meet you, {name}!"
           (JSObject.literal [("name", VString "$&")])).
  repeat constructor.
Defined.

Lemma X18_twice_witness :
  interpolatePrompt "{x} {name} and {name}"
    (Some (JSObject.literal [("name", VString "Al")]))
  = "{x} Al and {name}".
Proof.
  apply (X18_only_the_leftmost_placeholder_is_filled "name" (VString "Al")
           "{x} " " and {name}").
  - intros H. by apply split_first_complete in H.
  - reflexivity.
Defined.

Lemma X19_ada_witness :
  fst (handleMessage RegExp.test (says "  Ada Lovelace ")
         (world_at createOnboardingFlow ["greeting"] 1000)) = Normal tt /\
  (exists state',
     conversations (run (handleMessage RegExp.test (says "  Ada Lovelace "))
                      (world_at createOnboardingFlow ["greeting"] 1000)) !! "42"
     = Some state' /\
     context state' = ["greeting"; "askPurpose"] /\
     userData state' = Some (JSObject.literal [("name", VString "Ada Lovelace")])) /\
  sent_by (handleMessage RegExp.test (says "  Ada Lovelace "))
    (world_at createOnboardingFlow ["greeting"] 1000)
  = [(7%N, Text (greets "Ada Lovelace"))] /\
  (JSString.has_char "$" "Ada Lovelace" = false ->
   sent_by (handleMessage RegExp.test (says "  Ada Lovelace "))
     (world_at createOnboardingFlow ["greeting"] 1000)
   = [(7%N, Text (greets "Ada Lovelace"))]).
Proof.
  apply (X19_greeting_takes_the_name (says "  Ada Lovelace ")
           (world_at createOnboardingFlow ["greeting"] 1000) "42"
           (mkConversationState "42" ["greeting"] (Some "onboarding") 0 (Some []))).
  - split; reflexivity.
  - split; [|reflexivity]. split; [reflexivity|]. split; [reflexivity|].
    exists "onboarding". split; [reflexivity|]. split; reflexivity.
  - discriminate.
  - reflexivity.
Defined.

Lemma X21_vanished_state_witness :
  fst (handleMessage RegExp.test (says "anything")
         (world_at parking_flow ["ask"; "vanished"] 1000)) = Normal tt /\
  sent_by (handleMessage RegExp.test (says "anything"))
    (world_at parking_flow ["ask"; "vanished"] 1000) = [(7%N, Text confused_notice)] /\
  conversations (run (handleMessage RegExp.test (says "anything"))
                   (world_at parking_flow ["ask"; "vanished"] 1000))
  = delete "42" (conversations (world_at parking_flow ["ask"; "vanished"] 1000)).
Proof.
  apply (X21_undeclared_state_name_recovers RegExp.test
           (world_at parking_flow ["ask"; "vanished"] 1000) (says "anything") "42"
           (mkConversationState "42" ["ask"; "vanished"] (Some "parking") 0 (Some []))
           parking_flow).
  - split; reflexivity.
  - split; [|reflexivity]. split; [reflexivity|]. split; [reflexivity|].
    exists "parking". split; [reflexivity|]. split; reflexivity.
  - reflexivity.
  - reflexivity.
Defined.

Lemma X22_dangling_witness :
  fst (handleMessage RegExp.test (says "downtown") (world_at dangling_flow ["ask"] 1000))
  = Normal tt /\
  transcript (run (handleMessage RegExp.test (says "downtown"))
                (world_at dangling_flow ["ask"] 1000)) = [] /\
  (exists state1,
     conversations (run (handleMessage RegExp.test (says "downtown"))
                      (world_at dangling_flow ["ask"] 1000)) !! "42" = Some state1 /\
     context state1 = ["ask"; "nowhere"]) /\
  transcript (deliver RegExp.test 2000 (says "hello?")
                (run (handleMessage RegExp.test (says "downtown"))
                   (world_at dangling_flow ["ask"] 1000)))
  = [(7%N, Text confused_notice)] /\
  conversations (deliver RegExp.test 2000 (says "hello?")
                   (run (handleMessage RegExp.test (says "downtown"))
                      (world_at dangling_flow ["ask"] 1000))) !! "42" = None.
Proof.
  apply (X22_undeclared_target_recovers_on_next_message RegExp.test
           (world_at dangling_flow ["ask"] 1000) (says "downtown") (says "hello?") 2000 "42"
           (mkConversationState "42" ["ask"] (Some "dangling") 0 (Some []))
           dangling_flow
           (mkStateDefinition "Where to?" (JSObject.literal [(".*", "nowhere")]) None)
           "nowhere").
  - split; reflexivity.
  - split; reflexivity.
  - split; [|reflexivity]. split; [reflexivity|]. split; [reflexivity|].
    exists "dangling". split; [reflexivity|]. split; reflexivity.
  - exact dangling_actions_ok.
  - discriminate.
  - reflexivity.
  - reflexivity.
  - reflexivity.
  - reflexivity.
  - reflexivity.
  - cbn. unfold sessionTimeout. lia.
Defined.


